(** * Locked-In Toolbox backend: study sessions, tags, tasks and analytics

    A shallow embedding of
      - [supabase/migrations/001_initial_schema.sql]   (tables, constraints, triggers),
      - [supabase/migrations/002_row_level_security.sql] (row level security policies),
      - [supabase/migrations/003_functions_and_views.sql] (views, plpgsql functions),
      - [src/services/studySession.service.ts] and [task.service.ts]
    together with the theorems that settle the properties stated about them.

    Conventions of the embedding.
      - A table is the list of its rows, in insertion order.
      - [TIMESTAMPTZ] values are integers: microseconds since the epoch, the
        resolution PostgreSQL stores.  An ISO string produced by JavaScript's
        [Date.prototype.toISOString] has millisecond resolution.
      - [UUID] values are natural numbers; [uuid_generate_v4()] draws from a
        counter kept in the database state, so that generated keys are fresh.
      - A statement either fails with a PostgreSQL / PostgREST error and leaves
        the database untouched, or succeeds and yields the next database.
      - A service method returns the [ApiResponse] record of
        [types/common.types.ts]. *)

From Stdlib Require Import ZArith QArith List String Ascii Bool Lia Arith.
From Stdlib Require Import DecimalString Sorting.Permutation Sorting.Sorted.
Import ListNotations.
Close Scope Q_scope.
Open Scope Z_scope.

Set Implicit Arguments.

(* ================================================================== *)
(** * 1. Scalars: numbers, rounding, strings                           *)
(* ================================================================== *)

Definition uuid := N.
Definition timestamptz := Z.

Definition usec_per_sec : Z := 1000000.
Definition usec_per_min : Z := 60 * usec_per_sec.
Definition usec_per_day : Z := 86400 * usec_per_sec.

Definition int4_min : Z := - 2147483648.
Definition int4_max : Z := 2147483647.

Definition in_int4 (z : Z) : bool := (int4_min <=? z) && (z <=? int4_max).

(** PostgreSQL rounds a [NUMERIC] to fewer digits half away from zero.
    [round_half_away p q] is the integer nearest to the rational [p / q]
    (for [0 < q]), ties going away from zero. *)
Definition round_half_away (p q : Z) : Z :=
  Z.sgn p * ((2 * Z.abs p + q) / (2 * q)).

(** The digits of the quotient [p / q] kept by a [NUMERIC] division whose
    result scale is [s]: PostgreSQL picks [s] so that the quotient has at
    least sixteen significant digits and rounds the last one. *)
Definition numeric_div_digits (s : nat) (p q : Z) : Z :=
  round_half_away (p * 10 ^ Z.of_nat s) q.

(** A [NUMERIC] with a declared scale, as returned by [ROUND(x, n)]: the
    decimal fixed-point number [digits / 10 ^ dscale]. *)
Record numeric := mk_numeric { digits : Z; dscale : nat }.

(** A [NUMERIC] is stored in digits of base 10000.  [numeric_head n] is the
    weight of the first of them (the number of base 10000 digits before the
    decimal point, less one) and its value, for an integer [n]; both are 0
    for 0. *)
Fixpoint nbase_head (fuel : nat) (n : Z) : Z * Z :=
  match fuel with
  | O => (0, n)
  | S fuel' =>
      if n <? 10000 then (0, n)
      else let '(weight, first) := nbase_head fuel' (n / 10000) in
           (weight + 1, first)
  end.

Definition numeric_head (n : Z) : Z * Z :=
  nbase_head (Z.to_nat (Z.log2 (Z.abs n))) (Z.abs n).

(** The scale PostgreSQL gives the quotient of two integers held as
    [NUMERIC] ([select_div_scale]): sixteen significant digits are asked
    for, counted from an estimate of the weight of the quotient, which the
    first digits of the operands lower by one; the scale is at least that of
    the operands, here 0, and at most 1000. *)
Definition select_div_scale (p q : Z) : nat :=
  let '(weight1, first1) := numeric_head p in
  let '(weight2, first2) := numeric_head q in
  let qweight := weight1 - weight2 - (if first1 <=? first2 then 1 else 0) in
  Z.to_nat (Z.min 1000 (Z.max 0 (16 - qweight * 4))).

(** The quotient of two integers as a [NUMERIC], for [0 < q]. *)
Definition numeric_div (p q : Z) : numeric :=
  {| digits := numeric_div_digits (select_div_scale p q) p q;
     dscale := select_div_scale p q |}.

(** Intermediate [NUMERIC] values are exact rationals of [Q].
    [ROUND(x, n)] keeps [n] decimals, half away from zero. *)
Definition ROUND (x : Q) (n : nat) : numeric :=
  {| digits := round_half_away (Qnum x * 10 ^ Z.of_nat n) (Zpos (Qden x));
     dscale := n |}.

(** The assignment cast of a [NUMERIC] to [INTEGER]: the nearest integer,
    half away from zero, and an error outside thirty-two bits. *)
Definition numeric_round_to_Z (x : Q) : Z :=
  round_half_away (Qnum x) (Zpos (Qden x)).

(** [EXTRACT(EPOCH FROM i)] of an interval of [i] microseconds: seconds, a
    [NUMERIC] with six decimals. *)
Definition EXTRACT_EPOCH (interval_usec : Z) : Q := interval_usec # 1000000.

(** The number a [numeric] denotes. *)
Definition numeric_value (x : numeric) : Q :=
  digits x # Pos.of_nat (Nat.pow 10 (dscale x)).

(* ------------------------------------------------------------------ *)
(** ** Strings                                                          *)
(* ------------------------------------------------------------------ *)

(** Characters are the code points U+0000 .. U+00FF.  On these,
    [String.prototype.toLowerCase] folds A-Z and the Latin-1 capitals
    U+00C0 .. U+00DE (but not the multiplication sign U+00D7) by adding 32. *)
Definition char_toLowerCase (c : ascii) : ascii :=
  let n := nat_of_ascii c in
  if ((65 <=? n) && (n <=? 90))%nat
     || ((192 <=? n) && (n <=? 222) && negb (n =? 215))%nat
  then ascii_of_nat (n + 32)
  else c.

Fixpoint toLowerCase (s : string) : string :=
  match s with
  | EmptyString => EmptyString
  | String c s' => String (char_toLowerCase c) (toLowerCase s')
  end.

(** White space and line terminators of ECMAScript below U+0100:
    TAB, LF, VT, FF, CR, SPACE and NO-BREAK SPACE. *)
Definition is_js_whitespace (c : ascii) : bool :=
  let n := nat_of_ascii c in
  (((9 <=? n) && (n <=? 13)) || (n =? 32) || (n =? 160))%nat.

Fixpoint trimStart (s : string) : string :=
  match s with
  | EmptyString => EmptyString
  | String c s' => if is_js_whitespace c then trimStart s' else s
  end.

Fixpoint string_rev (s : string) : string :=
  match s with
  | EmptyString => EmptyString
  | String c s' => (string_rev s' ++ String c EmptyString)%string
  end.

Definition trimEnd (s : string) : string := string_rev (trimStart (string_rev s)).

Definition trim (s : string) : string := trimEnd (trimStart s).

Definition char_length (s : string) : Z := Z.of_nat (String.length s).

(** PostgreSQL's [text] holds no U+0000: a string of a JSON body that has
    one cannot be converted and the statement fails (SQLSTATE 22P05). *)
Fixpoint text_ok (s : string) : bool :=
  match s with
  | EmptyString => true
  | String c s' => negb (Ascii.eqb c "000"%char) && text_ok s'
  end.

Definition text_ok_opt (s : option string) : bool :=
  match s with
  | Some x => text_ok x
  | None => true
  end.

(** A name between double quotes, and numbers in decimal, as messages have
    them. *)
Definition quoted (s : string) : string :=
  (String "034"%char EmptyString ++ s ++ String "034"%char EmptyString)%string.

Definition decimal_of_Z (z : Z) : string := NilZero.string_of_int (Z.to_int z).

Definition decimal_of_nat (n : nat) : string := NilZero.string_of_uint (Nat.to_uint n).

(* ================================================================== *)
(** * 2. Errors and results                                            *)
(* ================================================================== *)

(** The failures a statement of this schema can raise, with what their
    message names (the constraint, the table, the length of the column, the
    number refused), and the PostgREST failure of [.single()]. *)
Inductive pg_error : Type :=
| unique_violation (constraint : string)                   (* 23505 *)
| check_violation (relation constraint : string)           (* 23514 *)
| foreign_key_violation (relation constraint : string)     (* 23503 *)
| rls_violation (relation : string)                        (* 42501 *)
| string_data_right_truncation (n : nat)                   (* 22001 *)
| value_out_of_range (z : Z)       (* 22003, a number of the body *)
| integer_out_of_range             (* 22003, arithmetic or a cast in plpgsql *)
| untranslatable_character         (* 22P05, U+0000 in a string of the body *)
| no_single_row.                   (* PGRST116 *)

Definition error_code (e : pg_error) : string :=
  match e with
  | unique_violation _ => "23505"
  | check_violation _ _ => "23514"
  | foreign_key_violation _ _ => "23503"
  | rls_violation _ => "42501"
  | string_data_right_truncation _ => "22001"
  | value_out_of_range _ => "22003"
  | integer_out_of_range => "22003"
  | untranslatable_character => "22P05"
  | no_single_row => "PGRST116"
  end.

Definition error_message (e : pg_error) : string :=
  match e with
  | unique_violation c =>
      "duplicate key value violates unique constraint " ++ quoted c
  | check_violation r c =>
      "new row for relation " ++ quoted r ++ " violates check constraint " ++ quoted c
  | foreign_key_violation r c =>
      "insert or update on table " ++ quoted r
      ++ " violates foreign key constraint " ++ quoted c
  | rls_violation r =>
      "new row violates row-level security policy for table " ++ quoted r
  | string_data_right_truncation n =>
      "value too long for type character varying(" ++ decimal_of_nat n ++ ")"
  | value_out_of_range z =>
      "value " ++ quoted (decimal_of_Z z) ++ " is out of range for type integer"
  | integer_out_of_range => "integer out of range"
  | untranslatable_character => "unsupported Unicode escape sequence"
  | no_single_row => "JSON object requested, multiple (or no) rows returned"
  end%string.

Definition result (A : Type) : Type := (pg_error + A)%type.

Definition ret {A} (a : A) : result A := inr a.
Definition raise {A} (e : pg_error) : result A := inl e.

Definition bind {A B} (m : result A) (k : A -> result B) : result B :=
  match m with
  | inl e => inl e
  | inr a => k a
  end.

Notation "x <- m ;; k" := (bind m (fun x => k))
  (at level 61, m at next level, right associativity).

Definition guard (b : bool) (e : pg_error) : result unit :=
  if b then ret tt else raise e.

(** [types/common.types.ts] *)
Record ApiError := mk_ApiError { message : string; code : option string }.

Record ApiResponse (T : Type) := mk_ApiResponse {
  data : option T;
  error : option ApiError;
  success : bool }.

Definition api_success {T} (d : T) : ApiResponse T :=
  {| data := Some d; error := None; success := true |}.

(** [{ data: null, error: null, success: true }] *)
Definition api_success_null {T} : ApiResponse T :=
  {| data := None; error := None; success := true |}.

Definition api_failure {T} (e : pg_error) : ApiResponse T :=
  {| data := None;
     error := Some {| message := error_message e; code := Some (error_code e) |};
     success := false |}.

(** A caller tells an empty-but-valid answer from a failure by [success]. *)
Definition is_failure {T} (r : ApiResponse T) : Prop :=
  success r = false /\ data r = None /\ error r <> None.

(* ================================================================== *)
(** * 3. Schema ([001_initial_schema.sql], [types/database.types.ts])   *)
(* ================================================================== *)

Inductive SessionType : Type := pomodoro | countdown | stopwatch | custom.

Module StudySession.
(** A row of [public.study_sessions].  [start_time] is [NOT NULL]. *)
Record t := mk {
  id : uuid;
  user_id : uuid;
  session_type : SessionType;
  start_time : timestamptz;
  end_time : option timestamptz;
  duration_minutes : option Z;
  target_duration_minutes : option Z;
  session_notes : option string;
  mood_rating : option Z;
  productivity_rating : option Z;
  ai_feedback : option string;
  ai_feedback_generated_at : option timestamptz;
  google_calendar_event_id : option string;
  created_at : timestamptz;
  updated_at : timestamptz }.
End StudySession.

Module StudySessionInsert.
(** An optional field that is left out and one that is [null] both store [NULL]. *)
Record t := mk {
  user_id : uuid;
  session_type : SessionType;
  start_time : timestamptz;
  end_time : option timestamptz;
  target_duration_minutes : option Z;
  session_notes : option string;
  mood_rating : option Z;
  productivity_rating : option Z }.
End StudySessionInsert.

Module StudySessionUpdate.
(** [None]: the key is absent, the column keeps its value;
    [Some None]: the key is [null]; [Some (Some v)]: the key is [v]. *)
Record t := mk {
  end_time : option (option timestamptz);
  session_notes : option (option string);
  mood_rating : option (option Z);
  productivity_rating : option (option Z);
  ai_feedback : option (option string);
  ai_feedback_generated_at : option (option timestamptz);
  google_calendar_event_id : option (option string) }.
End StudySessionUpdate.

Module Task.
(** A row of [public.tasks].  [is_completed BOOLEAN DEFAULT FALSE] is nullable. *)
Record t := mk {
  id : uuid;
  user_id : uuid;
  session_id : option uuid;
  title : string;
  description : option string;
  is_completed : option bool;
  completed_at : option timestamptz;
  priority : Z;
  due_date : option timestamptz;
  created_at : timestamptz;
  updated_at : timestamptz;
  order_index : Z }.
End Task.

Module TaskInsert.
(** [TaskInsert] carries neither [is_completed] nor [completed_at]. *)
Record t := mk {
  user_id : uuid;
  session_id : option uuid;
  title : string;
  description : option string;
  priority : option Z;
  due_date : option timestamptz;
  order_index : option Z }.
End TaskInsert.

Module TaskUpdate.
(** [TaskUpdate] carries [is_completed?: boolean] but no [completed_at]. *)
Record t := mk {
  title : option string;
  description : option (option string);
  is_completed : option bool;
  priority : option Z;
  due_date : option (option timestamptz);
  order_index : option Z;
  session_id : option (option uuid) }.
End TaskUpdate.

Module StudySessionTag.
Record t := mk {
  id : uuid;
  session_id : uuid;
  tag : string;
  created_at : timestamptz }.
End StudySessionTag.

Module StudySessionTagInsert.
Record t := mk { session_id : uuid; tag : string }.
End StudySessionTagInsert.

(** The three tables of the core and the key generator. *)
Record database := mk_database {
  study_sessions : list StudySession.t;
  tasks : list Task.t;
  study_session_tags : list StudySessionTag.t;
  next_uuid : uuid }.

(** What a request brings with it: the authenticated principal ([auth.uid()],
    [NULL] for an anonymous request), the server clock [NOW()], the offset of
    the server session's time zone (microseconds), and the client clock
    [Date.now()] (milliseconds). *)
Record env := mk_env {
  auth_uid : option uuid;
  pg_now : timestamptz;
  pg_timezone : Z;
  js_now : Z }.

Definition with_study_sessions (d : database) (l : list StudySession.t) : database :=
  {| study_sessions := l; tasks := tasks d;
     study_session_tags := study_session_tags d; next_uuid := next_uuid d |}.

Definition with_tasks (d : database) (l : list Task.t) : database :=
  {| study_sessions := study_sessions d; tasks := l;
     study_session_tags := study_session_tags d; next_uuid := next_uuid d |}.

Definition with_study_session_tags (d : database) (l : list StudySessionTag.t) : database :=
  {| study_sessions := study_sessions d; tasks := tasks d;
     study_session_tags := l; next_uuid := next_uuid d |}.

Definition with_next_uuid (d : database) (n : uuid) : database :=
  {| study_sessions := study_sessions d; tasks := tasks d;
     study_session_tags := study_session_tags d; next_uuid := n |}.

(** [DATE(ts)] and [CURRENT_DATE]: the calendar day, as a day number, in the
    time zone of the server session. *)
Definition DATE (e : env) (ts : timestamptz) : Z := (ts + pg_timezone e) / usec_per_day.

Definition CURRENT_DATE (e : env) : Z := DATE e (pg_now e).

(** [new Date().toISOString()] read back as a [TIMESTAMPTZ]. *)
Definition Date_now_toISOString (e : env) : timestamptz := js_now e * 1000.

(* ------------------------------------------------------------------ *)
(** ** Column checks of [study_sessions]                                *)
(* ------------------------------------------------------------------ *)

(** [CHECK (r >= 1 AND r <= 5)]: a [NULL] rating passes. *)
Definition rating_check (r : option Z) : bool :=
  match r with
  | None => true
  | Some v => (1 <=? v) && (v <=? 5)
  end.

(** [CONSTRAINT valid_duration CHECK (end_time IS NULL OR end_time > start_time)] *)
Definition valid_duration (s : StudySession.t) : bool :=
  match StudySession.end_time s with
  | None => true
  | Some e => StudySession.start_time s <? e
  end.

Definition study_session_checks (s : StudySession.t) : bool :=
  rating_check (StudySession.mood_rating s)
  && rating_check (StudySession.productivity_rating s)
  && valid_duration s.

(** An [INTEGER] column refuses a value outside thirty-two bits.  (The
    numbers of a body are integers that JSON writes in plain decimal.) *)
Definition int4_column (v : option Z) : bool :=
  match v with
  | None => true
  | Some z => in_int4 z
  end.

(** The failure of a body one of whose numbers does not fit: the message
    quotes the number, the first in the order of the columns. *)
Fixpoint first_out_of_int4 (vs : list (option Z)) : Z :=
  match vs with
  | [] => 0
  | Some z :: vs' => if in_int4 z then first_out_of_int4 vs' else z
  | None :: vs' => first_out_of_int4 vs'
  end.

Definition out_of_int4 (vs : list (option Z)) : pg_error :=
  value_out_of_range (first_out_of_int4 vs).

(** The check of [study_sessions] a row fails; checks are tried in the order
    of their names. *)
Definition failed_session_check (s : StudySession.t) : pg_error :=
  check_violation "study_sessions"
    (if negb (rating_check (StudySession.mood_rating s))
     then "study_sessions_mood_rating_check"
     else if negb (rating_check (StudySession.productivity_rating s))
     then "study_sessions_productivity_rating_check"
     else "valid_duration").

(* ------------------------------------------------------------------ *)
(** ** Triggers                                                         *)
(* ------------------------------------------------------------------ *)

Definition set_duration_minutes (s : StudySession.t) (m : option Z) : StudySession.t :=
  StudySession.mk (StudySession.id s) (StudySession.user_id s)
    (StudySession.session_type s) (StudySession.start_time s)
    (StudySession.end_time s) m (StudySession.target_duration_minutes s)
    (StudySession.session_notes s) (StudySession.mood_rating s)
    (StudySession.productivity_rating s) (StudySession.ai_feedback s)
    (StudySession.ai_feedback_generated_at s)
    (StudySession.google_calendar_event_id s)
    (StudySession.created_at s) (StudySession.updated_at s).

Definition set_session_updated_at (s : StudySession.t) (now : timestamptz) : StudySession.t :=
  StudySession.mk (StudySession.id s) (StudySession.user_id s)
    (StudySession.session_type s) (StudySession.start_time s)
    (StudySession.end_time s) (StudySession.duration_minutes s)
    (StudySession.target_duration_minutes s)
    (StudySession.session_notes s) (StudySession.mood_rating s)
    (StudySession.productivity_rating s) (StudySession.ai_feedback s)
    (StudySession.ai_feedback_generated_at s)
    (StudySession.google_calendar_event_id s)
    (StudySession.created_at s) now.

(** Assigning a [NUMERIC] to an [INTEGER] variable or column. *)
Definition numeric_to_int4 (x : Q) : result Z :=
  let m := numeric_round_to_Z x in
  if in_int4 m then ret m else raise integer_out_of_range.

(** [calculate_session_duration()], [BEFORE INSERT OR UPDATE ... FOR EACH ROW]:
<<
  IF NEW.end_time IS NOT NULL AND NEW.start_time IS NOT NULL THEN
    NEW.duration_minutes := EXTRACT(EPOCH FROM (NEW.end_time - NEW.start_time)) / 60;
  END IF;
  RETURN NEW;
>>
    The interval in seconds is a [NUMERIC], so is the quotient, and the
    assignment to the [INTEGER] column rounds it to the nearest integer.
    The quotient is exact here; [numeric_div_scale_irrelevant] below shows
    that the digits PostgreSQL drops from it never change the rounded
    outcome. *)
Definition calculate_session_duration (NEW : StudySession.t) : result StudySession.t :=
  match StudySession.end_time NEW with
  | Some e =>
      m <- numeric_to_int4
             (EXTRACT_EPOCH (e - StudySession.start_time NEW) / 60)%Q ;;
      ret (set_duration_minutes NEW (Some m))
  | None => ret NEW
  end.

(** [update_updated_at_column()], [BEFORE UPDATE]. *)
Definition update_session_updated_at (e : env) (NEW : StudySession.t) : StudySession.t :=
  set_session_updated_at NEW (pg_now e).

(* ------------------------------------------------------------------ *)
(** ** Row level security ([002_row_level_security.sql])                *)
(* ------------------------------------------------------------------ *)

(** [auth.uid() = user_id]; with [auth.uid()] null the comparison is not true. *)
Definition auth_uid_is (e : env) (owner : uuid) : bool :=
  match auth_uid e with
  | Some u => N.eqb u owner
  | None => false
  end.

(** Policies of [study_sessions]: [USING (auth.uid() = user_id)] for SELECT,
    UPDATE and DELETE, [WITH CHECK (auth.uid() = user_id)] for INSERT. *)
Definition session_policy (e : env) (s : StudySession.t) : bool :=
  auth_uid_is e (StudySession.user_id s).

(** Policies of [tasks], the same expression. *)
Definition task_policy (e : env) (t : Task.t) : bool :=
  auth_uid_is e (Task.user_id t).

(** Policies of [study_session_tags]:
<<
  EXISTS (SELECT 1 FROM public.study_sessions
          WHERE id = study_session_tags.session_id AND user_id = auth.uid())
>>
    The inner query runs under the caller's SELECT policy on
    [study_sessions], which is the same condition. *)
Definition tag_policy_for (e : env) (d : database) (sid : uuid) : bool :=
  existsb (fun s => N.eqb (StudySession.id s) sid
                    && auth_uid_is e (StudySession.user_id s)
                    && session_policy e s)
          (study_sessions d).

Definition tag_policy (e : env) (d : database) (t : StudySessionTag.t) : bool :=
  tag_policy_for e d (StudySessionTag.session_id t).

(* ================================================================== *)
(** * 4. Statements on [study_sessions]                                *)
(* ================================================================== *)

(** PostgREST's [.single()] and [.maybeSingle()] on the rows of an answer. *)
Definition single {A} (rows : list A) : result A :=
  match rows with
  | [r] => ret r
  | _ => raise no_single_row
  end.

Definition maybeSingle {A} (rows : list A) : result (option A) :=
  match rows with
  | [] => ret None
  | [r] => ret (Some r)
  | _ => raise no_single_row
  end.

(** [UPDATE ... WHERE sel RETURNING *]: every selected row is rewritten by
    [f]; the first failure aborts the statement.  The answer is the new table
    and the rewritten rows. *)
Fixpoint update_rows {A} (sel : A -> bool) (f : A -> result A) (rows : list A)
  : result (list A * list A) :=
  match rows with
  | [] => ret ([], [])
  | r :: rest =>
      if sel r then
        r' <- f r ;;
        p <- update_rows sel f rest ;;
        ret (r' :: fst p, r' :: snd p)
      else
        p <- update_rows sel f rest ;;
        ret (r :: fst p, snd p)
  end.

Definition or_keep {A} (u : option A) (old : A) : A :=
  match u with
  | Some v => v
  | None => old
  end.

(** [INSERT INTO study_sessions ... RETURNING *] of one [StudySessionInsert]:
    the conversion of the body (its strings to [text], its numbers to
    [INTEGER]), column defaults, the [BEFORE INSERT] trigger, the INSERT
    policy, then the checks. *)
Definition insert_study_session (e : env) (d : database) (ins : StudySessionInsert.t)
  : result (StudySession.t * database) :=
  _ <- guard (text_ok_opt (StudySessionInsert.session_notes ins))
             untranslatable_character ;;
  _ <- guard (int4_column (StudySessionInsert.target_duration_minutes ins)
              && int4_column (StudySessionInsert.mood_rating ins)
              && int4_column (StudySessionInsert.productivity_rating ins))
             (out_of_int4 [StudySessionInsert.target_duration_minutes ins;
                           StudySessionInsert.mood_rating ins;
                           StudySessionInsert.productivity_rating ins]) ;;
  let row :=
    StudySession.mk (next_uuid d) (StudySessionInsert.user_id ins)
      (StudySessionInsert.session_type ins) (StudySessionInsert.start_time ins)
      (StudySessionInsert.end_time ins) None
      (StudySessionInsert.target_duration_minutes ins)
      (StudySessionInsert.session_notes ins) (StudySessionInsert.mood_rating ins)
      (StudySessionInsert.productivity_rating ins) None None None
      (pg_now e) (pg_now e) in
  NEW <- calculate_session_duration row ;;
  _ <- guard (session_policy e NEW) (rls_violation "study_sessions") ;;
  _ <- guard (study_session_checks NEW) (failed_session_check NEW) ;;
  ret (NEW,
       with_next_uuid (with_study_sessions d (study_sessions d ++ [NEW]))
                      (N.succ (next_uuid d))).

(** Storing into [VARCHAR(n)]: a longer value is an error unless every
    character past the limit is a space, in which case it is cut to [n]. *)
Fixpoint all_spaces (s : string) : bool :=
  match s with
  | EmptyString => true
  | String c s' => Ascii.eqb c " "%char && all_spaces s'
  end.

Definition varchar (n : nat) (s : string) : result string :=
  if (String.length s <=? n)%nat then ret s
  else if all_spaces (substring n (String.length s - n) s)
       then ret (substring 0 n s)
       else raise (string_data_right_truncation n).

(** The same for a column that an UPDATE may leave out or set to null. *)
Definition varchar_given (n : nat) (given : option (option string))
  : result (option (option string)) :=
  match given with
  | Some (Some x) => v <- varchar n x ;; ret (Some (Some v))
  | _ => ret given
  end.

Definition with_google_calendar_event_id (u : StudySessionUpdate.t)
    (google : option (option string)) : StudySessionUpdate.t :=
  StudySessionUpdate.mk (StudySessionUpdate.end_time u)
    (StudySessionUpdate.session_notes u) (StudySessionUpdate.mood_rating u)
    (StudySessionUpdate.productivity_rating u) (StudySessionUpdate.ai_feedback u)
    (StudySessionUpdate.ai_feedback_generated_at u) google.

(** The strings of a body are read as [text]; the character U+0000 cannot
    be. *)
Definition text_ok_given (s : option (option string)) : bool :=
  match s with
  | Some x => text_ok_opt x
  | None => true
  end.

Definition apply_session_update (u : StudySessionUpdate.t) (OLD : StudySession.t)
  : StudySession.t :=
  StudySession.mk (StudySession.id OLD) (StudySession.user_id OLD)
    (StudySession.session_type OLD) (StudySession.start_time OLD)
    (or_keep (StudySessionUpdate.end_time u) (StudySession.end_time OLD))
    (StudySession.duration_minutes OLD)
    (StudySession.target_duration_minutes OLD)
    (or_keep (StudySessionUpdate.session_notes u) (StudySession.session_notes OLD))
    (or_keep (StudySessionUpdate.mood_rating u) (StudySession.mood_rating OLD))
    (or_keep (StudySessionUpdate.productivity_rating u)
             (StudySession.productivity_rating OLD))
    (or_keep (StudySessionUpdate.ai_feedback u) (StudySession.ai_feedback OLD))
    (or_keep (StudySessionUpdate.ai_feedback_generated_at u)
             (StudySession.ai_feedback_generated_at OLD))
    (or_keep (StudySessionUpdate.google_calendar_event_id u)
             (StudySession.google_calendar_event_id OLD))
    (StudySession.created_at OLD) (StudySession.updated_at OLD).

(** One row of an UPDATE of [study_sessions]: the conversion of the body,
    the new values, the two [BEFORE UPDATE] triggers in the order of their
    names ([calculate_duration_trigger], [update_study_sessions_updated_at]),
    the UPDATE policy on the new row, the checks. *)
Definition session_update_row (e : env) (u : StudySessionUpdate.t) (OLD : StudySession.t)
  : result StudySession.t :=
  _ <- guard (text_ok_given (StudySessionUpdate.session_notes u)
              && text_ok_given (StudySessionUpdate.ai_feedback u)
              && text_ok_given (StudySessionUpdate.google_calendar_event_id u))
             untranslatable_character ;;
  _ <- guard (int4_column (or_keep (StudySessionUpdate.mood_rating u) None)
              && int4_column (or_keep (StudySessionUpdate.productivity_rating u) None))
             (out_of_int4 [or_keep (StudySessionUpdate.mood_rating u) None;
                           or_keep (StudySessionUpdate.productivity_rating u) None]) ;;
  google <- varchar_given 255 (StudySessionUpdate.google_calendar_event_id u) ;;
  NEW <- calculate_session_duration
           (apply_session_update (with_google_calendar_event_id u google) OLD) ;;
  let NEW := update_session_updated_at e NEW in
  _ <- guard (session_policy e NEW) (rls_violation "study_sessions") ;;
  _ <- guard (study_session_checks NEW) (failed_session_check NEW) ;;
  ret NEW.

(** [.from('study_sessions').update(u).eq('id', sid).select()]: the rows the
    caller's UPDATE policy shows and whose key is [sid]. *)
Definition update_study_sessions (e : env) (d : database) (sid : uuid)
    (u : StudySessionUpdate.t) : result (list StudySession.t * database) :=
  p <- update_rows (fun s => session_policy e s && N.eqb (StudySession.id s) sid)
                   (session_update_row e u) (study_sessions d) ;;
  ret (snd p, with_study_sessions d (fst p)).

(** [.from('study_sessions').select('*')] under the SELECT policy. *)
Definition select_study_sessions (e : env) (d : database) : list StudySession.t :=
  filter (session_policy e) (study_sessions d).

(* ================================================================== *)
(** * 5. Statements on [tasks]                                         *)
(* ================================================================== *)

(** SQL's three-valued [=] against a boolean constant, [AND], and the test
    an [IF] makes: only [TRUE] takes the branch. *)
Definition sql_eq_bool (a : option bool) (b : bool) : option bool :=
  option_map (Bool.eqb b) a.

Definition sql_and (a b : option bool) : option bool :=
  match a, b with
  | Some false, _ => Some false
  | _, Some false => Some false
  | Some true, Some true => Some true
  | _, _ => None
  end.

Definition sql_is_true (a : option bool) : bool :=
  match a with
  | Some true => true
  | _ => false
  end.

Definition set_completed_at (t : Task.t) (c : option timestamptz) : Task.t :=
  Task.mk (Task.id t) (Task.user_id t) (Task.session_id t) (Task.title t)
    (Task.description t) (Task.is_completed t) c (Task.priority t)
    (Task.due_date t) (Task.created_at t) (Task.updated_at t) (Task.order_index t).

Definition set_task_updated_at (t : Task.t) (now : timestamptz) : Task.t :=
  Task.mk (Task.id t) (Task.user_id t) (Task.session_id t) (Task.title t)
    (Task.description t) (Task.is_completed t) (Task.completed_at t)
    (Task.priority t) (Task.due_date t) (Task.created_at t) now
    (Task.order_index t).

Definition set_task_session_id (t : Task.t) (s : option uuid) : Task.t :=
  Task.mk (Task.id t) (Task.user_id t) s (Task.title t)
    (Task.description t) (Task.is_completed t) (Task.completed_at t)
    (Task.priority t) (Task.due_date t) (Task.created_at t) (Task.updated_at t)
    (Task.order_index t).

(** [set_task_completed_at()], fired by [task_completion_trigger BEFORE UPDATE]:
<<
  IF NEW.is_completed = TRUE AND OLD.is_completed = FALSE THEN
    NEW.completed_at = NOW();
  ELSIF NEW.is_completed = FALSE THEN
    NEW.completed_at = NULL;
  END IF;
  RETURN NEW;
>> *)
Definition set_task_completed_at (e : env) (OLD NEW : Task.t) : Task.t :=
  if sql_is_true (sql_and (sql_eq_bool (Task.is_completed NEW) true)
                          (sql_eq_bool (Task.is_completed OLD) false))
  then set_completed_at NEW (Some (pg_now e))
  else if sql_is_true (sql_eq_bool (Task.is_completed NEW) false)
  then set_completed_at NEW None
  else NEW.

(** [CONSTRAINT title_not_empty CHECK (char_length(title) > 0)] *)
Definition title_not_empty (t : Task.t) : bool := 0 <? char_length (Task.title t).

(** [session_id UUID REFERENCES public.study_sessions(id)]: the referenced
    row must exist; the lookup of a foreign key is not subject to policies. *)
Definition task_session_fk (d : database) (t : Task.t) : bool :=
  match Task.session_id t with
  | None => true
  | Some sid => existsb (fun s => N.eqb (StudySession.id s) sid) (study_sessions d)
  end.

(** [INSERT INTO tasks ... RETURNING *], the body converted first.  The
    columns of [TaskInsert] come from [ins]; [is_completed] and [completed_at] are the two further columns
    an INSERT may name ([None]: the column is not named and takes its
    default, [FALSE] and [NULL]).  No trigger of [tasks] fires on INSERT:
    both are declared [BEFORE UPDATE]. *)
Definition insert_task (e : env) (d : database) (ins : TaskInsert.t)
    (is_completed : option (option bool)) (completed_at : option (option timestamptz))
  : result (Task.t * database) :=
  _ <- guard (text_ok (TaskInsert.title ins)
              && text_ok_opt (TaskInsert.description ins))
             untranslatable_character ;;
  title <- varchar 500 (TaskInsert.title ins) ;;
  _ <- guard (int4_column (TaskInsert.priority ins)
              && int4_column (TaskInsert.order_index ins))
             (out_of_int4 [TaskInsert.priority ins; TaskInsert.order_index ins]) ;;
  let row :=
    Task.mk (next_uuid d) (TaskInsert.user_id ins) (TaskInsert.session_id ins)
      title (TaskInsert.description ins)
      (or_keep is_completed (Some false)) (or_keep completed_at None)
      (or_keep (TaskInsert.priority ins) 0) (TaskInsert.due_date ins)
      (pg_now e) (pg_now e) (or_keep (TaskInsert.order_index ins) 0) in
  _ <- guard (task_policy e row) (rls_violation "tasks") ;;
  _ <- guard (title_not_empty row) (check_violation "tasks" "title_not_empty") ;;
  _ <- guard (task_session_fk d row)
             (foreign_key_violation "tasks" "tasks_session_id_fkey") ;;
  ret (row, with_next_uuid (with_tasks d (tasks d ++ [row])) (N.succ (next_uuid d))).

Definition apply_task_update (u : TaskUpdate.t) (OLD : Task.t) (title : string) : Task.t :=
  Task.mk (Task.id OLD) (Task.user_id OLD)
    (or_keep (TaskUpdate.session_id u) (Task.session_id OLD))
    title
    (or_keep (TaskUpdate.description u) (Task.description OLD))
    (match TaskUpdate.is_completed u with
     | Some b => Some b
     | None => Task.is_completed OLD
     end)
    (Task.completed_at OLD)
    (or_keep (TaskUpdate.priority u) (Task.priority OLD))
    (or_keep (TaskUpdate.due_date u) (Task.due_date OLD))
    (Task.created_at OLD) (Task.updated_at OLD)
    (or_keep (TaskUpdate.order_index u) (Task.order_index OLD)).

(** The two [BEFORE UPDATE] triggers of [tasks], in the order of their names:
    [task_completion_trigger], then [update_tasks_updated_at]. *)
Definition task_before_update (e : env) (OLD NEW : Task.t) : Task.t :=
  set_task_updated_at (set_task_completed_at e OLD NEW) (pg_now e).

Definition task_update_row (e : env) (d : database) (u : TaskUpdate.t) (OLD : Task.t)
  : result Task.t :=
  _ <- guard (text_ok_opt (TaskUpdate.title u)
              && text_ok_given (TaskUpdate.description u))
             untranslatable_character ;;
  title <- varchar 500 (or_keep (TaskUpdate.title u) (Task.title OLD)) ;;
  _ <- guard (int4_column (TaskUpdate.priority u)
              && int4_column (TaskUpdate.order_index u))
             (out_of_int4 [TaskUpdate.priority u; TaskUpdate.order_index u]) ;;
  let NEW := task_before_update e OLD (apply_task_update u OLD title) in
  _ <- guard (task_policy e NEW) (rls_violation "tasks") ;;
  _ <- guard (title_not_empty NEW) (check_violation "tasks" "title_not_empty") ;;
  _ <- guard (task_session_fk d NEW)
             (foreign_key_violation "tasks" "tasks_session_id_fkey") ;;
  ret NEW.

(** [.from('tasks').update(u).eq('id', tid).select()] *)
Definition update_tasks (e : env) (d : database) (tid : uuid) (u : TaskUpdate.t)
  : result (list Task.t * database) :=
  p <- update_rows (fun t => task_policy e t && N.eqb (Task.id t) tid)
                   (task_update_row e d u) (tasks d) ;;
  ret (snd p, with_tasks d (fst p)).

Definition select_tasks (e : env) (d : database) : list Task.t :=
  filter (task_policy e) (tasks d).

(** [.from('tasks').delete().eq('id', tid)] under the DELETE policy. *)
Definition delete_tasks (e : env) (d : database) (tid : uuid) : database :=
  with_tasks d
    (filter (fun t => negb (task_policy e t && N.eqb (Task.id t) tid)) (tasks d)).

(** [.from('study_sessions').delete().eq('id', sid)] under the DELETE policy.
    [study_session_tags.session_id ... ON DELETE CASCADE] removes the tags of
    a deleted session; [tasks.session_id ... ON DELETE SET NULL] updates the
    tasks that refer to it, which fires the [BEFORE UPDATE] triggers of
    [tasks].  Referential actions are not subject to policies. *)
Definition delete_study_sessions (e : env) (d : database) (sid : uuid) : database :=
  let doomed (s : StudySession.t) := session_policy e s && N.eqb (StudySession.id s) sid in
  let gone (i : uuid) := existsb (fun s => doomed s && N.eqb (StudySession.id s) i)
                                 (study_sessions d) in
  {| study_sessions := filter (fun s => negb (doomed s)) (study_sessions d);
     tasks :=
       map (fun t =>
              match Task.session_id t with
              | Some i => if gone i
                          then task_before_update e t (set_task_session_id t None)
                          else t
              | None => t
              end) (tasks d);
     study_session_tags :=
       filter (fun g => negb (gone (StudySessionTag.session_id g)))
              (study_session_tags d);
     next_uuid := next_uuid d |}.

(* ================================================================== *)
(** * 6. Statements on [study_session_tags]                            *)
(* ================================================================== *)

(** [UNIQUE(session_id, tag)] *)
Definition tag_exists (rows : list StudySessionTag.t) (sid : uuid) (tag : string) : bool :=
  existsb (fun g => N.eqb (StudySessionTag.session_id g) sid
                    && String.eqb (StudySessionTag.tag g) tag) rows.

(** The [tag] of a row of the body as a value of [tag VARCHAR(50)]: the
    string holds no U+0000 and fits the column. *)
Definition tag_of_body (s : string) : result string :=
  _ <- guard (text_ok s) untranslatable_character ;;
  varchar 50 s.

(** The rows of a body are all converted before the first of them is
    inserted: a value that cannot be converted is reported whatever the
    policy or the index say of the rows before it. *)
Fixpoint tags_of_body (rows : list StudySessionTagInsert.t) : result unit :=
  match rows with
  | [] => ret tt
  | r :: rest =>
      _ <- tag_of_body (StudySessionTagInsert.tag r) ;;
      tags_of_body rest
  end.

(** One row of a multi-row INSERT into [study_session_tags]: the value is
    stored into [tag VARCHAR(50)], the INSERT policy is checked, the foreign
    key must resolve, and the unique index refuses a pair that is already
    there, be it from an earlier statement or from an earlier row of this
    one.  There is no check on the content of [tag] other than those of its
    type. *)
Definition insert_tag_row (e : env) (d : database)
    (acc : list StudySessionTag.t * list StudySessionTag.t * uuid)
    (ins : StudySessionTagInsert.t)
  : result (list StudySessionTag.t * list StudySessionTag.t * uuid) :=
  let '(table, inserted, next) := acc in
  tag <- tag_of_body (StudySessionTagInsert.tag ins) ;;
  let sid := StudySessionTagInsert.session_id ins in
  _ <- guard (tag_policy_for e d sid) (rls_violation "study_session_tags") ;;
  _ <- guard (existsb (fun s => N.eqb (StudySession.id s) sid) (study_sessions d))
             (foreign_key_violation "study_session_tags"
                                    "study_session_tags_session_id_fkey") ;;
  _ <- guard (negb (tag_exists table sid tag))
             (unique_violation "study_session_tags_session_id_tag_key") ;;
  let row := StudySessionTag.mk next sid tag (pg_now e) in
  ret (table ++ [row], inserted ++ [row], N.succ next).

Fixpoint insert_tag_rows (e : env) (d : database)
    (acc : list StudySessionTag.t * list StudySessionTag.t * uuid)
    (rows : list StudySessionTagInsert.t)
  : result (list StudySessionTag.t * list StudySessionTag.t * uuid) :=
  match rows with
  | [] => ret acc
  | r :: rest =>
      acc' <- insert_tag_row e d acc r ;;
      insert_tag_rows e d acc' rest
  end.

(** [.from('study_session_tags').insert(rows).select()]: one statement, all
    rows or none. *)
Definition insert_study_session_tags (e : env) (d : database)
    (rows : list StudySessionTagInsert.t)
  : result (list StudySessionTag.t * database) :=
  _ <- tags_of_body rows ;;
  acc <- insert_tag_rows e d (study_session_tags d, [], next_uuid d) rows ;;
  let '(table, inserted, next) := acc in
  ret (inserted, with_next_uuid (with_study_session_tags d table) next).

Definition select_study_session_tags (e : env) (d : database) : list StudySessionTag.t :=
  filter (tag_policy e d) (study_session_tags d).

(* ================================================================== *)
(** * 7. Views and functions ([003_functions_and_views.sql])           *)
(* ================================================================== *)

(** The tables enable row level security without [FORCE], and the views
    and [SECURITY DEFINER] functions below are created by the same
    migrations, hence owned by the owner of the tables: they read the tables
    whole, whoever the caller is. *)

Definition is_some {A} (o : option A) : bool :=
  match o with
  | Some _ => true
  | None => false
  end.

Fixpoint non_null {A} (l : list (option A)) : list A :=
  match l with
  | [] => []
  | Some v :: l' => v :: non_null l'
  | None :: l' => non_null l'
  end.

Definition Zsum (l : list Z) : Z := fold_right Z.add 0 l.

(** [SUM], [AVG] and [MAX] skip nulls and are null over no value at all.
    [AVG] of an [INTEGER] column is the [NUMERIC] quotient of the sum by the
    count; an answer carries it as a JSON number with these digits. *)
Definition SUM (l : list (option Z)) : option Z :=
  match non_null l with
  | [] => None
  | vs => Some (Zsum vs)
  end.

Definition AVG (l : list (option Z)) : option numeric :=
  match non_null l with
  | [] => None
  | vs => Some (numeric_div (Zsum vs) (Z.of_nat (List.length vs)))
  end.

Definition MAX (l : list Z) : option Z :=
  match l with
  | [] => None
  | v :: vs => Some (fold_right Z.max v vs)
  end.

Definition COUNT {A} (l : list A) : Z := Z.of_nat (List.length l).

Module UserStudyStats.
Record t := mk {
  user_id : uuid;
  total_sessions : Z;
  total_minutes_studied : option Z;
  avg_session_duration : option numeric;
  avg_productivity_rating : option numeric;
  avg_mood_rating : option numeric;
  last_session_date : option timestamptz;
  sessions_this_week : Z;
  sessions_this_month : Z }.
End UserStudyStats.

Definition INTERVAL_days (n : Z) : Z := n * usec_per_day.

(** One group of [user_study_stats]. *)
Definition user_study_stats_group (e : env) (u : uuid) (g : list StudySession.t)
  : UserStudyStats.t :=
  UserStudyStats.mk u
    (COUNT g)
    (SUM (map StudySession.duration_minutes g))
    (AVG (map StudySession.duration_minutes g))
    (AVG (map StudySession.productivity_rating g))
    (AVG (map StudySession.mood_rating g))
    (MAX (map StudySession.start_time g))
    (COUNT (filter (fun s => pg_now e - INTERVAL_days 7 <=? StudySession.start_time s) g))
    (COUNT (filter (fun s => pg_now e - INTERVAL_days 30 <=? StudySession.start_time s) g)).

(** [CREATE VIEW public.user_study_stats AS SELECT ...
     FROM public.study_sessions WHERE end_time IS NOT NULL GROUP BY user_id]:
    one row for each [user_id] that has a row with an [end_time]. *)
Definition user_study_stats (e : env) (d : database) : list UserStudyStats.t :=
  let ended := filter (fun s => is_some (StudySession.end_time s)) (study_sessions d) in
  map (fun u =>
         user_study_stats_group e u
           (filter (fun s => N.eqb (StudySession.user_id s) u) ended))
      (nodup N.eq_dec (map StudySession.user_id ended)).

(** The condition of the [EXISTS] in [get_study_streak]:
<<
  SELECT 1 FROM public.study_sessions
  WHERE user_id = p_user_id AND DATE(start_time) = check_date
    AND end_time IS NOT NULL
>> *)
Definition studied_on (e : env) (p_user_id : uuid) (check_date : Z)
    (s : StudySession.t) : bool :=
  N.eqb (StudySession.user_id s) p_user_id
  && (DATE e (StudySession.start_time s) =? check_date)
  && is_some (StudySession.end_time s).

(** The [LOOP] of [get_study_streak], with the number of iterations left as
    fuel: [None] when the fuel runs out.  [streak] is an [INTEGER]. *)
Fixpoint streak_loop (fuel : nat) (e : env) (rows : list StudySession.t)
    (p_user_id : uuid) (streak check_date : Z) : option (result Z) :=
  match fuel with
  | O => None
  | S fuel' =>
      if existsb (studied_on e p_user_id check_date) rows then
        if in_int4 (streak + 1)
        then streak_loop fuel' e rows p_user_id (streak + 1) (check_date - 1)
        else Some (raise integer_out_of_range)
      else Some (ret streak)
  end.

(** [get_study_streak(p_user_id UUID) RETURNS INTEGER ... SECURITY DEFINER]:
    [streak := 0], [check_date := CURRENT_DATE], then the loop.  Every
    iteration that goes on has found a row on a day not seen before, so one
    more iteration than there are rows is fuel enough
    ([get_study_streak_terminates]). *)
Definition get_study_streak (e : env) (d : database) (p_user_id : uuid)
  : option (result Z) :=
  streak_loop (S (List.length (study_sessions d))) e (study_sessions d) p_user_id
              0 (CURRENT_DATE e).

(** [get_task_completion_rate(p_user_id UUID) RETURNS NUMERIC ... SECURITY DEFINER]:
<<
  SELECT COUNT( * ) INTO total_tasks FROM public.tasks WHERE user_id = p_user_id;
  IF total_tasks = 0 THEN RETURN 0; END IF;
  SELECT COUNT( * ) INTO completed_tasks FROM public.tasks
  WHERE user_id = p_user_id AND is_completed = TRUE;
  RETURN ROUND((completed_tasks::NUMERIC / total_tasks::NUMERIC) * 100, 2);
>>
    Both counters are [INTEGER] variables. *)
Definition get_task_completion_rate (d : database) (p_user_id : uuid) : result numeric :=
  let total_tasks :=
    COUNT (filter (fun t => N.eqb (Task.user_id t) p_user_id) (tasks d)) in
  _ <- guard (in_int4 total_tasks) integer_out_of_range ;;
  if total_tasks =? 0 then ret {| digits := 0; dscale := 0 |}
  else
    let completed_tasks :=
      COUNT (filter (fun t => N.eqb (Task.user_id t) p_user_id
                              && sql_is_true (sql_eq_bool (Task.is_completed t) true))
                    (tasks d)) in
    _ <- guard (in_int4 completed_tasks) integer_out_of_range ;;
    ret (ROUND ((inject_Z completed_tasks / inject_Z total_tasks) * 100)%Q 2).

(* ================================================================== *)
(** * 8. The query builder of [getUserSessions]                        *)
(* ================================================================== *)

Inductive OrderBy : Type := by_start_time | by_created_at.
Inductive OrderDirection : Type := asc | desc.

Record DateRangeFilter := mk_DateRangeFilter {
  start_date : timestamptz;
  end_date : timestamptz }.

Module SessionListOptions.
Record t := mk {
  limit : option Z;
  offset : option Z;
  orderBy : option OrderBy;
  orderDirection : option OrderDirection;
  dateRange : option DateRangeFilter }.
End SessionListOptions.

(** What the builder has collected when it is awaited: the filters, the
    ordering, and the [limit] and [offset] parameters of the request. *)
Record query := mk_query {
  q_filters : list (StudySession.t -> bool);
  q_order : option (OrderBy * bool);
  q_limit : option Z;
  q_offset : option Z }.

Definition from_study_sessions : query :=
  {| q_filters := []; q_order := None; q_limit := None; q_offset := None |}.

Definition q_filter (f : StudySession.t -> bool) (q : query) : query :=
  {| q_filters := q_filters q ++ [f]; q_order := q_order q;
     q_limit := q_limit q; q_offset := q_offset q |}.

Definition q_eq_user_id (u : uuid) : query -> query :=
  q_filter (fun s => N.eqb (StudySession.user_id s) u).

Definition q_gte_start_time (v : timestamptz) : query -> query :=
  q_filter (fun s => v <=? StudySession.start_time s).

Definition q_lte_start_time (v : timestamptz) : query -> query :=
  q_filter (fun s => StudySession.start_time s <=? v).

Definition q_is_end_time_null : query -> query :=
  q_filter (fun s => negb (is_some (StudySession.end_time s))).

Definition q_order_by (col : OrderBy) (ascending : bool) (q : query) : query :=
  {| q_filters := q_filters q; q_order := Some (col, ascending);
     q_limit := q_limit q; q_offset := q_offset q |}.

(** [.limit(count)] sets the [limit] parameter. *)
Definition q_set_limit (count : Z) (q : query) : query :=
  {| q_filters := q_filters q; q_order := q_order q;
     q_limit := Some count; q_offset := q_offset q |}.

(** [.range(from, to)] sets [offset] to [from] and [limit] to [to - from + 1],
    replacing an earlier [limit]. *)
Definition q_range (from to : Z) (q : query) : query :=
  {| q_filters := q_filters q; q_order := q_order q;
     q_limit := Some (to - from + 1); q_offset := Some from |}.

Definition order_key (col : OrderBy) (s : StudySession.t) : Z :=
  match col with
  | by_start_time => StudySession.start_time s
  | by_created_at => StudySession.created_at s
  end.

Fixpoint insert_sorted {A} (le : A -> A -> bool) (x : A) (l : list A) : list A :=
  match l with
  | [] => [x]
  | y :: l' => if le x y then x :: l else y :: insert_sorted le x l'
  end.

(** [ORDER BY]: rows with equal keys keep the order of the table. *)
Definition sort_rows {A} (le : A -> A -> bool) (l : list A) : list A :=
  fold_right (insert_sorted le) [] l.

Definition apply_order (o : option (OrderBy * bool)) (l : list StudySession.t)
  : list StudySession.t :=
  match o with
  | None => l
  | Some (col, true) => sort_rows (fun a b => order_key col a <=? order_key col b) l
  | Some (col, false) => sort_rows (fun a b => order_key col b <=? order_key col a) l
  end.

(** [OFFSET] then [LIMIT].  (PostgREST refuses negative values; here they
    count as zero, and nothing below depends on that.) *)
Definition paginate {A} (lim off : option Z) (l : list A) : list A :=
  let l := match off with
           | Some o => skipn (Z.to_nat o) l
           | None => l
           end in
  match lim with
  | Some n => firstn (Z.to_nat n) l
  | None => l
  end.

(** Awaiting the builder: the rows the SELECT policy shows, filtered,
    ordered, paginated. *)
Definition run_query (e : env) (d : database) (q : query) : list StudySession.t :=
  paginate (q_limit q) (q_offset q)
    (apply_order (q_order q)
       (fold_left (fun rows f => filter f rows) (q_filters q)
                  (select_study_sessions e d))).

(** JavaScript's truthiness of an optional number: [undefined] and [0] are
    falsy. *)
Definition truthy (o : option Z) : bool :=
  match o with
  | Some n => negb (n =? 0)
  | None => false
  end.

(* ================================================================== *)
(** * 9. [StudySessionService]                                         *)
(* ================================================================== *)

(** [if (error) return { data: null, error, success: false };
     return { data, error: null, success: true }] *)
Definition respond {T} (d : database) (r : result (T * database))
  : ApiResponse T * database :=
  match r with
  | inl err => (api_failure err, d)
  | inr (x, d') => (api_success x, d')
  end.

Definition respond_read {T} (r : result T) : ApiResponse T :=
  match r with
  | inl err => api_failure err
  | inr x => api_success x
  end.

(** [.insert(sessionData).select().single()] *)
Definition createSession (e : env) (d : database) (sessionData : StudySessionInsert.t)
  : ApiResponse StudySession.t * database :=
  respond d (p <- insert_study_session e d sessionData ;;
             r <- single [fst p] ;;
             ret (r, snd p)).

(** [.select('*').eq('id', sessionId).single()] *)
Definition getSession (e : env) (d : database) (sessionId : uuid)
  : ApiResponse StudySession.t :=
  respond_read
    (single (filter (fun s => N.eqb (StudySession.id s) sessionId)
                    (select_study_sessions e d))).

(** [.update(updates).eq('id', sessionId).select().single()] *)
Definition updateSession (e : env) (d : database) (sessionId : uuid)
    (updates : StudySessionUpdate.t) : ApiResponse StudySession.t * database :=
  respond d (p <- update_study_sessions e d sessionId updates ;;
             r <- single (fst p) ;;
             ret (r, snd p)).

Module EndData.
Record t := mk {
  mood_rating : option Z;
  productivity_rating : option Z;
  session_notes : option string }.
End EndData.

(** [const updates = { end_time: new Date().toISOString(), ...endData };
     return await this.updateSession(sessionId, updates);]
    There is no look at the session before the update. *)
Definition endSession (e : env) (d : database) (sessionId : uuid)
    (endData : option EndData.t) : ApiResponse StudySession.t * database :=
  let updates :=
    StudySessionUpdate.mk
      (Some (Some (Date_now_toISOString e)))
      (match endData with
       | Some x => option_map Some (EndData.session_notes x)
       | None => None
       end)
      (match endData with
       | Some x => option_map Some (EndData.mood_rating x)
       | None => None
       end)
      (match endData with
       | Some x => option_map Some (EndData.productivity_rating x)
       | None => None
       end)
      None None None in
  updateSession e d sessionId updates.

(** [.delete().eq('id', sessionId)]; the answer carries no rows. *)
Definition deleteSession (e : env) (d : database) (sessionId : uuid)
  : ApiResponse unit * database :=
  (api_success_null, delete_study_sessions e d sessionId).

Definition getUserSessions (e : env) (d : database) (userId : uuid)
    (options : option SessionListOptions.t) : ApiResponse (list StudySession.t) :=
  let opt {A} (f : SessionListOptions.t -> option A) : option A :=
    match options with
    | Some o => f o
    | None => None
    end in
  let query := q_eq_user_id userId from_study_sessions in
  (* Apply date range filter *)
  let query :=
    match opt SessionListOptions.dateRange with
    | Some r => q_lte_start_time (end_date r) (q_gte_start_time (start_date r) query)
    | None => query
    end in
  (* Apply ordering *)
  let orderBy := or_keep (opt SessionListOptions.orderBy) by_start_time in
  let orderDirection := or_keep (opt SessionListOptions.orderDirection) desc in
  let query :=
    q_order_by orderBy
      (match orderDirection with asc => true | desc => false end) query in
  (* Apply pagination *)
  let limit := opt SessionListOptions.limit in
  let offset := opt SessionListOptions.offset in
  let query :=
    if truthy limit then q_set_limit (or_keep limit 0) query else query in
  let query :=
    if truthy offset
    then q_range (or_keep offset 0)
                 (or_keep offset 0 + (if truthy limit then or_keep limit 0 else 10) - 1)
                 query
    else query in
  api_success (run_query e d query).

(** [.eq('user_id', userId).is('end_time', null)
     .order('start_time', { ascending: false }).limit(1).maybeSingle()] *)
Definition getActiveSession (e : env) (d : database) (userId : uuid)
  : ApiResponse (option StudySession.t) :=
  respond_read
    (maybeSingle
       (run_query e d
          (q_set_limit 1
             (q_order_by by_start_time false
                (q_is_end_time_null (q_eq_user_id userId from_study_sessions)))))).

(** [.from('user_study_stats').select('*').eq('user_id', userId).single()] *)
Definition getUserStats (e : env) (d : database) (userId : uuid)
  : ApiResponse UserStudyStats.t :=
  respond_read
    (single (filter (fun r => N.eqb (UserStudyStats.user_id r) userId)
                    (user_study_stats e d))).

(** [supabase.rpc('get_study_streak', { p_user_id: userId })], then
    [data: data || 0].  [None] only if the loop of the function ran out of
    fuel. *)
Definition getStudyStreak (e : env) (d : database) (userId : uuid)
  : option (ApiResponse Z) :=
  option_map
    (fun r => respond_read (x <- r ;; ret (if x =? 0 then 0 else x)))
    (get_study_streak e d userId).

(** [tag.toLowerCase().trim()] *)
Definition normalize_tag (tag : string) : string := trim (toLowerCase tag).

(** [tags.map((tag) => ({ session_id: sessionId, tag: tag.toLowerCase().trim() }))]
    then [.from('study_session_tags').insert(tagInserts).select()].
    The tags are not inspected. *)
Definition addSessionTags (e : env) (d : database) (sessionId : uuid)
    (tags : list string) : ApiResponse (list StudySessionTag.t) * database :=
  let tagInserts :=
    map (fun tag => StudySessionTagInsert.mk sessionId (normalize_tag tag)) tags in
  respond d (insert_study_session_tags e d tagInserts).

(** [.from('study_session_tags').select('*').eq('session_id', sessionId)] *)
Definition getSessionTags (e : env) (d : database) (sessionId : uuid)
  : ApiResponse (list StudySessionTag.t) :=
  api_success
    (filter (fun g => N.eqb (StudySessionTag.session_id g) sessionId)
            (select_study_session_tags e d)).

(** [.delete().eq('session_id', sessionId).eq('tag', tag.toLowerCase().trim())] *)
Definition removeSessionTag (e : env) (d : database) (sessionId : uuid) (tag : string)
  : ApiResponse unit * database :=
  (api_success_null,
   with_study_session_tags d
     (filter (fun g => negb (tag_policy e d g
                             && N.eqb (StudySessionTag.session_id g) sessionId
                             && String.eqb (StudySessionTag.tag g) (normalize_tag tag)))
             (study_session_tags d))).

(* ================================================================== *)
(** * 10. [TaskService]                                                *)
(* ================================================================== *)

(** [.from('tasks').insert(taskData).select().single()] with a [TaskInsert]. *)
Definition createTask (e : env) (d : database) (taskData : TaskInsert.t)
  : ApiResponse Task.t * database :=
  respond d (p <- insert_task e d taskData None None ;;
             r <- single [fst p] ;;
             ret (r, snd p)).

Definition getTask (e : env) (d : database) (taskId : uuid) : ApiResponse Task.t :=
  respond_read
    (single (filter (fun t => N.eqb (Task.id t) taskId) (select_tasks e d))).

Definition updateTask (e : env) (d : database) (taskId : uuid) (updates : TaskUpdate.t)
  : ApiResponse Task.t * database :=
  respond d (p <- update_tasks e d taskId updates ;;
             r <- single (fst p) ;;
             ret (r, snd p)).

Definition deleteTask (e : env) (d : database) (taskId : uuid)
  : ApiResponse unit * database :=
  (api_success_null, delete_tasks e d taskId).

(** JavaScript's [!x] on a boolean or [null]. *)
Definition js_not (x : option bool) : bool :=
  match x with
  | Some true => false
  | _ => true
  end.

Definition only_is_completed (b : bool) : TaskUpdate.t :=
  TaskUpdate.mk None None (Some b) None None None None.

(** Reads [is_completed] with [.single()], then
    [.update({ is_completed: !currentTask.is_completed }).eq('id', taskId)
     .select().single()]. *)
Definition toggleTaskCompletion (e : env) (d : database) (taskId : uuid)
  : ApiResponse Task.t * database :=
  match single (filter (fun t => N.eqb (Task.id t) taskId) (select_tasks e d)) with
  | inl getError => (api_failure getError, d)
  | inr currentTask =>
      updateTask e d taskId (only_is_completed (js_not (Task.is_completed currentTask)))
  end.

(** [data || 0] on the number of the answer. *)
Definition js_or_zero (x : numeric) : numeric :=
  if digits x =? 0 then {| digits := 0; dscale := 0 |} else x.

(** [supabase.rpc('get_task_completion_rate', { p_user_id: userId })] *)
Definition getTaskCompletionRate (e : env) (d : database) (userId : uuid)
  : ApiResponse numeric :=
  respond_read (x <- get_task_completion_rate d userId ;; ret (js_or_zero x)).

(** [taskUpdates.map(({ id, order_index }) =>
       supabase.from('tasks').update({ order_index }).eq('id', id))],
    awaited together; the answers, failures included, are dropped. *)
Definition reorderTasks (e : env) (d : database) (taskUpdates : list (uuid * Z))
  : ApiResponse unit * database :=
  (api_success_null,
   fold_left
     (fun d' '(id, order_index) =>
        match update_tasks e d' id
                (TaskUpdate.mk None None None None None (Some order_index) None) with
        | inl _ => d'
        | inr (_, d'') => d''
        end)
     taskUpdates d).

(* ================================================================== *)
(** * 11. Vocabulary of the properties                                 *)
(* ================================================================== *)

(** The writes the service makes to [study_sessions] that can set or change
    a timestamp. *)
Inductive session_write : Type :=
| Write_create (sessionData : StudySessionInsert.t)
| Write_update (sessionId : uuid) (updates : StudySessionUpdate.t)
| Write_end (sessionId : uuid) (endData : option EndData.t).

Definition run_session_write (e : env) (d : database) (w : session_write)
  : ApiResponse StudySession.t * database :=
  match w with
  | Write_create sessionData => createSession e d sessionData
  | Write_update sessionId updates => updateSession e d sessionId updates
  | Write_end sessionId endData => endSession e d sessionId endData
  end.

(** The elapsed time of a session in microseconds, when it has ended. *)
Definition elapsed_usec (s : StudySession.t) : option Z :=
  option_map (fun t => t - StudySession.start_time s) (StudySession.end_time s).

(** What a session with both timestamps stores as its duration. *)
Definition duration_consistent (s : StudySession.t) : Prop :=
  forall t_end, StudySession.end_time s = Some t_end ->
    StudySession.duration_minutes s
    = Some (round_half_away (t_end - StudySession.start_time s) usec_per_min).

(** The number of whole elapsed minutes. *)
Definition whole_minutes (s : StudySession.t) : option Z :=
  option_map (fun x => x / usec_per_min) (elapsed_usec s).

(* ------------------------------------------------------------------ *)
(** ** Fixtures                                                         *)
(* ------------------------------------------------------------------ *)

Definition owner_A : uuid := 1%N.
Definition principal_B : uuid := 2%N.

(** 2025-01-01T10:00:00Z *)
Definition t_2025_01_01_10h : timestamptz := 1735725600 * usec_per_sec.

Definition minutes (n : Z) : Z := n * usec_per_min.
Definition seconds (n : Z) : Z := n * usec_per_sec.
Definition days (n : Z) : Z := n * usec_per_day.

(** A request of [who] at instant [now], server and client clocks agreeing,
    the server session in UTC. *)
Definition request (who : uuid) (now : timestamptz) : env :=
  {| auth_uid := Some who; pg_now := now; pg_timezone := 0; js_now := now / 1000 |}.

Definition empty_database : database :=
  {| study_sessions := []; tasks := []; study_session_tags := []; next_uuid := 100%N |}.

(** A session of [owner] begun at [start], ended after [len] microseconds if
    [len] is given. *)
Definition session_row (id owner : uuid) (start : timestamptz) (len : option Z)
  : StudySession.t :=
  StudySession.mk id owner pomodoro start
    (option_map (fun l => start + l) len)
    (option_map (fun l => round_half_away l usec_per_min) len)
    (Some 25) None None None None None None start start.

(** C1: a session of one minute and forty seconds. *)
Definition c1_insert : StudySessionInsert.t :=
  StudySessionInsert.mk owner_A pomodoro t_2025_01_01_10h
    (Some (t_2025_01_01_10h + seconds 100)) (Some 25) None None None.

Definition c1_request : env := request owner_A (t_2025_01_01_10h + seconds 100).

Definition c1_session : StudySession.t :=
  StudySession.mk 100%N owner_A pomodoro t_2025_01_01_10h
    (Some (t_2025_01_01_10h + seconds 100)) (Some 2) (Some 25)
    None None None None None None
    (t_2025_01_01_10h + seconds 100) (t_2025_01_01_10h + seconds 100).

Definition c1_database : database :=
  {| study_sessions := [c1_session]; tasks := []; study_session_tags := [];
     next_uuid := 101%N |}.

(** An owner has an ended session whose [start_time] falls on [day]. *)
Definition has_ended_session_on (e : env) (d : database) (owner : uuid) (day : Z) : Prop :=
  exists s, In s (study_sessions d)
            /\ StudySession.user_id s = owner
            /\ DATE e (StudySession.start_time s) = day
            /\ StudySession.end_time s <> None.

(** C2: ended sessions of half an hour on each of the days [today - k],
    [k] in [ks]. *)
Definition sessions_on_days_back (owner : uuid) (today_10h : timestamptz) (ks : list Z)
  : list StudySession.t :=
  map (fun k => session_row (N.of_nat (Z.to_nat k)) owner (today_10h - days k)
                            (Some (minutes 30))) ks.

Definition c2_request : env := request owner_A (t_2025_01_01_10h + minutes 45).

Definition c2_three_days : database :=
  {| study_sessions := sessions_on_days_back owner_A t_2025_01_01_10h [2; 0; 1; 4];
     tasks := []; study_session_tags := []; next_uuid := 100%N |}.

Definition c2_not_today : database :=
  {| study_sessions := sessions_on_days_back owner_A t_2025_01_01_10h [1; 2; 3; 4; 5];
     tasks := []; study_session_tags := []; next_uuid := 100%N |}.

(** The rows the loop of the streak can still find from [day] backward. *)
Definition on_or_before (e : env) (day : Z) (s : StudySession.t) : bool :=
  DATE e (StudySession.start_time s) <=? day.

(** C3: owner A has an ended session today and two tasks, one completed;
    the request comes from principal B. *)
Definition task_row (id owner : uuid) (title : string) (completed : option timestamptz)
  : Task.t :=
  Task.mk id owner None title None (Some (is_some completed)) completed 0 None
    t_2025_01_01_10h t_2025_01_01_10h 0.

Definition c3_database : database :=
  {| study_sessions := [session_row 10%N owner_A t_2025_01_01_10h (Some (minutes 30))];
     tasks := [task_row 20%N owner_A "read" (Some (t_2025_01_01_10h + minutes 5));
               task_row 21%N owner_A "write" None];
     study_session_tags := [StudySessionTag.mk 30%N 10%N "math" t_2025_01_01_10h];
     next_uuid := 100%N |}.

Definition c3_request_B : env := request principal_B (t_2025_01_01_10h + minutes 45).

(* ------------------------------------------------------------------ *)
(** ** Tags                                                             *)
(* ------------------------------------------------------------------ *)

(** The session [sid] exists and belongs to the caller. *)
Definition owned_by_caller (e : env) (d : database) (sid : uuid) : Prop :=
  exists s, In s (study_sessions d)
            /\ StudySession.id s = sid
            /\ auth_uid e = Some (StudySession.user_id s).

(** [listTags]: the tags in the answer of [getSessionTags]. *)
Definition listTags (e : env) (d : database) (sid : uuid) : list string :=
  match data (getSessionTags e d sid) with
  | Some rows => map StudySessionTag.tag rows
  | None => []
  end.

(** The code of the error in an answer. *)
Definition error_code_of {T} (r : ApiResponse T) : option string :=
  match error r with
  | Some err => code err
  | None => None
  end.

Fixpoint distinct (l : list string) : bool :=
  match l with
  | [] => true
  | x :: l' => negb (existsb (String.eqb x) l') && distinct l'
  end.

(** The unique index lets [tags] in: they are pairwise distinct and none is
    stored for [sid] yet. *)
Definition unique_index_accepts (table : list StudySessionTag.t) (sid : uuid)
    (tags : list string) : bool :=
  distinct tags && forallb (fun t => negb (tag_exists table sid t)) tags.

(** The rows an INSERT of [tags] creates, keys drawn from [next] on. *)
Fixpoint new_tag_rows (e : env) (next sid : uuid) (tags : list string)
  : list StudySessionTag.t :=
  match tags with
  | [] => []
  | t :: tags' =>
      StudySessionTag.mk next sid t (pg_now e) :: new_tag_rows e (N.succ next) sid tags'
  end.

(** C4 and C8: owner A has one active session, number 10, without tags. *)
Definition c4_database : database :=
  {| study_sessions := [session_row 10%N owner_A t_2025_01_01_10h None];
     tasks := []; study_session_tags := []; next_uuid := 100%N |}.

Definition c4_request : env := request owner_A (t_2025_01_01_10h + minutes 5).

Definition c8_stored_row : StudySessionTag.t :=
  StudySessionTag.mk 100%N 10%N "" (t_2025_01_01_10h + minutes 5).

(* ------------------------------------------------------------------ *)
(** ** Ending a session                                                 *)
(* ------------------------------------------------------------------ *)

(** A field of the update that [endSession] sends: the value given in
    [endData], or else the stored one. *)
Definition merged {A} (given old : option A) : option A :=
  match given with
  | Some v => Some v
  | None => old
  end.

Definition endData_field {A} (f : EndData.t -> option A) (endData : option EndData.t)
  : option A :=
  match endData with
  | Some x => f x
  | None => None
  end.

(** The row [endSession] leaves for a session [s0] of the caller. *)
Definition ended_row (e : env) (endData : option EndData.t) (s0 : StudySession.t)
  : StudySession.t :=
  StudySession.mk (StudySession.id s0) (StudySession.user_id s0)
    (StudySession.session_type s0) (StudySession.start_time s0)
    (Some (Date_now_toISOString e))
    (Some (round_half_away (Date_now_toISOString e - StudySession.start_time s0)
                           usec_per_min))
    (StudySession.target_duration_minutes s0)
    (merged (endData_field EndData.session_notes endData) (StudySession.session_notes s0))
    (merged (endData_field EndData.mood_rating endData) (StudySession.mood_rating s0))
    (merged (endData_field EndData.productivity_rating endData)
            (StudySession.productivity_rating s0))
    (StudySession.ai_feedback s0) (StudySession.ai_feedback_generated_at s0)
    (StudySession.google_calendar_event_id s0)
    (StudySession.created_at s0) (pg_now e).

(** The table after the row numbered as [s1] has been replaced by [s1]. *)
Definition replace_session (s1 : StudySession.t) (rows : list StudySession.t)
  : list StudySession.t :=
  map (fun s => if N.eqb (StudySession.id s) (StudySession.id s1) then s1 else s) rows.

(** [endSession] can end [s0] at the instant of [e]: the notes given hold
    no U+0000, the caller owns the session, it began earlier, the duration
    fits an [INTEGER], and the ratings that result are within 1 to 5. *)
Definition can_end (e : env) (endData : option EndData.t) (s0 : StudySession.t) : bool :=
  text_ok_opt (endData_field EndData.session_notes endData)
  && auth_uid_is e (StudySession.user_id s0)
  && (StudySession.start_time s0 <? Date_now_toISOString e)
  && in_int4 (round_half_away (Date_now_toISOString e - StudySession.start_time s0)
                              usec_per_min)
  && rating_check (merged (endData_field EndData.mood_rating endData)
                          (StudySession.mood_rating s0))
  && rating_check (merged (endData_field EndData.productivity_rating endData)
                          (StudySession.productivity_rating s0)).

(** C5: the active session of [c4_database] is ended at 10:25 and ended
    again at 10:50 with the same data. *)
Definition c5_endData : option EndData.t := Some (EndData.mk (Some 4) None None).
Definition c5_first_request : env := request owner_A (t_2025_01_01_10h + minutes 25).
Definition c5_second_request : env := request owner_A (t_2025_01_01_10h + minutes 50).
Definition c5_active_session : StudySession.t :=
  session_row 10%N owner_A t_2025_01_01_10h None.

(* ------------------------------------------------------------------ *)
(** ** Analytics                                                        *)
(* ------------------------------------------------------------------ *)

(** The ended sessions of an owner, in the order of the table. *)
Definition ended_sessions_of (d : database) (owner : uuid) : list StudySession.t :=
  filter (fun s => N.eqb (StudySession.user_id s) owner)
         (filter (fun s => is_some (StudySession.end_time s)) (study_sessions d)).

(** C6: owner A has one ended session, without ratings. *)
Definition c6_one_ended : database :=
  {| study_sessions := [session_row 10%N owner_A t_2025_01_01_10h (Some (minutes 25))];
     tasks := []; study_session_tags := []; next_uuid := 100%N |}.

Definition c6_request : env := request owner_A (t_2025_01_01_10h + minutes 30).

Definition total_tasks_of (d : database) (owner : uuid) : Z :=
  COUNT (filter (fun t => N.eqb (Task.user_id t) owner) (tasks d)).

Definition completed_tasks_of (d : database) (owner : uuid) : Z :=
  COUNT (filter (fun t => N.eqb (Task.user_id t) owner
                          && sql_is_true (sql_eq_bool (Task.is_completed t) true))
                (tasks d)).

(** The completion rate in hundredths of a percent point:
    [completed / total * 100] with two decimals, half a hundredth going up. *)
Definition rate_hundredths (completed total : Z) : Z :=
  round_half_away (completed * 10000) total.

(** C7: three tasks of owner A, one of them completed. *)
Definition c7_database : database :=
  {| study_sessions := [];
     tasks := [task_row 20%N owner_A "read" None;
               task_row 21%N owner_A "write" (Some (t_2025_01_01_10h + minutes 5));
               task_row 22%N owner_A "revise" None;
               task_row 23%N principal_B "other" None];
     study_session_tags := []; next_uuid := 100%N |}.

(* ------------------------------------------------------------------ *)
(** ** Tasks                                                            *)
(* ------------------------------------------------------------------ *)

(** [is_completed] is a boolean, and [completed_at] is present exactly on a
    completed task. *)
Definition completion_consistent (t : Task.t) : Prop :=
  match Task.is_completed t with
  | Some true => Task.completed_at t <> None
  | Some false => Task.completed_at t = None
  | None => False
  end.

(** The calls of the two services that write to the database, with their
    typed arguments. *)
Inductive service_call : Type :=
| Call_createSession (sessionData : StudySessionInsert.t)
| Call_updateSession (sessionId : uuid) (updates : StudySessionUpdate.t)
| Call_endSession (sessionId : uuid) (endData : option EndData.t)
| Call_deleteSession (sessionId : uuid)
| Call_addSessionTags (sessionId : uuid) (tags : list string)
| Call_removeSessionTag (sessionId : uuid) (tag : string)
| Call_createTask (taskData : TaskInsert.t)
| Call_updateTask (taskId : uuid) (updates : TaskUpdate.t)
| Call_deleteTask (taskId : uuid)
| Call_toggleTaskCompletion (taskId : uuid)
| Call_reorderTasks (taskUpdates : list (uuid * Z)).

(** The database a call leaves. *)
Definition run_service_call (e : env) (d : database) (c : service_call) : database :=
  match c with
  | Call_createSession sessionData => snd (createSession e d sessionData)
  | Call_updateSession sessionId updates => snd (updateSession e d sessionId updates)
  | Call_endSession sessionId endData => snd (endSession e d sessionId endData)
  | Call_deleteSession sessionId => snd (deleteSession e d sessionId)
  | Call_addSessionTags sessionId tags => snd (addSessionTags e d sessionId tags)
  | Call_removeSessionTag sessionId tag => snd (removeSessionTag e d sessionId tag)
  | Call_createTask taskData => snd (createTask e d taskData)
  | Call_updateTask taskId updates => snd (updateTask e d taskId updates)
  | Call_deleteTask taskId => snd (deleteTask e d taskId)
  | Call_toggleTaskCompletion taskId => snd (toggleTaskCompletion e d taskId)
  | Call_reorderTasks taskUpdates => snd (reorderTasks e d taskUpdates)
  end.

(** A history: calls, each with the request it came in, oldest first. *)
Definition run_service_calls (d : database) (calls : list (env * service_call)) : database :=
  fold_left (fun d' '(e, c) => run_service_call e d' c) calls d.

(** C9: a task of owner A. *)
Definition c9_insert : TaskInsert.t :=
  TaskInsert.mk owner_A None "read chapter 3" None None None None.

Definition c9_row_inserted_completed : Task.t :=
  Task.mk 100%N owner_A None "read chapter 3" None (Some true) None 0 None
    (t_2025_01_01_10h + minutes 5) (t_2025_01_01_10h + minutes 5) 0.

Definition c9_history : list (env * service_call) :=
  [(c4_request, Call_createTask c9_insert);
   (request owner_A (t_2025_01_01_10h + minutes 10), Call_toggleTaskCompletion 100%N);
   (request owner_A (t_2025_01_01_10h + minutes 11),
    Call_updateTask 100%N (TaskUpdate.mk (Some "read chapter 4"%string) None None
                                         None None None None));
   (request owner_A (t_2025_01_01_10h + minutes 12), Call_createTask c9_insert);
   (request owner_A (t_2025_01_01_10h + minutes 13), Call_reorderTasks [(101%N, 3)])].

(* ------------------------------------------------------------------ *)
(** ** Listing sessions                                                 *)
(* ------------------------------------------------------------------ *)

Definition without_offset (o : SessionListOptions.t) : SessionListOptions.t :=
  SessionListOptions.mk (SessionListOptions.limit o) None
    (SessionListOptions.orderBy o) (SessionListOptions.orderDirection o)
    (SessionListOptions.dateRange o).

(** C10: thirteen ended sessions of owner A, one a day. *)
Definition c10_database : database :=
  {| study_sessions :=
       sessions_on_days_back owner_A t_2025_01_01_10h
         [0; 1; 2; 3; 4; 5; 6; 7; 8; 9; 10; 11; 12];
     tasks := []; study_session_tags := []; next_uuid := 100%N |}.

Definition c10_options : SessionListOptions.t :=
  SessionListOptions.mk None (Some 2) None None None.

(* ================================================================== *)
(** * Further operations of the services                               *)
(* ================================================================== *)

(* ------------------------------------------------------------------ *)
(** ** [getSessionsByTag]                                               *)
(* ------------------------------------------------------------------ *)

(** [.in('id', sessionIds)] *)
Definition q_in_id (ids : list uuid) : query -> query :=
  q_filter (fun s => existsb (N.eqb (StudySession.id s)) ids).

(** First the rows of [study_session_tags] with the normalized tag, as the
    caller's policy shows them; if there is none, an empty answer; else the
    sessions of [userId] whose key is among the [session_id]s found, latest
    start first. *)
Definition getSessionsByTag (e : env) (d : database) (userId : uuid) (tag : string)
  : ApiResponse (list StudySession.t) :=
  let tagData :=
    filter (fun g => String.eqb (StudySessionTag.tag g) (normalize_tag tag))
           (select_study_session_tags e d) in
  match tagData with
  | [] => api_success []
  | _ =>
      let sessionIds := map StudySessionTag.session_id tagData in
      api_success
        (run_query e d
           (q_order_by by_start_time false
              (q_in_id sessionIds (q_eq_user_id userId from_study_sessions))))
  end.

(* ------------------------------------------------------------------ *)
(** ** [daily_study_summary] and [getDailySummary]                      *)
(* ------------------------------------------------------------------ *)

Module DailyStudySummary.
Record t := mk {
  user_id : uuid;
  study_date : Z;
  sessions_count : Z;
  total_minutes : option Z;
  avg_productivity : option numeric;
  avg_mood : option numeric;
  session_types : list SessionType }.
End DailyStudySummary.

Definition SessionType_eq_dec (x y : SessionType) : {x = y} + {x <> y}.
Proof. decide equality. Defined.

Definition day_key_eq_dec (x y : uuid * Z) : {x = y} + {x <> y}.
Proof. decide equality; [apply Z.eq_dec | apply N.eq_dec]. Defined.

(** The grouping key of the view: [user_id, DATE(start_time)]. *)
Definition day_key (e : env) (s : StudySession.t) : uuid * Z :=
  (StudySession.user_id s, DATE e (StudySession.start_time s)).

Definition day_key_eqb (k k' : uuid * Z) : bool :=
  N.eqb (fst k) (fst k') && (snd k =? snd k').


(** [array_agg(DISTINCT session_type)]: the aggregate sorts its input to
    drop the duplicates, so the array holds each type of the group once, in
    the order of their texts. *)
Definition session_types_sorted : list SessionType :=
  [countdown; custom; pomodoro; stopwatch].

Definition array_agg_DISTINCT (types : list SessionType) : list SessionType :=
  filter (fun ty => if in_dec SessionType_eq_dec ty types then true else false)
         session_types_sorted.

(** One group of [daily_study_summary]. *)
Definition daily_study_summary_group (k : uuid * Z) (g : list StudySession.t)
  : DailyStudySummary.t :=
  DailyStudySummary.mk (fst k) (snd k)
    (COUNT g)
    (SUM (map StudySession.duration_minutes g))
    (AVG (map StudySession.productivity_rating g))
    (AVG (map StudySession.mood_rating g))
    (array_agg_DISTINCT (map StudySession.session_type g)).

(** [CREATE VIEW public.daily_study_summary AS SELECT ...
     FROM public.study_sessions WHERE end_time IS NOT NULL
     GROUP BY user_id, DATE(start_time)] *)
Definition daily_study_summary (e : env) (d : database) : list DailyStudySummary.t :=
  let ended := filter (fun s => is_some (StudySession.end_time s)) (study_sessions d) in
  map (fun k =>
         daily_study_summary_group k
           (filter (fun s => day_key_eqb (day_key e s) k) ended))
      (nodup day_key_eq_dec (map (day_key e) ended)).

(** The bounds of a [DateRangeFilter] are ISO timestamps; compared with the
    [DATE] column [study_date], PostgreSQL reads the calendar date written in
    the string, which for a string in UTC (as [toISOString] writes it) is
    the UTC day of the instant. *)
Definition date_of_literal (ts : timestamptz) : Z := ts / usec_per_day.

(** [.from('daily_study_summary').select('*').eq('user_id', userId)
     .order('study_date', { ascending: false })], then, with a [dateRange],
    [.gte('study_date', start_date).lte('study_date', end_date)]. *)
Definition getDailySummary (e : env) (d : database) (userId : uuid)
    (dateRange : option DateRangeFilter) : ApiResponse (list DailyStudySummary.t) :=
  let rows :=
    filter (fun r => N.eqb (DailyStudySummary.user_id r) userId)
           (daily_study_summary e d) in
  let rows :=
    match dateRange with
    | Some r =>
        filter (fun x => (date_of_literal (start_date r) <=? DailyStudySummary.study_date x)
                         && (DailyStudySummary.study_date x <=? date_of_literal (end_date r)))
               rows
    | None => rows
    end in
  api_success
    (sort_rows (fun a b => DailyStudySummary.study_date b <=? DailyStudySummary.study_date a)
               rows).

(* ------------------------------------------------------------------ *)
(** ** [getUserTasks]                                                   *)
(* ------------------------------------------------------------------ *)

Module TaskListOptions.
Record t := mk {
  completed : option bool;
  sessionId : option uuid;
  limit : option Z }.
End TaskListOptions.

(** [.order('order_index', { ascending: true })
     .order('created_at', { ascending: false })] *)
Definition task_order (a b : Task.t) : bool :=
  (Task.order_index a <? Task.order_index b)
  || ((Task.order_index a =? Task.order_index b)
      && (Task.created_at b <=? Task.created_at a)).

(** The tasks of [userId] the caller's policy shows, filtered by
    [is_completed] when [options.completed] is not [undefined], by
    [session_id] when [options.sessionId] is given, ordered, and cut to
    [options.limit] when that is truthy. *)
Definition getUserTasks (e : env) (d : database) (userId : uuid)
    (options : option TaskListOptions.t) : ApiResponse (list Task.t) :=
  let opt {A} (f : TaskListOptions.t -> option A) : option A :=
    match options with
    | Some o => f o
    | None => None
    end in
  let rows := filter (fun t => N.eqb (Task.user_id t) userId) (select_tasks e d) in
  (* Filter by completion status *)
  let rows :=
    match opt TaskListOptions.completed with
    | Some c => filter (fun t => sql_is_true (sql_eq_bool (Task.is_completed t) c)) rows
    | None => rows
    end in
  (* Filter by session *)
  let rows :=
    match opt TaskListOptions.sessionId with
    | Some sid =>
        filter (fun t => match Task.session_id t with
                         | Some i => N.eqb i sid
                         | None => false
                         end) rows
    | None => rows
    end in
  let rows := sort_rows task_order rows in
  (* Apply limit *)
  let limit := opt TaskListOptions.limit in
  api_success (if truthy limit then paginate limit None rows else rows).

(* ================================================================== *)
(** * [UserProfileService] ([userProfile.service.ts])                  *)
(* ================================================================== *)

(** A [JSONB] value, kept as its text. *)
Definition jsonb := string.

Module UserProfile.
(** A row of [public.user_profiles]. *)
Record t := mk {
  id : uuid;
  username : option string;
  full_name : option string;
  avatar_url : option string;
  created_at : timestamptz;
  updated_at : timestamptz;
  preferences : jsonb }.
End UserProfile.

Module UserProfileUpdate.
Record t := mk {
  username : option string;
  full_name : option string;
  avatar_url : option string;
  preferences : option jsonb }.
End UserProfileUpdate.

(** Policies of [user_profiles]: [USING (auth.uid() = id)] for SELECT and
    UPDATE. *)
Definition profile_policy (e : env) (p : UserProfile.t) : bool :=
  auth_uid_is e (UserProfile.id p).

Definition select_user_profiles (e : env) (profiles : list UserProfile.t)
  : list UserProfile.t :=
  filter (profile_policy e) profiles.

(** [CONSTRAINT username_length CHECK (char_length(username) >= 3)]: a null
    username passes. *)
Definition username_length (p : UserProfile.t) : bool :=
  match UserProfile.username p with
  | None => true
  | Some u => 3 <=? char_length u
  end.

Definition has_username (u : string) (p : UserProfile.t) : bool :=
  match UserProfile.username p with
  | Some x => String.eqb x u
  | None => false
  end.

(** [username VARCHAR(50) UNIQUE]: the index looks at every row of the
    table, whatever the caller may see; nulls never collide. *)
Definition username_taken (profiles : list UserProfile.t) (self : uuid)
    (u : option string) : bool :=
  match u with
  | None => false
  | Some x =>
      existsb (fun p => negb (N.eqb (UserProfile.id p) self) && has_username x p)
              profiles
  end.

Definition varchar_opt (n : nat) (given : option string) (old : option string)
  : result (option string) :=
  match given with
  | Some x => v <- varchar n x ;; ret (Some v)
  | None => ret old
  end.

(** One row of an UPDATE of [user_profiles]: the conversion of the strings of
    the body, the new values,
    [update_user_profiles_updated_at], the policy, the check, the unique
    index. *)
Definition profile_update_row (e : env) (profiles : list UserProfile.t)
    (u : UserProfileUpdate.t) (OLD : UserProfile.t) : result UserProfile.t :=
  _ <- guard (text_ok_opt (UserProfileUpdate.username u)
              && text_ok_opt (UserProfileUpdate.full_name u)
              && text_ok_opt (UserProfileUpdate.avatar_url u))
             untranslatable_character ;;
  username <- varchar_opt 50 (UserProfileUpdate.username u) (UserProfile.username OLD) ;;
  full_name <- varchar_opt 255 (UserProfileUpdate.full_name u) (UserProfile.full_name OLD) ;;
  let NEW :=
    UserProfile.mk (UserProfile.id OLD) username full_name
      (match UserProfileUpdate.avatar_url u with
       | Some a => Some a
       | None => UserProfile.avatar_url OLD
       end)
      (UserProfile.created_at OLD) (pg_now e)
      (or_keep (UserProfileUpdate.preferences u) (UserProfile.preferences OLD)) in
  _ <- guard (profile_policy e NEW) (rls_violation "user_profiles") ;;
  _ <- guard (username_length NEW) (check_violation "user_profiles" "username_length") ;;
  _ <- guard (negb (username_taken profiles (UserProfile.id OLD) username))
             (unique_violation "user_profiles_username_key") ;;
  ret NEW.

(** [.from('user_profiles').select('*').eq('id', userId).single()] *)
Definition getProfile (e : env) (profiles : list UserProfile.t) (userId : uuid)
  : ApiResponse UserProfile.t :=
  respond_read
    (single (filter (fun p => N.eqb (UserProfile.id p) userId)
                    (select_user_profiles e profiles))).

(** [.update(updates).eq('id', userId).select().single()] *)
Definition updateProfile (e : env) (profiles : list UserProfile.t) (userId : uuid)
    (updates : UserProfileUpdate.t) : ApiResponse UserProfile.t * list UserProfile.t :=
  match
    p <- update_rows (fun p => profile_policy e p && N.eqb (UserProfile.id p) userId)
                     (profile_update_row e profiles updates) profiles ;;
    r <- single (snd p) ;;
    ret (r, fst p)
  with
  | inl err => (api_failure err, profiles)
  | inr (r, profiles') => (api_success r, profiles')
  end.

(** [.select('id').eq('username', username)], then [.neq('id', excludeUserId)]
    when that is given, and [data.length === 0]. *)
Definition isUsernameAvailable (e : env) (profiles : list UserProfile.t)
    (username : string) (excludeUserId : option uuid) : ApiResponse bool :=
  let rows := filter (has_username username) (select_user_profiles e profiles) in
  let rows :=
    match excludeUserId with
    | Some x => filter (fun p => negb (N.eqb (UserProfile.id p) x)) rows
    | None => rows
    end in
  api_success (Nat.eqb (List.length rows) 0).

(** [.select('*').eq('username', username).single()] *)
Definition getProfileByUsername (e : env) (profiles : list UserProfile.t)
    (username : string) : ApiResponse UserProfile.t :=
  respond_read
    (single (filter (has_username username) (select_user_profiles e profiles))).

(* ================================================================== *)
(** * Vocabulary of the further properties                             *)
(* ================================================================== *)

(** The order an answer of [getUserSessions] is in: by [orderBy]
    (default [start_time]), descending unless [orderDirection] is [asc]. *)
Definition sessions_order (options : option SessionListOptions.t)
    (a b : StudySession.t) : bool :=
  let col := match options with
             | Some o => or_keep (SessionListOptions.orderBy o) by_start_time
             | None => by_start_time
             end in
  let dir := match options with
             | Some o => or_keep (SessionListOptions.orderDirection o) desc
             | None => desc
             end in
  match dir with
  | asc => order_key col a <=? order_key col b
  | desc => order_key col b <=? order_key col a
  end.

(** The rows an answer of [getUserSessions] is taken from: those the caller
    may see, of [userId], begun within the date range, bounds included. *)
Definition sessions_wanted (e : env) (userId : uuid)
    (options : option SessionListOptions.t) (s : StudySession.t) : bool :=
  session_policy e s
  && N.eqb (StudySession.user_id s) userId
  && match options with
     | Some o =>
         match SessionListOptions.dateRange o with
         | Some r => (start_date r <=? StudySession.start_time s)
                     && (StudySession.start_time s <=? end_date r)
         | None => true
         end
     | None => true
     end.

(** The options without [limit] and [offset]. *)
Definition without_pagination (o : SessionListOptions.t) : SessionListOptions.t :=
  SessionListOptions.mk None None
    (SessionListOptions.orderBy o) (SessionListOptions.orderDirection o)
    (SessionListOptions.dateRange o).

(** The window [limit] and [offset] cut out of the whole list: a [limit] or
    an [offset] of 0 counts as absent, and an [offset] without [limit] comes
    with a page of ten. *)
Definition sessions_window {A} (limit offset : option Z) (all : list A) : list A :=
  match truthy offset, truthy limit with
  | true, true => firstn (Z.to_nat (or_keep limit 0)) (skipn (Z.to_nat (or_keep offset 0)) all)
  | true, false => firstn 10 (skipn (Z.to_nat (or_keep offset 0)) all)
  | false, true => firstn (Z.to_nat (or_keep limit 0)) all
  | false, false => all
  end.

(** A session of [userId] is active: it has no [end_time]. *)
Definition active_session_of (e : env) (userId : uuid) (s : StudySession.t) : bool :=
  session_policy e s
  && N.eqb (StudySession.user_id s) userId
  && negb (is_some (StudySession.end_time s)).

(** A page of three after the first two. *)
Definition page_options : SessionListOptions.t :=
  SessionListOptions.mk (Some 3) (Some 2) None None None.

(** The keys of the stored sessions. *)
Definition session_ids (d : database) : list uuid :=
  map StudySession.id (study_sessions d).

(** No dangling reference: every tag belongs to a stored session and every
    task that names a session names a stored one. *)
Definition references_resolve (d : database) : Prop :=
  (forall g, In g (study_session_tags d) ->
             In (StudySessionTag.session_id g) (session_ids d))
  /\ (forall t sid, In t (tasks d) -> Task.session_id t = Some sid ->
                    In sid (session_ids d)).

(** What [UNIQUE(session_id, tag)] is about. *)
Definition tag_key (g : StudySessionTag.t) : uuid * string :=
  (StudySessionTag.session_id g, StudySessionTag.tag g).

(** [UNIQUE(session_id, tag)] and [tag VARCHAR(50)] hold of the stored tags. *)
Definition tags_constraints_hold (d : database) : Prop :=
  NoDup (map tag_key (study_session_tags d))
  /\ (forall g, In g (study_session_tags d) ->
                (String.length (StudySessionTag.tag g) <= 50)%nat).

(** The checks of [study_sessions] and [tasks] hold of the stored rows, and
    [duration_minutes] is what the trigger computes. *)
Definition checks_hold (d : database) : Prop :=
  (forall s, In s (study_sessions d) ->
             study_session_checks s = true /\ duration_consistent s)
  /\ (forall t, In t (tasks d) ->
                title_not_empty t = true
                /\ (String.length (Task.title t) <= 500)%nat).

(** The rows of the three tables the caller's policies do not cover; for the
    tags, the policy is read in the database [d0] the call started from. *)
Definition rows_of_others (e : env) (d0 d : database)
  : list StudySession.t * list StudySessionTag.t * list Task.t :=
  (filter (fun s => negb (session_policy e s)) (study_sessions d),
   filter (fun g => negb (tag_policy e d0 g)) (study_session_tags d),
   filter (fun t => negb (task_policy e t)) (tasks d)).

Definition is_deleteSession (c : service_call) : bool :=
  match c with
  | Call_deleteSession _ => true
  | _ => false
  end.

(** Two sessions of owner A with tags and tasks; a task of principal B refers
    to the first session too. *)
Definition cascade_database : database :=
  {| study_sessions := [session_row 10%N owner_A t_2025_01_01_10h (Some (minutes 30));
                        session_row 11%N owner_A (t_2025_01_01_10h + minutes 40) None];
     tasks := [Task.mk 20%N owner_A (Some 10%N) "read" None (Some true)
                 (Some (t_2025_01_01_10h + minutes 5)) 0 None
                 t_2025_01_01_10h t_2025_01_01_10h 0;
               Task.mk 21%N owner_A (Some 11%N) "write" None (Some false) None 0 None
                 t_2025_01_01_10h t_2025_01_01_10h 1;
               Task.mk 22%N principal_B (Some 10%N) "share" None (Some false) None 0 None
                 t_2025_01_01_10h t_2025_01_01_10h 0];
     study_session_tags := [StudySessionTag.mk 30%N 10%N "math" t_2025_01_01_10h;
                            StudySessionTag.mk 31%N 11%N "math" t_2025_01_01_10h;
                            StudySessionTag.mk 32%N 10%N "exam" t_2025_01_01_10h];
     next_uuid := 100%N |}.

Definition cascade_request : env := request owner_A (t_2025_01_01_10h + minutes 50).

Definition cascade_history : list (env * service_call) :=
  [(cascade_request, Call_addSessionTags 11%N ["Physics"%string]);
   (cascade_request, Call_createTask (TaskInsert.mk owner_A (Some 11%N) "revise"
                                        None None None None));
   (cascade_request, Call_deleteSession 10%N);
   (request principal_B (t_2025_01_01_10h + minutes 55), Call_deleteSession 11%N);
   (cascade_request, Call_removeSessionTag 11%N " MATH ")].

(** A request that carries no session. *)
Definition anonymous_request : env :=
  {| auth_uid := None; pg_now := t_2025_01_01_10h + minutes 50; pg_timezone := 0;
     js_now := (t_2025_01_01_10h + minutes 50) / 1000 |}.

(** The sessions an answer of [getSessionsByTag] is made of: those of
    [userId] the caller may see that carry the normalized tag. *)
Definition sessions_tagged (e : env) (d : database) (userId : uuid) (tag : string)
    (s : StudySession.t) : bool :=
  session_policy e s
  && N.eqb (StudySession.user_id s) userId
  && tag_exists (study_session_tags d) (StudySession.id s) (normalize_tag tag).

(** Latest [start_time] first. *)
Definition latest_first (a b : StudySession.t) : bool :=
  StudySession.start_time b <=? StudySession.start_time a.

(** The rows an answer of [getUserTasks] is taken from: the tasks of
    [userId] the caller may see, with the completion status and the session
    asked for. *)
Definition tasks_wanted (e : env) (userId : uuid) (options : option TaskListOptions.t)
    (t : Task.t) : bool :=
  task_policy e t
  && N.eqb (Task.user_id t) userId
  && match options with
     | Some o =>
         match TaskListOptions.completed o with
         | Some c => sql_is_true (sql_eq_bool (Task.is_completed t) c)
         | None => true
         end
         && match TaskListOptions.sessionId o with
            | Some sid => match Task.session_id t with
                          | Some i => N.eqb i sid
                          | None => false
                          end
            | None => true
            end
     | None => true
     end.

(** The [limit] of the options, when it is one: [undefined] and 0 are not. *)
Definition tasks_limit (options : option TaskListOptions.t) : option Z :=
  match options with
  | Some o => if truthy (TaskListOptions.limit o) then TaskListOptions.limit o else None
  | None => None
  end.

(** Three tasks of owner A and one of principal B. *)
Definition tasks_database : database :=
  {| study_sessions := [session_row 10%N owner_A t_2025_01_01_10h None];
     tasks := [Task.mk 20%N owner_A (Some 10%N) "read" None (Some true)
                 (Some (t_2025_01_01_10h + minutes 5)) 0 None
                 t_2025_01_01_10h t_2025_01_01_10h 2;
               Task.mk 21%N owner_A None "write" None (Some false) None 0 None
                 (t_2025_01_01_10h + minutes 1) (t_2025_01_01_10h + minutes 1) 1;
               Task.mk 22%N principal_B None "share" None (Some false) None 0 None
                 t_2025_01_01_10h t_2025_01_01_10h 0;
               Task.mk 23%N owner_A None "revise" None (Some false) None 0 None
                 (t_2025_01_01_10h + minutes 2) (t_2025_01_01_10h + minutes 2) 1];
     study_session_tags := [];
     next_uuid := 100%N |}.

Definition tasks_request : env := request owner_A (t_2025_01_01_10h + minutes 20).

(** The table after the task numbered as [t1] has been replaced by [t1]. *)
Definition replace_task (t1 : Task.t) (rows : list Task.t) : list Task.t :=
  map (fun t => if N.eqb (Task.id t) (Task.id t1) then t1 else t) rows.

(** A task after [toggleTaskCompletion] at the instant of [e]: [is_completed]
    is negated as JavaScript negates it, [completed_at] is what the trigger
    makes of it, [updated_at] is the instant of the update. *)
Definition toggled (e : env) (t : Task.t) : Task.t :=
  Task.mk (Task.id t) (Task.user_id t) (Task.session_id t) (Task.title t)
    (Task.description t)
    (Some (js_not (Task.is_completed t)))
    (match Task.is_completed t with
     | Some false => Some (pg_now e)
     | Some true => None
     | None => Task.completed_at t
     end)
    (Task.priority t) (Task.due_date t) (Task.created_at t) (pg_now e)
    (Task.order_index t).

(** What a task must be like for an UPDATE that leaves its title and its
    session alone to pass: the title fits its column and is not empty, and
    the session it names exists. *)
Definition task_storable (d : database) (t : Task.t) : Prop :=
  title_not_empty t = true
  /\ (String.length (Task.title t) <= 500)%nat
  /\ task_session_fk d t = true.

(** A task after an UPDATE that names [order_index] only: the two triggers
    have run. *)
Definition reordered (e : env) (k : Z) (t : Task.t) : Task.t :=
  Task.mk (Task.id t) (Task.user_id t) (Task.session_id t) (Task.title t)
    (Task.description t) (Task.is_completed t)
    (match Task.is_completed t with
     | Some false => None
     | _ => Task.completed_at t
     end)
    (Task.priority t) (Task.due_date t) (Task.created_at t) (pg_now e) k.

(** One entry of [taskUpdates] on one task: it applies to the tasks of the
    caller with its [id]. *)
Definition apply_reorder (e : env) (t : Task.t) (upd : uuid * Z) : Task.t :=
  if task_policy e t && N.eqb (Task.id t) (fst upd) then reordered e (snd upd) t else t.

(** The tasks after the entries of [taskUpdates], which name different
    tasks, have been applied: each task gets the entry with its [id]. *)
Definition reorder_all (e : env) (taskUpdates : list (uuid * Z)) (t : Task.t) : Task.t :=
  match find (fun upd => N.eqb (Task.id t) (fst upd)) taskUpdates with
  | Some upd => apply_reorder e t upd
  | None => t
  end.

(** The update that takes the [end_time] of a session away:
    [{ end_time: null }]. *)
Definition reopen_update : StudySessionUpdate.t :=
  StudySessionUpdate.mk (Some None) None None None None None None.

(** A session after [reopen_update] at the instant of [e]. *)
Definition reopened (e : env) (s : StudySession.t) : StudySession.t :=
  StudySession.mk (StudySession.id s) (StudySession.user_id s)
    (StudySession.session_type s) (StudySession.start_time s)
    None (StudySession.duration_minutes s)
    (StudySession.target_duration_minutes s)
    (StudySession.session_notes s) (StudySession.mood_rating s)
    (StudySession.productivity_rating s) (StudySession.ai_feedback s)
    (StudySession.ai_feedback_generated_at s)
    (StudySession.google_calendar_event_id s)
    (StudySession.created_at s) (pg_now e).

(** The ended sessions of [userId] that began on [day]. *)
Definition sessions_on_day (e : env) (d : database) (userId : uuid) (day : Z)
  : list StudySession.t :=
  filter (fun s => day_key_eqb (day_key e s) (userId, day))
         (filter (fun s => is_some (StudySession.end_time s)) (study_sessions d)).

(** A day is within the bounds of a [DateRangeFilter], both included. *)
Definition in_date_range (dateRange : option DateRangeFilter) (day : Z) : bool :=
  match dateRange with
  | Some r => (date_of_literal (start_date r) <=? day)
              && (day <=? date_of_literal (end_date r))
  | None => true
  end.

(** The constraints of [user_profiles] hold of a table: the keys are unique,
    a username has 3 to 50 characters, and no two rows share a username. *)
Definition profiles_constraints_hold (profiles : list UserProfile.t) : Prop :=
  NoDup (map UserProfile.id profiles)
  /\ (forall p u, In p profiles -> UserProfile.username p = Some u ->
                  (3 <= String.length u <= 50)%nat)
  /\ (forall p q u, In p profiles -> In q profiles ->
                    UserProfile.username p = Some u -> UserProfile.username q = Some u ->
                    UserProfile.id p = UserProfile.id q).

(** The profiles of owner A and principal B. *)
Definition two_profiles : list UserProfile.t :=
  [UserProfile.mk owner_A (Some "alice"%string) None None
     t_2025_01_01_10h t_2025_01_01_10h "{}"%string;
   UserProfile.mk principal_B (Some "bob"%string) None None
     t_2025_01_01_10h t_2025_01_01_10h "{}"%string].

(** An update that names [username] only. *)
Definition rename_to (name : string) : UserProfileUpdate.t :=
  UserProfileUpdate.mk (Some name) None None None.

(** Owner A with two sessions that have not ended. *)
Definition two_active_sessions : database :=
  {| study_sessions := [session_row 10%N owner_A t_2025_01_01_10h None;
                        session_row 11%N owner_A (t_2025_01_01_10h + minutes 40) None];
     tasks := []; study_session_tags := []; next_uuid := 100%N |}.

(** What [createTask] asks of a [TaskInsert] whose title fits the column:
    neither the title nor the description holds U+0000, the task is the
    caller's, its title is not empty, [priority] and [order_index] fit an
    INTEGER, and the session it names, if any, is stored; whose session that
    is plays no part. *)
Definition task_acceptable (e : env) (d : database) (ins : TaskInsert.t) : bool :=
  text_ok (TaskInsert.title ins)
  && text_ok_opt (TaskInsert.description ins)
  && auth_uid_is e (TaskInsert.user_id ins)
  && negb (String.eqb (TaskInsert.title ins) "")
  && int4_column (TaskInsert.priority ins)
  && int4_column (TaskInsert.order_index ins)
  && match TaskInsert.session_id ins with
     | Some sid => existsb (N.eqb sid) (session_ids d)
     | None => true
     end.

(** From here on the arguments of a lemma are written out where it is used. *)
Unset Implicit Arguments.

(* ================================================================== *)
(** * 12. Arithmetic of the roundings                                  *)
(* ================================================================== *)

Lemma round_half_away_nonneg (p q : Z) :
  0 <= p -> 0 < q -> round_half_away p q = (2 * p + q) / (2 * q).
Proof.
  intros Hp Hq. unfold round_half_away.
  destruct (Z.eq_dec p 0) as [->|Hne].
  - rewrite Z.sgn_0, Z.mul_0_l. symmetry. apply Z.div_small. lia.
  - rewrite Z.sgn_pos by lia. rewrite Z.abs_eq by lia. lia.
Qed.

Lemma round_half_away_opp (p q : Z) :
  round_half_away (- p) q = - round_half_away p q.
Proof.
  unfold round_half_away. rewrite Z.sgn_opp, Z.abs_opp. lia.
Qed.

(** The rounded value is a nearest integer: it is off by at most one half. *)
Lemma round_half_away_nearest (p q : Z) :
  0 < q -> 2 * Z.abs (q * round_half_away p q - p) <= q.
Proof.
  intros Hq.
  assert (H : forall a, 0 <= a -> 2 * Z.abs (q * round_half_away a q - a) <= q).
  { intros a Ha. rewrite round_half_away_nonneg by assumption.
    pose proof (Z.div_mod (2 * a + q) (2 * q) ltac:(lia)) as Hd.
    pose proof (Z.mod_pos_bound (2 * a + q) (2 * q) ltac:(lia)) as Hm.
    lia. }
  destruct (Z_le_gt_dec 0 p) as [Hp|Hp]; [now apply H|].
  replace p with (- - p) by lia. rewrite round_half_away_opp.
  specialize (H (- p) ltac:(lia)). lia.
Qed.

(** Between the floor and the floor plus one, for a non-negative ratio. *)
Lemma round_half_away_floor (p q : Z) :
  0 <= p -> 0 < q -> p / q <= round_half_away p q <= p / q + 1.
Proof.
  intros Hp Hq. rewrite round_half_away_nonneg by assumption.
  pose proof (Z.div_mod p q ltac:(lia)) as Hd.
  pose proof (Z.mod_pos_bound p q Hq) as Hm.
  split.
  - apply Z.div_le_lower_bound; [lia|]. nia.
  - apply Z.lt_succ_r. apply Z.div_lt_upper_bound; [lia|]. nia.
Qed.

(** It is the floor exactly when the remainder is below one half. *)
Lemma round_half_away_is_floor_iff (p q : Z) :
  0 <= p -> 0 < q -> (round_half_away p q = p / q <-> 2 * (p mod q) < q).
Proof.
  intros Hp Hq. rewrite round_half_away_nonneg by assumption.
  pose proof (Z.div_mod p q ltac:(lia)) as Hd.
  pose proof (Z.mod_pos_bound p q Hq) as Hm.
  split; intros H.
  - destruct (Z_lt_le_dec (2 * (p mod q)) q) as [|Hge]; [assumption|exfalso].
    assert (p / q + 1 <= (2 * p + q) / (2 * q)).
    { apply Z.div_le_lower_bound; [lia|]. nia. }
    lia.
  - symmetry. apply Z.div_unique with (r := 2 * (p mod q) + q); [lia|]. nia.
Qed.

Lemma numeric_div_scale_irrelevant_nonneg (p q : Z) (k s : nat) :
  0 <= p -> 0 < q -> (k <= s)%nat -> q < 10 ^ Z.of_nat (s - k) ->
  round_half_away (numeric_div_digits s p q * 10 ^ Z.of_nat k) (10 ^ Z.of_nat s)
  = round_half_away (p * 10 ^ Z.of_nat k) q.
Proof.
  intros Hp Hq Hks Hlt. unfold numeric_div_digits.
  set (K := 10 ^ Z.of_nat k). set (E := 10 ^ Z.of_nat (s - k)) in *.
  assert (HK : 0 < K) by (apply Z.pow_pos_nonneg; lia).
  assert (HE : 0 < E) by (apply Z.pow_pos_nonneg; lia).
  assert (Hs : 10 ^ Z.of_nat s = K * E).
  { unfold K, E. rewrite <- Z.pow_add_r by lia. f_equal. lia. }
  rewrite Hs.
  rewrite (round_half_away_nonneg (p * (K * E)) q) by nia.
  set (N := (2 * (p * (K * E)) + q) / (2 * q)).
  assert (HN : 0 <= N) by (apply Z.div_pos; nia).
  rewrite (round_half_away_nonneg (N * K) (K * E)) by nia.
  rewrite (round_half_away_nonneg (p * K) q) by nia.
  set (h := (2 * (p * K) + q) / (2 * q)).
  pose proof (Z.div_mod (2 * (p * (K * E)) + q) (2 * q) ltac:(lia)) as HdN.
  pose proof (Z.mod_pos_bound (2 * (p * (K * E)) + q) (2 * q) ltac:(lia)) as HmN.
  fold N in HdN.
  pose proof (Z.div_mod (2 * (p * K) + q) (2 * q) ltac:(lia)) as Hdh.
  pose proof (Z.mod_pos_bound (2 * (p * K) + q) (2 * q) ltac:(lia)) as Hmh.
  fold h in Hdh.
  replace (2 * (N * K) + K * E) with (K * (2 * N + E)) by ring.
  replace (2 * (K * E)) with (K * (2 * E)) by ring.
  rewrite Z.div_mul_cancel_l by lia.
  assert (Hlow : (2 * h - 1) * E <= 2 * N).
  { assert (q * ((2 * h - 1) * E - 1) < q * (2 * N)); [|nia].
    assert (q * (2 * h - 1) <= 2 * (p * K)) by lia.
    assert (q * (2 * h - 1) * E <= 2 * (p * K) * E) by (apply Z.mul_le_mono_nonneg_r; lia).
    nia. }
  assert (Hup : 2 * N < (2 * h + 1) * E).
  { assert (q * (2 * N) < q * ((2 * h + 1) * E)); [|nia].
    assert (2 * (p * K) <= q * (2 * h + 1) - 1) by lia.
    assert (2 * (p * K) * E <= (q * (2 * h + 1) - 1) * E) by (apply Z.mul_le_mono_nonneg_r; lia).
    nia. }
  symmetry. apply Z.div_unique with (r := 2 * N + E - 2 * E * h); lia.
Qed.

(** Rounding the quotient to [s] decimals first does not change what a later
    rounding to [k <= s] decimals gives, as soon as the divisor is below
    [10 ^ (s - k)]. *)
Lemma numeric_div_scale_irrelevant (p q : Z) (k s : nat) :
  0 < q -> (k <= s)%nat -> q < 10 ^ Z.of_nat (s - k) ->
  round_half_away (numeric_div_digits s p q * 10 ^ Z.of_nat k) (10 ^ Z.of_nat s)
  = round_half_away (p * 10 ^ Z.of_nat k) q.
Proof.
  intros Hq Hks Hlt.
  destruct (Z_le_gt_dec 0 p) as [Hp|Hp].
  - now apply numeric_div_scale_irrelevant_nonneg.
  - pose proof (numeric_div_scale_irrelevant_nonneg (- p) q k s ltac:(lia) Hq Hks Hlt) as H.
    unfold numeric_div_digits in *.
    replace (- p * 10 ^ Z.of_nat s) with (- (p * 10 ^ Z.of_nat s)) in H by ring.
    replace (- p * 10 ^ Z.of_nat k) with (- (p * 10 ^ Z.of_nat k)) in H by ring.
    rewrite !round_half_away_opp in H.
    replace (- round_half_away (p * 10 ^ Z.of_nat s) q * 10 ^ Z.of_nat k)
      with (- (round_half_away (p * 10 ^ Z.of_nat s) q * 10 ^ Z.of_nat k)) in H by ring.
    rewrite round_half_away_opp in H. lia.
Qed.

(* ================================================================== *)
(** * 13. Generic facts on statements                                  *)
(* ================================================================== *)

Lemma bind_inr {A B} (m : result A) (k : A -> result B) (b : B) :
  bind m k = inr b -> exists a, m = inr a /\ k a = inr b.
Proof.
  destruct m as [err|a]; simpl; intros H; [discriminate|]. now exists a.
Qed.

Lemma guard_inr (b : bool) (err : pg_error) (u : unit) :
  guard b err = inr u -> b = true.
Proof. destruct b; simpl; [reflexivity|discriminate]. Qed.

Lemma ret_inr {A} (a b : A) : ret a = inr b -> a = b.
Proof. unfold ret. intros H. now injection H. Qed.

Ltac inv_bind H :=
  match type of H with
  | bind (guard _ _) _ = inr _ =>
      let u := fresh "u" in let Hg := fresh "Hg" in
      apply bind_inr in H; destruct H as [u [Hg H]];
      apply guard_inr in Hg; inv_bind H
  | bind _ _ = inr _ =>
      let a := fresh "a" in let Hm := fresh "Hm" in
      apply bind_inr in H; destruct H as [a [Hm H]]; inv_bind H
  | ret _ = inr _ => apply ret_inr in H
  | _ => idtac
  end.

Lemma single_inr {A} (rows : list A) (r : A) :
  single rows = inr r -> rows = [r].
Proof.
  destruct rows as [|x [|y rows]]; simpl; intros H; try discriminate.
  now injection H as ->.
Qed.

Lemma respond_success {T} (d d' : database) (r : result (T * database)) (x : T) :
  respond d r = (api_success x, d') -> r = inr (x, d').
Proof.
  destruct r as [err|[y d'']]; simpl; intros H.
  - discriminate.
  - now injection H as -> ->.
Qed.

Section UpdateRows.
Context {A : Type} (sel : A -> bool) (f : A -> result A).

Lemma update_rows_returned (rows tbl out : list A) :
  update_rows sel f rows = inr (tbl, out) ->
  forall r', In r' out ->
    In r' tbl /\ exists r, In r rows /\ sel r = true /\ f r = inr r'.
Proof.
  revert tbl out. induction rows as [|r rest IH]; intros tbl out H r' Hin.
  - simpl in H. injection H as <- <-. contradiction.
  - simpl in H. destruct (sel r) eqn:Hsel.
    + inv_bind H. destruct a0 as [tbl' out']. simpl in H. injection H as <- <-.
      destruct Hin as [<-|Hin].
      * split; [now left|]. exists r. auto with datatypes.
      * destruct (IH _ _ Hm0 _ Hin) as [Ht [r0 [? [? ?]]]].
        split; [now right|]. exists r0. auto with datatypes.
    + inv_bind H. destruct a as [tbl' out']. simpl in H. injection H as <- <-.
      destruct (IH _ _ Hm _ Hin) as [Ht [r0 [? [? ?]]]].
      split; [now right|]. exists r0. auto with datatypes.
Qed.

Lemma update_rows_table (rows tbl out : list A) :
  update_rows sel f rows = inr (tbl, out) ->
  forall r', In r' tbl ->
    (In r' rows /\ sel r' = false)
    \/ exists r, In r rows /\ sel r = true /\ f r = inr r'.
Proof.
  revert tbl out. induction rows as [|r rest IH]; intros tbl out H r' Hin.
  - simpl in H. injection H as <- <-. contradiction.
  - simpl in H. destruct (sel r) eqn:Hsel.
    + inv_bind H. destruct a0 as [tbl' out']. simpl in H. injection H as <- <-.
      destruct Hin as [<-|Hin].
      * right. exists r. auto with datatypes.
      * destruct (IH _ _ Hm0 _ Hin) as [[? ?]|[r0 [? [? ?]]]].
        -- left. auto with datatypes.
        -- right. exists r0. auto with datatypes.
    + inv_bind H. destruct a as [tbl' out']. simpl in H. injection H as <- <-.
      destruct Hin as [<-|Hin].
      * left. auto with datatypes.
      * destruct (IH _ _ Hm _ Hin) as [[? ?]|[r0 [? [? ?]]]].
        -- left. auto with datatypes.
        -- right. exists r0. auto with datatypes.
Qed.

End UpdateRows.

(* ================================================================== *)
(** * 14. Duration of a session                                        *)
(* ================================================================== *)

Lemma numeric_round_epoch_div_60 (x : Z) :
  numeric_round_to_Z (EXTRACT_EPOCH x / 60)%Q = round_half_away x usec_per_min.
Proof.
  unfold numeric_round_to_Z, EXTRACT_EPOCH, Qdiv, Qmult, Qinv.
  cbn [Qnum Qden]. rewrite Z.mul_1_r. reflexivity.
Qed.

(** The digits PostgreSQL drops from the quotient do not matter: with any
    result scale of eight or more decimals the [INTEGER] is the same. *)
Lemma duration_scale_irrelevant (x : Z) (s : nat) :
  (8 <= s)%nat ->
  round_half_away (numeric_div_digits s x usec_per_min) (10 ^ Z.of_nat s)
  = round_half_away x usec_per_min.
Proof.
  intros Hs.
  pose proof (@numeric_div_scale_irrelevant x usec_per_min 0 s) as H.
  rewrite !Z.mul_1_r in H. apply H; [reflexivity|lia|].
  rewrite Nat.sub_0_r.
  apply Z.lt_le_trans with (10 ^ 8); [reflexivity|].
  apply Z.pow_le_mono_r; lia.
Qed.

Lemma calculate_session_duration_inr (NEW NEW' : StudySession.t) :
  calculate_session_duration NEW = inr NEW' ->
  duration_consistent NEW'
  /\ StudySession.end_time NEW' = StudySession.end_time NEW
  /\ StudySession.start_time NEW' = StudySession.start_time NEW.
Proof.
  unfold calculate_session_duration, duration_consistent.
  destruct (StudySession.end_time NEW) as [t|] eqn:Hend; intros H.
  - inv_bind H. subst NEW'. simpl. rewrite Hend. repeat split.
    intros t' Ht'. injection Ht' as <-.
    unfold numeric_to_int4 in Hm. rewrite numeric_round_epoch_div_60 in Hm.
    destruct (in_int4 _); [|discriminate]. now injection Hm as <-.
  - injection H as <-. rewrite Hend. repeat split. discriminate.
Qed.

Lemma duration_consistent_updated_at (s : StudySession.t) (now : timestamptz) :
  duration_consistent s -> duration_consistent (set_session_updated_at s now).
Proof. unfold duration_consistent. simpl. auto. Qed.

Lemma insert_study_session_inr e d ins s d' :
  insert_study_session e d ins = inr (s, d') ->
  duration_consistent s /\ study_session_checks s = true
  /\ study_sessions d' = study_sessions d ++ [s]
  /\ tasks d' = tasks d /\ study_session_tags d' = study_session_tags d.
Proof.
  unfold insert_study_session. intros H. inv_bind H.
  injection H as Hs Hd. subst. apply calculate_session_duration_inr in Hm.
  simpl. tauto.
Qed.

Lemma session_update_row_inr e u OLD NEW :
  session_update_row e u OLD = inr NEW ->
  duration_consistent NEW /\ study_session_checks NEW = true
  /\ StudySession.id NEW = StudySession.id OLD
  /\ StudySession.user_id NEW = StudySession.user_id OLD
  /\ StudySession.start_time NEW = StudySession.start_time OLD.
Proof.
  unfold session_update_row. intros H. inv_bind H. subst NEW.
  pose proof (calculate_session_duration_inr _ _ Hm0) as [Hc [_ Hs]].
  split; [now apply duration_consistent_updated_at|].
  split; [assumption|].
  unfold calculate_session_duration in Hm0.
  destruct (StudySession.end_time _); [inv_bind Hm0|injection Hm0 as Hm0]; subst a0;
    simpl; auto.
Qed.

Lemma valid_duration_elapsed (s : StudySession.t) (t_end : timestamptz) :
  study_session_checks s = true -> StudySession.end_time s = Some t_end ->
  0 < t_end - StudySession.start_time s.
Proof.
  unfold study_session_checks, valid_duration. intros H Hend. rewrite Hend in H.
  apply andb_prop in H as [_ H]. apply Z.ltb_lt in H. lia.
Qed.

Lemma session_write_success e d d' w s :
  run_session_write e d w = (api_success s, d') ->
  In s (study_sessions d') /\ duration_consistent s /\ study_session_checks s = true.
Proof.
  assert (Hupd : forall sid u, updateSession e d sid u = (api_success s, d') ->
            In s (study_sessions d') /\ duration_consistent s
            /\ study_session_checks s = true).
  { intros sid u H. unfold updateSession in H. apply respond_success in H.
    inv_bind H. injection H as Hs Hd. subst a0 d'. apply single_inr in Hm0.
    unfold update_study_sessions in Hm. inv_bind Hm. subst a. simpl in *.
    destruct a0 as [tbl out]. simpl in *. subst out.
    destruct (update_rows_returned _ _ _ _ _ Hm1 s (or_introl eq_refl))
      as [Hin [r [_ [_ Hf]]]].
    apply session_update_row_inr in Hf. tauto. }
  destruct w as [ins|sid u|sid endData]; simpl; intros H.
  - unfold createSession in H. apply respond_success in H. inv_bind H.
    injection H as Hs Hd. subst a0 d'. apply single_inr in Hm0.
    injection Hm0 as Hs. destruct a as [s0 d0]. simpl in Hs. subst s0.
    apply insert_study_session_inr in Hm.
    simpl. destruct Hm as [Hc [Hk [Hs _]]]. rewrite Hs.
    split; [apply in_or_app; right; now left|tauto].
  - eauto.
  - unfold endSession in H. eauto.
Qed.

(** C1, as amended.  Every write of the service that succeeds and leaves the
    session with both timestamps stores, in [duration_minutes], the elapsed
    time in minutes rounded to the nearest integer, a half minute going up:
    the cast that assigns the [NUMERIC] quotient to the [INTEGER] column
    rounds, it does not truncate.  The stored value is the number of whole
    elapsed minutes exactly when the seconds left over are fewer than
    thirty, and one more otherwise. *)
Theorem C1_duration_rounded_on_every_write
    (e : env) (d d' : database) (w : session_write) (s : StudySession.t)
    (t_end : timestamptz) :
  run_session_write e d w = (api_success s, d') ->
  StudySession.end_time s = Some t_end ->
  let elapsed := t_end - StudySession.start_time s in
  let minutes := round_half_away elapsed usec_per_min in
  In s (study_sessions d')
  /\ StudySession.duration_minutes s = Some minutes
  /\ 2 * Z.abs (usec_per_min * minutes - elapsed) <= usec_per_min
  /\ elapsed / usec_per_min <= minutes <= elapsed / usec_per_min + 1
  /\ (minutes = elapsed / usec_per_min <-> elapsed mod usec_per_min < 30 * usec_per_sec).
Proof.
  intros H Hend elapsed minutes.
  destruct (session_write_success _ _ _ _ _ H) as [Hin [Hc Hk]].
  pose proof (valid_duration_elapsed _ _ Hk Hend) as Hpos. fold elapsed in Hpos.
  assert (Hq : 0 < usec_per_min) by reflexivity.
  split; [assumption|]. split; [now apply Hc|].
  split; [now apply round_half_away_nearest|].
  split; [apply round_half_away_floor; lia|].
  unfold minutes. rewrite round_half_away_is_floor_iff by lia.
  unfold usec_per_min, usec_per_sec. lia.
Qed.

(** C1 as stated does not hold: a session of one minute and forty seconds
    is stored with [duration_minutes = 2], while the number of whole elapsed
    minutes, [floor (100 / 60)], is 1. *)
Lemma C1_counterexample :
  createSession c1_request empty_database c1_insert = (api_success c1_session, c1_database)
  /\ In c1_session (study_sessions c1_database)
  /\ elapsed_usec c1_session = Some (seconds 100)
  /\ whole_minutes c1_session = Some 1
  /\ StudySession.duration_minutes c1_session = Some 2
  /\ StudySession.duration_minutes c1_session <> whole_minutes c1_session.
Proof.
  repeat split; try reflexivity.
  - now left.
  - discriminate.
Qed.

(** An instance: the session of one minute and forty seconds, created with
    its end time. *)
Lemma C1_duration_rounded_witness :
  In c1_session (study_sessions c1_database)
  /\ StudySession.duration_minutes c1_session
     = Some (round_half_away (seconds 100) usec_per_min)
  /\ 2 * Z.abs (usec_per_min * round_half_away (seconds 100) usec_per_min - seconds 100)
     <= usec_per_min
  /\ seconds 100 / usec_per_min <= round_half_away (seconds 100) usec_per_min
     <= seconds 100 / usec_per_min + 1
  /\ (round_half_away (seconds 100) usec_per_min = seconds 100 / usec_per_min
      <-> seconds 100 mod usec_per_min < 30 * usec_per_sec).
Proof.
  exact (@C1_duration_rounded_on_every_write c1_request empty_database c1_database
           (Write_create c1_insert) c1_session (t_2025_01_01_10h + seconds 100)
           eq_refl eq_refl).
Defined.

(** Every row keeps a consistent duration across the writes of the service:
    the trigger recomputes it the same way each time. *)
Lemma duration_consistent_preserved e d w :
  (forall s, In s (study_sessions d) -> duration_consistent s) ->
  forall s, In s (study_sessions (snd (run_session_write e d w))) ->
            duration_consistent s.
Proof.
  intros Hall.
  assert (Hupd : forall sid u s,
            In s (study_sessions (snd (updateSession e d sid u))) ->
            duration_consistent s).
  { intros sid u s. unfold updateSession.
    destruct (update_study_sessions e d sid u) as [err|[out d1]] eqn:Hu; simpl.
    - now apply Hall.
    - destruct (single out) as [err|r] eqn:Hs; simpl; [now apply Hall|].
      unfold update_study_sessions in Hu. inv_bind Hu.
      injection Hu as Hout Hd. subst out d1. destruct a as [tbl out]. simpl.
      intros Hin. destruct (update_rows_table _ _ _ _ _ Hm s Hin) as [[? _]|[r0 [_ [_ Hf]]]].
      + now apply Hall.
      + now apply session_update_row_inr in Hf. }
  destruct w as [ins|sid u|sid endData]; simpl; intros s.
  - unfold createSession.
    destruct (insert_study_session e d ins) as [err|[s0 d0]] eqn:Hi; simpl.
    + now apply Hall.
    + apply insert_study_session_inr in Hi. destruct Hi as [Hc [_ [Hs _]]].
      rewrite Hs. intros Hin. apply in_app_or in Hin as [Hin|[<-|[]]]; auto.
  - apply Hupd.
  - apply Hupd.
Qed.

(* ================================================================== *)
(** * 15. The study streak                                             *)
(* ================================================================== *)

Lemma studied_on_iff e d u day :
  existsb (studied_on e u day) (study_sessions d) = true
  <-> has_ended_session_on e d u day.
Proof.
  unfold has_ended_session_on. rewrite existsb_exists.
  split; intros [s [Hin H]]; exists s; split; try assumption.
  - unfold studied_on in H. apply andb_prop in H as [H H3].
    apply andb_prop in H as [H1 H2].
    apply N.eqb_eq in H1. apply Z.eqb_eq in H2.
    destruct (StudySession.end_time s); [|discriminate].
    repeat split; auto. discriminate.
  - destruct H as [H1 [H2 H3]]. unfold studied_on.
    apply N.eqb_eq in H1. apply Z.eqb_eq in H2. rewrite H1, H2.
    destruct (StudySession.end_time s); [reflexivity|contradiction].
Qed.

Lemma streak_loop_fuel_mono e rows u (fuel fuel' : nat) streak day r :
  streak_loop fuel e rows u streak day = Some r -> (fuel <= fuel')%nat ->
  streak_loop fuel' e rows u streak day = Some r.
Proof.
  revert fuel' streak day. induction fuel as [|fuel IH]; intros fuel' streak day H Hle.
  - discriminate.
  - destruct fuel' as [|fuel']; [lia|]. simpl in *.
    destruct (existsb _ rows); [|assumption].
    destruct (in_int4 _); [|assumption].
    apply IH; [assumption|lia].
Qed.

Section FilterLength.
Context {A : Type} (p q : A -> bool).
Hypothesis p_q : forall y, p y = true -> q y = true.

Lemma filter_length_le (l : list A) :
  (List.length (filter p l) <= List.length (filter q l))%nat.
Proof.
  induction l as [|y l IH]; simpl; [lia|].
  destruct (p y) eqn:Hp.
  - rewrite (p_q _ Hp). simpl. lia.
  - destruct (q y); simpl; lia.
Qed.

Lemma filter_length_lt (l : list A) (x : A) :
  In x l -> q x = true -> p x = false ->
  (List.length (filter p l) < List.length (filter q l))%nat.
Proof.
  induction l as [|y l IH]; simpl; [contradiction|].
  intros [->|Hin] Hq Hp.
  - rewrite Hq, Hp. simpl. pose proof (filter_length_le l). lia.
  - specialize (IH Hin Hq Hp). destruct (p y) eqn:Hpy.
    + rewrite (p_q _ Hpy). simpl. lia.
    + destruct (q y); simpl; lia.
Qed.

End FilterLength.

Lemma filter_all_true {A} (l : list A) : filter (fun _ => true) l = l.
Proof. induction l as [|x l IH]; simpl; [reflexivity|now rewrite IH]. Qed.

Lemma streak_loop_terminates e rows u (fuel : nat) streak day :
  (List.length (filter (on_or_before e day) rows) < fuel)%nat ->
  exists r, streak_loop fuel e rows u streak day = Some r.
Proof.
  revert streak day. induction fuel as [|fuel IH]; intros streak day Hlt; [lia|].
  simpl. destruct (existsb _ rows) eqn:Hex; [|eauto].
  destruct (in_int4 _); [|eauto].
  apply IH. apply existsb_exists in Hex as [s [Hin Hs]].
  assert (Hday : DATE e (StudySession.start_time s) = day).
  { unfold studied_on in Hs. apply andb_prop in Hs as [Hs _].
    apply andb_prop in Hs as [_ Hs]. now apply Z.eqb_eq in Hs. }
  assert ((List.length (filter (on_or_before e (day - 1)) rows)
           < List.length (filter (on_or_before e day) rows))%nat); [|lia].
  apply filter_length_lt with (x := s); try assumption.
  - unfold on_or_before. intros y Hy. apply Z.leb_le in Hy. apply Z.leb_le. lia.
  - unfold on_or_before. apply Z.leb_le. lia.
  - unfold on_or_before. apply Z.leb_gt. lia.
Qed.

(** The loop of [get_study_streak] always ends: the function returns. *)
Lemma get_study_streak_terminates e d u :
  exists r, get_study_streak e d u = Some r.
Proof.
  unfold get_study_streak. apply streak_loop_terminates.
  pose proof (@filter_length_le _ (on_or_before e (CURRENT_DATE e))
                (fun _ => true) (fun _ _ => eq_refl) (study_sessions d)) as H.
  rewrite filter_all_true in H. lia.
Qed.

Lemma get_study_streak_by_fuel e d u (fuel : nat) r :
  streak_loop fuel e (study_sessions d) u 0 (CURRENT_DATE e) = Some r ->
  get_study_streak e d u = Some r.
Proof.
  intros H. destruct (get_study_streak_terminates e d u) as [r' Hr'].
  rewrite Hr'. unfold get_study_streak in Hr'.
  destruct (Nat.le_gt_cases fuel (S (List.length (study_sessions d)))) as [Hle|Hgt].
  - rewrite (streak_loop_fuel_mono _ _ _ _ _ _ _ _ H Hle) in Hr'. congruence.
  - assert (Hle : (S (List.length (study_sessions d)) <= fuel)%nat) by lia.
    rewrite (streak_loop_fuel_mono _ _ _ _ _ _ _ _ Hr' Hle) in H. congruence.
Qed.

(** C2.  The streak is counted from the current day backward and stops at
    the first day without an ended session: with ended sessions today, one
    day and two days ago and none three days ago it is 3; without an ended
    session today it is 0, whatever the days before (so also with sessions
    on each of the five days before). *)
Theorem C2_streak_walks_back_from_today (e : env) (d : database) (owner : uuid) :
  let D := CURRENT_DATE e in
  (has_ended_session_on e d owner D ->
   has_ended_session_on e d owner (D - 1) ->
   has_ended_session_on e d owner (D - 2) ->
   ~ has_ended_session_on e d owner (D - 3) ->
   getStudyStreak e d owner = Some (api_success 3))
  /\ (~ has_ended_session_on e d owner D ->
      (forall k, 1 <= k <= 5 -> has_ended_session_on e d owner (D - k)) ->
      getStudyStreak e d owner = Some (api_success 0)).
Proof.
  intros D. split.
  - intros H0 H1 H2 H3.
    apply studied_on_iff in H0, H1, H2.
    assert (H3' : existsb (studied_on e owner (D - 3)) (study_sessions d) = false).
    { destruct (existsb (studied_on e owner (D - 3)) (study_sessions d)) eqn:Hx;
        [|reflexivity].
      apply studied_on_iff in Hx. contradiction. }
    unfold getStudyStreak.
    rewrite (@get_study_streak_by_fuel e d owner 4 (ret 3)); [reflexivity|].
    fold D. cbn [streak_loop]. rewrite H0. cbn [Z.add in_int4].
    replace (0 + 1) with 1 by reflexivity.
    change (in_int4 1) with true. cbv iota. rewrite H1.
    change (in_int4 (1 + 1)) with true. cbv iota.
    replace (D - 1 - 1) with (D - 2) by lia. rewrite H2.
    change (in_int4 (1 + 1 + 1)) with true. cbv iota.
    replace (D - 2 - 1) with (D - 3) by lia. rewrite H3'. reflexivity.
  - intros H0 _.
    assert (H0' : existsb (studied_on e owner D) (study_sessions d) = false).
    { destruct (existsb _ _) eqn:Hx; [|reflexivity].
      apply studied_on_iff in Hx. contradiction. }
    unfold getStudyStreak.
    rewrite (@get_study_streak_by_fuel e d owner 1 (ret 0)); [reflexivity|].
    fold D. cbn [streak_loop]. now rewrite H0'.
Qed.

(** Two instances: sessions today, one, two and four days ago give 3;
    sessions on each of the five days before today, and none today, give 0. *)
Lemma C2_streak_witness :
  getStudyStreak c2_request c2_three_days owner_A = Some (api_success 3)
  /\ getStudyStreak c2_request c2_not_today owner_A = Some (api_success 0).
Proof.
  split.
  - apply (proj1 (C2_streak_walks_back_from_today c2_request c2_three_days owner_A)).
    + apply studied_on_iff. vm_compute. reflexivity.
    + apply studied_on_iff. vm_compute. reflexivity.
    + apply studied_on_iff. vm_compute. reflexivity.
    + intros H. apply studied_on_iff in H. vm_compute in H. discriminate H.
  - apply (proj2 (C2_streak_walks_back_from_today c2_request c2_not_today owner_A)).
    + intros H. apply studied_on_iff in H. vm_compute in H. discriminate H.
    + intros k Hk. apply studied_on_iff.
      assert (Hc : k = 1 \/ k = 2 \/ k = 3 \/ k = 4 \/ k = 5) by lia.
      destruct Hc as [->|[->|[->|[->| ->]]]]; vm_compute; reflexivity.
Defined.

(* ================================================================== *)
(** * 16. Who can read whose data                                      *)
(* ================================================================== *)

Lemma update_rows_none_selected {A} (sel : A -> bool) (f : A -> result A) (rows : list A) :
  (forall r, In r rows -> sel r = false) ->
  update_rows sel f rows = inr (rows, []).
Proof.
  induction rows as [|r rest IH]; intros H; simpl; [reflexivity|].
  rewrite (H r (or_introl eq_refl)).
  rewrite IH by (intros; apply H; now right). reflexivity.
Qed.

Lemma filter_none {A} (p : A -> bool) (l : list A) :
  (forall x, In x l -> p x = false) -> filter p l = [].
Proof.
  induction l as [|x l IH]; intros H; simpl; [reflexivity|].
  rewrite (H x (or_introl eq_refl)). apply IH. intros; apply H; now right.
Qed.

Lemma filter_keep_all {A} (p : A -> bool) (l : list A) :
  (forall x, In x l -> p x = true) -> filter p l = l.
Proof.
  induction l as [|x l IH]; intros H; simpl; [reflexivity|].
  rewrite (H x (or_introl eq_refl)). f_equal. apply IH. intros; apply H; now right.
Qed.

(** The policies of the tables do hold a stranger off: a principal who owns
    no session numbered [sid] cannot read it, and an update, an end or a
    delete of it changes nothing. *)
Lemma session_policies_isolate e d sid :
  (forall s, In s (study_sessions d) -> StudySession.id s = sid ->
             session_policy e s = false) ->
  getSession e d sid = api_failure no_single_row
  /\ (forall u, updateSession e d sid u = (api_failure no_single_row, d))
  /\ (forall x, endSession e d sid x = (api_failure no_single_row, d))
  /\ snd (deleteSession e d sid) = d.
Proof.
  intros H.
  assert (Hsel : forall s, In s (study_sessions d) ->
            session_policy e s && N.eqb (StudySession.id s) sid = false).
  { intros s Hin. destruct (N.eqb_spec (StudySession.id s) sid) as [Heq|Hne].
    - rewrite (H s Hin Heq). reflexivity.
    - apply andb_false_r. }
  assert (Hupd : forall u, updateSession e d sid u = (api_failure no_single_row, d)).
  { intros u. unfold updateSession, update_study_sessions.
    rewrite update_rows_none_selected by assumption. reflexivity. }
  repeat split.
  - unfold getSession, select_study_sessions. rewrite filter_none; [reflexivity|].
    intros s Hin. apply filter_In in Hin as [Hin Hp].
    specialize (Hsel s Hin). rewrite Hp in Hsel. exact Hsel.
  - exact Hupd.
  - intros x. apply Hupd.
  - unfold deleteSession, delete_study_sessions. simpl.
    assert (Hgone : forall i,
              existsb (fun s => session_policy e s && N.eqb (StudySession.id s) sid
                                && N.eqb (StudySession.id s) i) (study_sessions d) = false).
    { intros i. destruct (existsb _ _) eqn:Hx; [|reflexivity].
      apply existsb_exists in Hx as [s [Hin Hs]].
      rewrite (Hsel s Hin) in Hs. discriminate. }
    destruct d as [ss ts gs n]. simpl in *. f_equal.
    + apply filter_keep_all. intros s Hin. now rewrite (Hsel s Hin).
    + rewrite <- (map_id ts) at 2. apply map_ext. intros t.
      destruct (Task.session_id t); [rewrite Hgone|]; reflexivity.
    + apply filter_keep_all. intros g _. now rewrite Hgone.
Qed.

Lemma existsb_pointwise {A} (p q : A -> bool) (l : list A) :
  (forall x, p x = q x) -> existsb p l = existsb q l.
Proof.
  intros H. induction l as [|x l IH]; simpl; [reflexivity|]. now rewrite H, IH.
Qed.

Lemma streak_loop_same_clock e e' rows u (fuel : nat) streak day :
  pg_timezone e = pg_timezone e' ->
  streak_loop fuel e rows u streak day = streak_loop fuel e' rows u streak day.
Proof.
  intros Htz. revert streak day. induction fuel as [|fuel IH]; intros streak day; simpl.
  - reflexivity.
  - rewrite (existsb_pointwise (studied_on e u day) (studied_on e' u day)).
    + destruct (existsb _ rows); [|reflexivity].
      destruct (in_int4 _); [apply IH|reflexivity].
    + intros s. unfold studied_on, DATE. now rewrite Htz.
Qed.

(** The two functions do not look at the caller at all: the answer is the
    same for every principal, and for none. *)
Lemma security_definer_ignores_caller e e' d p_user_id :
  pg_now e = pg_now e' -> pg_timezone e = pg_timezone e' ->
  getStudyStreak e d p_user_id = getStudyStreak e' d p_user_id
  /\ getTaskCompletionRate e d p_user_id = getTaskCompletionRate e' d p_user_id.
Proof.
  intros Hnow Htz. split; [|reflexivity].
  unfold getStudyStreak, get_study_streak, CURRENT_DATE, DATE.
  rewrite Hnow, Htz. now rewrite (@streak_loop_same_clock e e').
Qed.

(** C3, where the code departs from it.  Principal B is shown none of owner
    A's rows by the policies of the tables, yet [getStudyStreak] and
    [getTaskCompletionRate], called by B with A's identifier, succeed and
    return A's streak and A's completion rate: the two functions are
    [SECURITY DEFINER] and compare no principal with [p_user_id]. *)
Theorem C3_security_definer_functions_read_any_owner :
  auth_uid c3_request_B = Some principal_B
  /\ principal_B <> owner_A
  /\ select_study_sessions c3_request_B c3_database = []
  /\ select_tasks c3_request_B c3_database = []
  /\ select_study_session_tags c3_request_B c3_database = []
  /\ getSession c3_request_B c3_database 10%N = api_failure no_single_row
  /\ getStudyStreak c3_request_B c3_database owner_A = Some (api_success 1)
  /\ getTaskCompletionRate c3_request_B c3_database owner_A
     = api_success {| digits := 5000; dscale := 2 |}.
Proof.
  split; [reflexivity|]. split; [discriminate|].
  vm_compute. repeat split.
Qed.

(* ================================================================== *)
(** * 17. Tags                                                         *)
(* ================================================================== *)

Lemma varchar_short (n : nat) (s : string) :
  (String.length s <= n)%nat -> varchar n s = ret s.
Proof. unfold varchar. intros H. apply Nat.leb_le in H. now rewrite H. Qed.

(** No step of [normalize_tag] adds or removes the character U+0000. *)
Lemma char_toLowerCase_nul (c : ascii) :
  Ascii.eqb (char_toLowerCase c) "000"%char = Ascii.eqb c "000"%char.
Proof. destruct c as [[] [] [] [] [] [] [] []]; reflexivity. Qed.

Lemma is_js_whitespace_not_nul (c : ascii) :
  is_js_whitespace c = true -> Ascii.eqb c "000"%char = false.
Proof.
  destruct c as [[] [] [] [] [] [] [] []]; intros H; try reflexivity;
    vm_compute in H; discriminate H.
Qed.

Lemma text_ok_toLowerCase (s : string) : text_ok (toLowerCase s) = text_ok s.
Proof.
  induction s as [|c s IH]; simpl; [reflexivity|].
  now rewrite char_toLowerCase_nul, IH.
Qed.

Lemma text_ok_trimStart (s : string) : text_ok (trimStart s) = text_ok s.
Proof.
  induction s as [|c s IH]; simpl; [reflexivity|].
  destruct (is_js_whitespace c) eqn:Hw; [|reflexivity].
  now rewrite IH, (is_js_whitespace_not_nul _ Hw).
Qed.

Lemma text_ok_append (a b : string) :
  text_ok (a ++ b) = text_ok a && text_ok b.
Proof.
  induction a as [|c a IH]; simpl; [reflexivity|].
  now rewrite IH, andb_assoc.
Qed.

Lemma text_ok_string_rev (s : string) : text_ok (string_rev s) = text_ok s.
Proof.
  induction s as [|c s IH]; simpl; [reflexivity|].
  rewrite text_ok_append, IH. simpl. rewrite andb_true_r. apply andb_comm.
Qed.

Lemma text_ok_normalize_tag (t : string) : text_ok (normalize_tag t) = text_ok t.
Proof.
  unfold normalize_tag, trim, trimEnd.
  now rewrite text_ok_string_rev, text_ok_trimStart, text_ok_string_rev,
              text_ok_trimStart, text_ok_toLowerCase.
Qed.

Lemma tag_of_body_fits (s : string) :
  text_ok s = true -> (String.length s <= 50)%nat -> tag_of_body s = ret s.
Proof.
  intros Hok Hlen. unfold tag_of_body. rewrite Hok. cbn [guard bind ret].
  now apply varchar_short.
Qed.

Lemma tag_of_body_inr (s v : string) :
  tag_of_body s = inr v -> text_ok s = true /\ varchar 50 s = inr v.
Proof.
  unfold tag_of_body. destruct (text_ok s); [|discriminate].
  cbn [guard bind ret]. auto.
Qed.

Lemma tags_of_body_fit sid (tags : list string) :
  (forall t, In t tags -> text_ok t = true /\ (String.length t <= 50)%nat) ->
  tags_of_body (map (StudySessionTagInsert.mk sid) tags) = ret tt.
Proof.
  induction tags as [|t r IH]; intros H; [reflexivity|].
  cbn [map tags_of_body StudySessionTagInsert.tag].
  destruct (H t (or_introl eq_refl)) as [Hok Hlen].
  rewrite (tag_of_body_fits _ Hok Hlen). cbn [bind ret].
  apply IH. intros t' Ht'. apply H. now right.
Qed.

Lemma tag_exists_snoc table row sid t :
  tag_exists (table ++ [row]) sid t
  = tag_exists table sid t
    || (N.eqb (StudySessionTag.session_id row) sid
        && String.eqb (StudySessionTag.tag row) t).
Proof. unfold tag_exists. rewrite existsb_app. simpl. now rewrite orb_false_r. Qed.

Lemma forallb_accepts_snoc e table next sid t (r : list string) :
  forallb (fun t' => negb (tag_exists
                             (table ++ [StudySessionTag.mk next sid t (pg_now e)])
                             sid t')) r
  = negb (existsb (String.eqb t) r)
    && forallb (fun t' => negb (tag_exists table sid t')) r.
Proof.
  induction r as [|x r IH]; simpl; [reflexivity|].
  rewrite IH, tag_exists_snoc. simpl. rewrite N.eqb_refl. simpl.
  destruct (tag_exists table sid x), (String.eqb t x),
           (existsb (String.eqb t) r); reflexivity.
Qed.

Lemma insert_tag_rows_spec e d sid (tags : list string) :
  tag_policy_for e d sid = true ->
  existsb (fun s => N.eqb (StudySession.id s) sid) (study_sessions d) = true ->
  (forall t, In t tags -> text_ok t = true /\ (String.length t <= 50)%nat) ->
  forall table inserted next,
    insert_tag_rows e d (table, inserted, next)
                    (map (StudySessionTagInsert.mk sid) tags)
    = if unique_index_accepts table sid tags
      then inr (table ++ new_tag_rows e next sid tags,
                inserted ++ new_tag_rows e next sid tags,
                (next + N.of_nat (List.length tags))%N)
      else inl (unique_violation "study_session_tags_session_id_tag_key").
Proof.
  intros Hpol Hfk. induction tags as [|t r IH]; intros Hlen table inserted next.
  - simpl. rewrite !app_nil_r, N.add_0_r. reflexivity.
  - cbn [map insert_tag_rows]. unfold insert_tag_row.
    cbn [StudySessionTagInsert.tag StudySessionTagInsert.session_id].
    rewrite tag_of_body_fits by (apply Hlen; now left).
    cbn [bind ret]. rewrite Hpol, Hfk. cbn [guard bind ret].
    unfold unique_index_accepts. cbn [distinct forallb new_tag_rows].
    destruct (tag_exists table sid t) eqn:Hex; cbn [negb guard bind ret raise].
    + now rewrite !andb_false_r.
    + rewrite IH by (intros; apply Hlen; now right).
      unfold unique_index_accepts. rewrite forallb_accepts_snoc.
      rewrite <- !app_assoc. cbn [app List.length].
      replace (N.succ next + N.of_nat (List.length r))%N
        with (next + N.of_nat (S (List.length r)))%N by lia.
      destruct (existsb (String.eqb t) r), (distinct r),
               (forallb (fun t' => negb (tag_exists table sid t')) r); reflexivity.
Qed.

Lemma owned_by_caller_policy e d sid :
  owned_by_caller e d sid ->
  tag_policy_for e d sid = true
  /\ existsb (fun s => N.eqb (StudySession.id s) sid) (study_sessions d) = true.
Proof.
  intros [s [Hin [Hid Hauth]]]. split; apply existsb_exists; exists s; split; auto.
  - unfold session_policy, auth_uid_is. rewrite Hauth, Hid, !N.eqb_refl. reflexivity.
  - rewrite Hid. apply N.eqb_refl.
Qed.

(** What [addSessionTags] does for a session of the caller and tags that
    the column can hold: all the normalized tags are stored, or, when the
    unique index refuses one of them, none is and the answer is the failure
    23505. *)
Lemma addSessionTags_spec e d sid (tags : list string) :
  owned_by_caller e d sid ->
  (forall t, In t tags ->
             text_ok t = true /\ (String.length (normalize_tag t) <= 50)%nat) ->
  addSessionTags e d sid tags
  = let norm := map normalize_tag tags in
    if unique_index_accepts (study_session_tags d) sid norm
    then (api_success (new_tag_rows e (next_uuid d) sid norm),
          with_next_uuid
            (with_study_session_tags d
               (study_session_tags d ++ new_tag_rows e (next_uuid d) sid norm))
            (next_uuid d + N.of_nat (List.length norm))%N)
    else (api_failure (unique_violation "study_session_tags_session_id_tag_key"), d).
Proof.
  intros Hown Hlen. destruct (owned_by_caller_policy _ _ _ Hown) as [Hpol Hfk].
  assert (Hnorm : forall t, In t (map normalize_tag tags) ->
                            text_ok t = true /\ (String.length t <= 50)%nat).
  { intros t Ht. apply in_map_iff in Ht as [t0 [<- Ht0]].
    rewrite text_ok_normalize_tag. now apply Hlen. }
  unfold addSessionTags, insert_study_session_tags.
  rewrite <- (map_map normalize_tag (StudySessionTagInsert.mk sid)).
  rewrite (tags_of_body_fit sid _ Hnorm). cbn [bind ret].
  rewrite insert_tag_rows_spec; try assumption.
  cbv zeta. destruct (unique_index_accepts _ _ _); reflexivity.
Qed.

Lemma filter_filter_implied {A} (p q : A -> bool) (l : list A) :
  (forall x, p x = true -> q x = true) -> filter p (filter q l) = filter p l.
Proof.
  intros H. induction l as [|x l IH]; simpl; [reflexivity|].
  destruct (q x) eqn:Hq; simpl.
  - now rewrite IH.
  - destruct (p x) eqn:Hp; [|assumption]. rewrite (H x Hp) in Hq. discriminate.
Qed.

Lemma listTags_owned e d sid :
  owned_by_caller e d sid ->
  listTags e d sid
  = map StudySessionTag.tag
      (filter (fun g => N.eqb (StudySessionTag.session_id g) sid) (study_session_tags d)).
Proof.
  intros Hown. destruct (owned_by_caller_policy _ _ _ Hown) as [Hpol _].
  unfold listTags, getSessionTags, select_study_session_tags. simpl.
  rewrite filter_filter_implied; [reflexivity|].
  intros g Hg. apply N.eqb_eq in Hg. unfold tag_policy. now rewrite Hg.
Qed.

Lemma new_tag_rows_tags e next sid tags :
  map StudySessionTag.tag (new_tag_rows e next sid tags) = tags
  /\ filter (fun g => N.eqb (StudySessionTag.session_id g) sid)
            (new_tag_rows e next sid tags)
     = new_tag_rows e next sid tags.
Proof.
  revert next. induction tags as [|t r IH]; intros next; simpl; [split; reflexivity|].
  destruct (IH (N.succ next)) as [H1 H2]. rewrite N.eqb_refl, H1, H2. split; reflexivity.
Qed.

(** C4, as amended.  For a session of the caller and tags without the
    character U+0000 that have at most fifty characters once normalized
    (lower-cased, then trimmed): when the normalized tags are pairwise
    distinct and none of them is stored for the session yet,
    [addSessionTags] stores them all and [listTags] then gives the tags
    stored before together with the normalized ones, each once for each
    time it is there; otherwise, as with "Math" and "math " which both
    normalize to "math", the unique index on [(session_id, tag)] fails the
    whole insert with error 23505, nothing is stored and [listTags] gives
    what it gave before. *)
Theorem C4_addTags_stores_all_or_fails (e : env) (d : database) (sid : uuid)
    (tags : list string) :
  owned_by_caller e d sid ->
  (forall t, In t tags ->
             text_ok t = true /\ (String.length (normalize_tag t) <= 50)%nat) ->
  let norm := map normalize_tag tags in
  if unique_index_accepts (study_session_tags d) sid norm
  then exists rows d',
         addSessionTags e d sid tags = (api_success rows, d')
         /\ map StudySessionTag.tag rows = norm
         /\ Permutation (listTags e d' sid) (listTags e d sid ++ norm)
  else is_failure (fst (addSessionTags e d sid tags))
       /\ error_code_of (fst (addSessionTags e d sid tags)) = Some "23505"%string
       /\ snd (addSessionTags e d sid tags) = d
       /\ listTags e (snd (addSessionTags e d sid tags)) sid = listTags e d sid.
Proof.
  intros Hown Hlen norm. rewrite (addSessionTags_spec _ _ _ _ Hown Hlen).
  subst norm. cbv zeta. set (norm := map normalize_tag tags).
  destruct (unique_index_accepts (study_session_tags d) sid norm).
  - eexists. eexists. split; [reflexivity|].
    destruct (new_tag_rows_tags e (next_uuid d) sid norm) as [Hmap Hfil].
    split; [assumption|].
    rewrite !listTags_owned by exact Hown.
    simpl. rewrite filter_app, map_app, Hfil, Hmap. apply Permutation_refl.
  - split; [repeat split; simpl; discriminate|]. repeat split.
Qed.

(** Session 10 of the fixture belongs to the caller. *)
Lemma c4_owned : owned_by_caller c4_request c4_database 10%N.
Proof. eexists. split; [now left|]. split; reflexivity. Defined.

(** C4 as stated does not hold: adding "Math" and "math " to a session of
    the caller that has no tag fails with 23505 and stores nothing, so
    [listTags] is empty and not the single tag "math". *)
Lemma C4_counterexample :
  owned_by_caller c4_request c4_database 10%N
  /\ map normalize_tag ["Math"; "math "]%string = ["math"; "math"]%string
  /\ addSessionTags c4_request c4_database 10%N ["Math"; "math "]%string
     = (api_failure (unique_violation "study_session_tags_session_id_tag_key"),
        c4_database)
  /\ success (fst (addSessionTags c4_request c4_database 10%N
                     ["Math"; "math "]%string)) = false
  /\ error_code_of (fst (addSessionTags c4_request c4_database 10%N
                           ["Math"; "math "]%string)) = Some "23505"%string
  /\ listTags c4_request
       (snd (addSessionTags c4_request c4_database 10%N ["Math"; "math "]%string)) 10%N
     = []
  /\ listTags c4_request
       (snd (addSessionTags c4_request c4_database 10%N ["Math"; "math "]%string)) 10%N
     <> ["math"%string].
Proof.
  split; [exact c4_owned|].
  split; [vm_compute; reflexivity|].
  split; [vm_compute; reflexivity|].
  split; [vm_compute; reflexivity|].
  split; [vm_compute; reflexivity|].
  split; [vm_compute; reflexivity|].
  vm_compute. discriminate.
Qed.

(** Two instances: "Math" and " Physics " are stored as "math" and
    "physics"; "Math" and "math " are refused together. *)
Lemma C4_addTags_witness :
  (exists rows d',
      addSessionTags c4_request c4_database 10%N ["Math"; " Physics "]%string
      = (api_success rows, d')
      /\ map StudySessionTag.tag rows = ["math"; "physics"]%string
      /\ Permutation (listTags c4_request d' 10%N) ["math"; "physics"]%string)
  /\ error_code_of (fst (addSessionTags c4_request c4_database 10%N
                           ["Math"; "math "]%string)) = Some "23505"%string.
Proof.
  split.
  - assert (Hlen : forall t, In t ["Math"; " Physics "]%string ->
                             text_ok t = true
                             /\ (String.length (normalize_tag t) <= 50)%nat)
      by (intros t [<-|[<-|[]]]; (split; [reflexivity|vm_compute; lia])).
    pose proof (@C4_addTags_stores_all_or_fails c4_request c4_database 10%N
                  ["Math"; " Physics "]%string c4_owned Hlen) as H.
    cbv zeta in H.
    change (unique_index_accepts (study_session_tags c4_database) 10%N
              (map normalize_tag ["Math"; " Physics "]%string)) with true in H.
    cbv iota in H.
    change (map normalize_tag ["Math"; " Physics "]%string)
      with ["math"; "physics"]%string in H.
    change (listTags c4_request c4_database 10%N) with (@nil string) in H.
    exact H.
  - assert (Hlen : forall t, In t ["Math"; "math "]%string ->
                             text_ok t = true
                             /\ (String.length (normalize_tag t) <= 50)%nat)
      by (intros t [<-|[<-|[]]]; (split; [reflexivity|vm_compute; lia])).
    pose proof (@C4_addTags_stores_all_or_fails c4_request c4_database 10%N
                  ["Math"; "math "]%string c4_owned Hlen) as H.
    cbv zeta in H.
    change (unique_index_accepts (study_session_tags c4_database) 10%N
              (map normalize_tag ["Math"; "math "]%string)) with false in H.
    cbv iota in H. exact (proj1 (proj2 H)).
Defined.

(** C8, as amended.  [addSessionTags] rejects no tag for being empty: for a
    session of the caller that has no empty tag yet, a tag that is empty once
    normalized is stored as the empty string and the call succeeds; neither
    the service nor the table checks the content of a tag. *)
Theorem C8_empty_tag_is_stored (e : env) (d : database) (sid : uuid) (t : string) :
  owned_by_caller e d sid ->
  normalize_tag t = EmptyString ->
  tag_exists (study_session_tags d) sid EmptyString = false ->
  exists row d',
    addSessionTags e d sid [t] = (api_success [row], d')
    /\ StudySessionTag.tag row = EmptyString
    /\ In row (study_session_tags d')
    /\ In EmptyString (listTags e d' sid).
Proof.
  intros Hown Hnorm Hfree.
  assert (Hlen : forall t', In t' [t] ->
                   text_ok t' = true /\ (String.length (normalize_tag t') <= 50)%nat).
  { intros t' [<-|[]]. rewrite <- text_ok_normalize_tag, Hnorm. simpl. split; [reflexivity|lia]. }
  rewrite (addSessionTags_spec _ _ _ _ Hown Hlen). cbn [map]. rewrite Hnorm.
  unfold unique_index_accepts. cbn [distinct forallb existsb negb andb].
  rewrite Hfree. cbn [negb andb new_tag_rows].
  eexists. eexists. split; [reflexivity|]. split; [reflexivity|].
  split.
  - simpl. apply in_or_app. right. now left.
  - rewrite listTags_owned by exact Hown.
    simpl. rewrite filter_app, map_app. apply in_or_app. right.
    simpl. rewrite N.eqb_refl. now left.
Qed.

(** C8 as stated does not hold: a tag of blanks is accepted and the empty
    string is stored. *)
Lemma C8_counterexample :
  normalize_tag "   " = EmptyString
  /\ fst (addSessionTags c4_request c4_database 10%N ["   "%string])
     = api_success [c8_stored_row]
  /\ study_session_tags (snd (addSessionTags c4_request c4_database 10%N ["   "%string]))
     = [c8_stored_row]
  /\ StudySessionTag.tag c8_stored_row = EmptyString
  /\ listTags c4_request
       (snd (addSessionTags c4_request c4_database 10%N ["   "%string])) 10%N
     = [EmptyString].
Proof. vm_compute. repeat split. Qed.

(** An instance: a tag of three blanks. *)
Lemma C8_empty_tag_witness :
  exists row d',
    addSessionTags c4_request c4_database 10%N ["   "%string] = (api_success [row], d')
    /\ StudySessionTag.tag row = EmptyString
    /\ In row (study_session_tags d')
    /\ In EmptyString (listTags c4_request d' 10%N).
Proof.
  exact (@C8_empty_tag_is_stored c4_request c4_database 10%N "   " c4_owned
           eq_refl eq_refl).
Defined.

(* ================================================================== *)
(** * 18. Ending a session                                             *)
(* ================================================================== *)

Lemma rating_check_int4 (r : option Z) : rating_check r = true -> int4_column r = true.
Proof.
  destruct r as [v|]; simpl; [|reflexivity]. intros H.
  apply andb_prop in H as [H1 H2]. apply Z.leb_le in H1, H2.
  unfold in_int4, int4_min, int4_max. apply andb_true_intro.
  split; apply Z.leb_le; lia.
Qed.

Lemma update_rows_one_selected e (f : StudySession.t -> result StudySession.t)
    (rows : list StudySession.t) (s0 s1 : StudySession.t) :
  NoDup (map StudySession.id rows) -> In s0 rows ->
  session_policy e s0 = true -> f s0 = inr s1 ->
  StudySession.id s1 = StudySession.id s0 ->
  update_rows (fun s => session_policy e s && N.eqb (StudySession.id s) (StudySession.id s0))
              f rows
  = inr (replace_session s1 rows, [s1]).
Proof.
  intros Hnd Hin Hpol Hf Hid. unfold replace_session. rewrite Hid.
  induction rows as [|r rest IH]; [contradiction|].
  simpl in Hnd. apply NoDup_cons_iff in Hnd as [Hnotin Hnd].
  destruct Hin as [->|Hin].
  - simpl. rewrite Hpol, N.eqb_refl. simpl. rewrite Hf. simpl.
    assert (Hrest : forall s, In s rest ->
              N.eqb (StudySession.id s) (StudySession.id s0) = false).
    { intros s Hs. apply N.eqb_neq. intros Heq. apply Hnotin. rewrite <- Heq.
      now apply in_map. }
    rewrite update_rows_none_selected
      by (intros s Hs; rewrite (Hrest s Hs); apply andb_false_r).
    simpl. unfold ret. f_equal. f_equal. f_equal.
    rewrite <- (map_id rest) at 1. apply map_ext_in.
    intros s Hs. now rewrite (Hrest s Hs).
  - assert (Hne : N.eqb (StudySession.id r) (StudySession.id s0) = false).
    { apply N.eqb_neq. intros Heq. apply Hnotin. rewrite Heq. now apply in_map. }
    simpl. rewrite Hne, andb_false_r. rewrite (IH Hnd Hin). reflexivity.
Qed.

Lemma replace_session_ids (s1 : StudySession.t) rows :
  map StudySession.id (replace_session s1 rows) = map StudySession.id rows.
Proof.
  unfold replace_session. rewrite map_map. apply map_ext. intros s.
  destruct (N.eqb_spec (StudySession.id s) (StudySession.id s1)); congruence.
Qed.

Lemma replace_session_in (s0 s1 : StudySession.t) rows :
  In s0 rows -> StudySession.id s1 = StudySession.id s0 ->
  In s1 (replace_session s1 rows).
Proof.
  intros Hin Hid. unfold replace_session. apply in_map_iff. exists s0.
  rewrite Hid, N.eqb_refl. auto.
Qed.

Lemma replace_session_only (s1 : StudySession.t) rows s :
  In s (replace_session s1 rows) -> StudySession.id s = StudySession.id s1 -> s = s1.
Proof.
  unfold replace_session. intros Hin Hid. apply in_map_iff in Hin as [s' [Hs' _]].
  destruct (N.eqb_spec (StudySession.id s') (StudySession.id s1)) as [|Hne]; [congruence|].
  subst s'. contradiction.
Qed.

Lemma endSession_row e endData s0 :
  can_end e endData s0 = true ->
  exists u, (forall d sid, endSession e d sid endData = updateSession e d sid u)
            /\ session_update_row e u s0 = inr (ended_row e endData s0).
Proof.
  unfold can_end. intros H.
  apply andb_prop in H as [H Hprod]. apply andb_prop in H as [H Hmood].
  apply andb_prop in H as [H Hint]. apply andb_prop in H as [H Hstart].
  apply andb_prop in H as [Hnotes Hauth].
  eexists. split; [intros d sid; reflexivity|].
  unfold session_update_row.
  assert (Ht : forall g : option string,
             text_ok_opt g = true -> text_ok_given (option_map Some g) = true)
    by (intros [x|]; simpl; auto).
  cbn [StudySessionUpdate.session_notes StudySessionUpdate.ai_feedback
       StudySessionUpdate.google_calendar_event_id text_ok_given andb
       varchar_given with_google_calendar_event_id].
  assert (Hm : forall (A : Type) (g old : option A),
             or_keep (option_map Some g) old = merged g old)
    by (intros A g old; destruct g; reflexivity).
  assert (Hi : forall (g : option Z) old, rating_check (merged g old) = true ->
               int4_column (or_keep (option_map Some g) None) = true).
  { intros g old Hr. destruct g as [v|]; [|reflexivity].
    now apply rating_check_int4 in Hr. }
  cbn [StudySessionUpdate.mood_rating StudySessionUpdate.productivity_rating].
  destruct endData as [x|]; cbn [endData_field] in *.
  - rewrite (Ht _ Hnotes), (Hi _ _ Hmood), (Hi _ _ Hprod).
    cbn [andb guard bind ret varchar_given].
    unfold with_google_calendar_event_id.
    cbn [StudySessionUpdate.end_time StudySessionUpdate.session_notes
         StudySessionUpdate.mood_rating StudySessionUpdate.productivity_rating
         StudySessionUpdate.ai_feedback StudySessionUpdate.ai_feedback_generated_at
         StudySessionUpdate.google_calendar_event_id].
    unfold calculate_session_duration, apply_session_update.
    cbn [StudySession.end_time StudySession.start_time StudySessionUpdate.end_time or_keep].
    unfold numeric_to_int4. rewrite numeric_round_epoch_div_60, Hint.
    cbn [bind ret]. unfold update_session_updated_at, set_session_updated_at,
      set_duration_minutes, session_policy, study_session_checks, valid_duration.
    cbn -[round_half_away Date_now_toISOString]. rewrite !Hm, Hauth, Hmood, Hprod, Hstart.
    reflexivity.
  - cbn [option_map or_keep int4_column text_ok_given andb guard bind ret varchar_given].
    unfold with_google_calendar_event_id.
    cbn [StudySessionUpdate.end_time StudySessionUpdate.session_notes
         StudySessionUpdate.mood_rating StudySessionUpdate.productivity_rating
         StudySessionUpdate.ai_feedback StudySessionUpdate.ai_feedback_generated_at
         StudySessionUpdate.google_calendar_event_id].
    unfold calculate_session_duration, apply_session_update.
    cbn [StudySession.end_time StudySession.start_time StudySessionUpdate.end_time or_keep].
    unfold numeric_to_int4. rewrite numeric_round_epoch_div_60, Hint.
    cbn [bind ret]. unfold update_session_updated_at, set_session_updated_at,
      set_duration_minutes, session_policy, study_session_checks, valid_duration.
    cbn -[round_half_away Date_now_toISOString] in *. rewrite Hauth, Hmood, Hprod, Hstart.
    reflexivity.
Qed.

(** One call of [endSession] on a session of the caller. *)
Lemma endSession_owned e d endData s0 :
  NoDup (map StudySession.id (study_sessions d)) -> In s0 (study_sessions d) ->
  can_end e endData s0 = true ->
  endSession e d (StudySession.id s0) endData
  = (api_success (ended_row e endData s0),
     with_study_sessions d (replace_session (ended_row e endData s0) (study_sessions d))).
Proof.
  intros Hnd Hin Hcan.
  destruct (endSession_row _ _ _ Hcan) as [u [Hend Hrow]]. rewrite Hend.
  unfold updateSession, update_study_sessions.
  rewrite (@update_rows_one_selected e _ _ s0 (ended_row e endData s0)); auto.
  unfold can_end in Hcan. unfold session_policy.
  destruct (auth_uid_is e (StudySession.user_id s0)); [reflexivity|].
  rewrite andb_false_r in Hcan. discriminate.
Qed.

Lemma merged_idem {A} (g old : option A) : merged g (merged g old) = merged g old.
Proof. now destruct g. Qed.

Lemma can_end_again e e' endData s0 :
  can_end e' endData s0 = true -> can_end e' endData (ended_row e endData s0) = true.
Proof.
  unfold can_end, ended_row.
  cbn [StudySession.user_id StudySession.start_time StudySession.mood_rating
       StudySession.productivity_rating].
  now rewrite !merged_idem.
Qed.

Lemma ended_row_again e1 e2 endData s0 :
  ended_row e2 endData (ended_row e1 endData s0) = ended_row e2 endData s0.
Proof.
  unfold ended_row.
  cbn [StudySession.id StudySession.user_id StudySession.session_type
       StudySession.start_time StudySession.target_duration_minutes
       StudySession.session_notes StudySession.mood_rating
       StudySession.productivity_rating StudySession.ai_feedback
       StudySession.ai_feedback_generated_at StudySession.google_calendar_event_id
       StudySession.created_at].
  now rewrite !merged_idem.
Qed.

(** C5, as amended.  [endSession] never looks whether the session has
    ended.  Each call that can end a session of the caller (the notes
    supplied hold no U+0000, the clock of the call is past [start_time] by a
    number of minutes that fits an INTEGER, and the ratings supplied or else
    stored are within 1 to 5) sets [end_time] to the clock of that call,
    replaces [session_notes], [mood_rating] and [productivity_rating] by the
    values supplied and keeps the stored ones otherwise, and the trigger
    recomputes [duration_minutes] from the new [end_time]; the other columns
    but [updated_at] are kept.  Ending twice with the same data succeeds
    twice, and the second call overwrites the stored [end_time] and
    [duration_minutes]; the two calls leave the same [end_time] only if both
    read the same millisecond. *)
Theorem C5_second_end_overwrites_end_time
    (e1 e2 : env) (d : database) (s0 : StudySession.t) (endData : option EndData.t) :
  NoDup (map StudySession.id (study_sessions d)) ->
  In s0 (study_sessions d) ->
  can_end e1 endData s0 = true ->
  can_end e2 endData s0 = true ->
  let sid := StudySession.id s0 in
  exists s1 d1 s2 d2,
    endSession e1 d sid endData = (api_success s1, d1)
    /\ endSession e2 d1 sid endData = (api_success s2, d2)
    /\ StudySession.end_time s1 = Some (Date_now_toISOString e1)
    /\ StudySession.end_time s2 = Some (Date_now_toISOString e2)
    /\ StudySession.duration_minutes s2
       = Some (round_half_away (Date_now_toISOString e2 - StudySession.start_time s0)
                               usec_per_min)
    /\ In s2 (study_sessions d2)
    /\ (forall s, In s (study_sessions d2) -> StudySession.id s = sid -> s = s2)
    /\ (StudySession.end_time s2 = StudySession.end_time s1 <-> js_now e2 = js_now e1)
    /\ s1 = ended_row e1 endData s0
    /\ s2 = ended_row e2 endData s0
    /\ (forall s e, (s = s1 /\ e = e1) \/ (s = s2 /\ e = e2) ->
          StudySession.session_notes s
          = merged (endData_field EndData.session_notes endData)
                   (StudySession.session_notes s0)
          /\ StudySession.mood_rating s
             = merged (endData_field EndData.mood_rating endData)
                      (StudySession.mood_rating s0)
          /\ StudySession.productivity_rating s
             = merged (endData_field EndData.productivity_rating endData)
                      (StudySession.productivity_rating s0)
          /\ StudySession.updated_at s = pg_now e
          /\ StudySession.id s = StudySession.id s0
          /\ StudySession.user_id s = StudySession.user_id s0
          /\ StudySession.session_type s = StudySession.session_type s0
          /\ StudySession.start_time s = StudySession.start_time s0
          /\ StudySession.target_duration_minutes s
             = StudySession.target_duration_minutes s0
          /\ StudySession.ai_feedback s = StudySession.ai_feedback s0
          /\ StudySession.ai_feedback_generated_at s
             = StudySession.ai_feedback_generated_at s0
          /\ StudySession.google_calendar_event_id s
             = StudySession.google_calendar_event_id s0
          /\ StudySession.created_at s = StudySession.created_at s0).
Proof.
  intros Hnd Hin Hcan1 Hcan2 sid.
  set (s1 := ended_row e1 endData s0).
  set (d1 := with_study_sessions d (replace_session s1 (study_sessions d))).
  set (s2 := ended_row e2 endData s1).
  set (d2 := with_study_sessions d1 (replace_session s2 (study_sessions d1))).
  assert (Hin1 : In s1 (study_sessions d1))
    by (apply (@replace_session_in s0 s1 _ Hin); reflexivity).
  exists s1, d1, s2, d2.
  split; [now apply endSession_owned|].
  split.
  { change sid with (StudySession.id s1). apply endSession_owned.
    - simpl. now rewrite replace_session_ids.
    - exact Hin1.
    - now apply can_end_again. }
  split; [reflexivity|]. split; [reflexivity|]. split; [reflexivity|].
  split; [apply (@replace_session_in s1 s2 _ Hin1); reflexivity|].
  split.
  { intros s Hs Hid. apply (@replace_session_only s2 _ s Hs). exact Hid. }
  split.
  { simpl. unfold Date_now_toISOString. split; intros H.
    - injection H as H. lia.
    - now rewrite H. }
  split; [reflexivity|].
  split; [apply ended_row_again|].
  intros s e [[-> ->]|[-> ->]].
  - repeat split.
  - unfold s2, s1. rewrite ended_row_again. repeat split.
Qed.

(** C5 as stated does not hold: a session begun at 10:00 and ended at 10:25
    with a mood of 4 has 25 minutes; ended again at 10:50 with the same data,
    the call succeeds and the stored row has the [end_time] 10:50 and 50
    minutes. *)
Lemma C5_counterexample :
  let first := endSession c5_first_request c4_database 10%N c5_endData in
  let second := endSession c5_second_request (snd first) 10%N c5_endData in
  success (fst first) = true
  /\ map StudySession.end_time (study_sessions (snd first))
     = [Some (t_2025_01_01_10h + minutes 25)]
  /\ map StudySession.duration_minutes (study_sessions (snd first)) = [Some 25]
  /\ success (fst second) = true
  /\ map StudySession.end_time (study_sessions (snd second))
     = [Some (t_2025_01_01_10h + minutes 50)]
  /\ map StudySession.duration_minutes (study_sessions (snd second)) = [Some 50]
  /\ map StudySession.end_time (study_sessions (snd second))
     <> map StudySession.end_time (study_sessions (snd first)).
Proof. vm_compute. repeat split. discriminate. Qed.

(** An instance: the session begun at 10:00, ended at 10:25 and again at
    10:50. *)
Lemma C5_second_end_witness :
  exists s1 d1 s2 d2,
    endSession c5_first_request c4_database 10%N c5_endData = (api_success s1, d1)
    /\ endSession c5_second_request d1 10%N c5_endData = (api_success s2, d2)
    /\ StudySession.end_time s1 = Some (Date_now_toISOString c5_first_request)
    /\ StudySession.end_time s2 = Some (Date_now_toISOString c5_second_request)
    /\ StudySession.duration_minutes s2
       = Some (round_half_away
                 (Date_now_toISOString c5_second_request - t_2025_01_01_10h)
                 usec_per_min)
    /\ In s2 (study_sessions d2)
    /\ (forall s, In s (study_sessions d2) -> StudySession.id s = 10%N -> s = s2)
    /\ (StudySession.end_time s2 = StudySession.end_time s1
        <-> js_now c5_second_request = js_now c5_first_request)
    /\ StudySession.mood_rating s1 = Some 4
    /\ StudySession.mood_rating s2 = Some 4
    /\ StudySession.session_notes s2 = None.
Proof.
  destruct (@C5_second_end_overwrites_end_time c5_first_request c5_second_request
              c4_database c5_active_session c5_endData)
    as [s1 [d1 [s2 [d2 [H1 [H2 [H3 [H4 [H5 [H6 [H7 [H8 [H9 [H10 _]]]]]]]]]]]]]].
  - repeat constructor. intros [].
  - now left.
  - vm_compute. reflexivity.
  - vm_compute. reflexivity.
  - exists s1, d1, s2, d2.
    split; [exact H1|]. split; [exact H2|]. split; [exact H3|]. split; [exact H4|].
    split; [exact H5|]. split; [exact H6|]. split; [exact H7|]. split; [exact H8|].
    rewrite H9, H10. repeat split.
Defined.

(* ================================================================== *)
(** * 19. Statistics of an owner                                       *)
(* ================================================================== *)

Lemma filter_map_swap {A B} (p : B -> bool) (f : A -> B) (l : list A) :
  filter p (map f l) = map f (filter (fun x => p (f x)) l).
Proof.
  induction l as [|x l IH]; simpl; [reflexivity|].
  destruct (p (f x)); simpl; now rewrite IH.
Qed.

Lemma filter_eqb_absent (u : uuid) (l : list uuid) :
  ~ In u l -> filter (fun x => N.eqb x u) l = [].
Proof.
  intros H. apply filter_none. intros x Hx. apply N.eqb_neq.
  intros Heq. subst x. contradiction.
Qed.

Lemma filter_eqb_NoDup (u : uuid) (l : list uuid) :
  NoDup l -> In u l -> filter (fun x => N.eqb x u) l = [u].
Proof.
  induction 1 as [|x l Hnotin Hnd IH]; [contradiction|].
  intros [->|Hin]; simpl.
  - rewrite N.eqb_refl. f_equal. now apply filter_eqb_absent.
  - destruct (N.eqb_spec x u) as [->|_]; [contradiction|]. now apply IH.
Qed.

(** The rows of the view that [.eq('user_id', owner)] keeps: one if the
    owner has an ended session, none otherwise. *)
Lemma user_study_stats_of_owner e d owner :
  filter (fun r => N.eqb (UserStudyStats.user_id r) owner) (user_study_stats e d)
  = match ended_sessions_of d owner with
    | [] => []
    | g => [user_study_stats_group e owner g]
    end.
Proof.
  unfold user_study_stats, ended_sessions_of.
  set (ended := filter (fun s => is_some (StudySession.end_time s)) (study_sessions d)).
  rewrite filter_map_swap. cbn [UserStudyStats.user_id user_study_stats_group].
  destruct (filter (fun s => N.eqb (StudySession.user_id s) owner) ended)
    as [|s g] eqn:Hg.
  - rewrite filter_eqb_absent; [reflexivity|].
    intros Hin. apply nodup_In in Hin. apply in_map_iff in Hin as [s [Hs Hin]].
    assert (Hf : In s (filter (fun s => N.eqb (StudySession.user_id s) owner) ended)).
    { apply filter_In. split; [assumption|]. now apply N.eqb_eq. }
    rewrite Hg in Hf. contradiction.
  - rewrite filter_eqb_NoDup.
    + simpl. now rewrite Hg.
    + apply NoDup_nodup.
    + apply nodup_In. apply in_map_iff. exists s.
      assert (Hf : In s (filter (fun s => N.eqb (StudySession.user_id s) owner) ended))
        by (rewrite Hg; now left).
      apply filter_In in Hf as [Hin Hu]. apply N.eqb_eq in Hu. auto.
Qed.

Lemma AVG_all_null {A} (f : A -> option Z) (g : list A) :
  (forall s, In s g -> f s = None) -> AVG (map f g) = None.
Proof.
  intros H. unfold AVG.
  assert (Hn : non_null (map f g) = []).
  { induction g as [|s g IH]; simpl; [reflexivity|].
    rewrite (H s (or_introl eq_refl)). apply IH. intros; apply H; now right. }
  now rewrite Hn.
Qed.

(** C6, as amended.  For an owner without any ended session the view has no
    row and [getUserStats] fails ([success = false], no data, the error
    PGRST116 of [.single()]): it does not succeed with absent averages.  For
    an owner with an ended session it succeeds with the aggregates of the
    ended sessions, and an average over ratings that are all absent is
    absent, neither zero nor an error. *)
Theorem C6_stats_without_ended_session_fail (e : env) (d : database) (owner : uuid) :
  (ended_sessions_of d owner = [] ->
   getUserStats e d owner = api_failure no_single_row
   /\ is_failure (getUserStats e d owner))
  /\ (ended_sessions_of d owner <> [] ->
      exists st,
        getUserStats e d owner = api_success st
        /\ st = user_study_stats_group e owner (ended_sessions_of d owner)
        /\ UserStudyStats.total_sessions st = COUNT (ended_sessions_of d owner)
        /\ ((forall s, In s (ended_sessions_of d owner) ->
                       StudySession.mood_rating s = None) ->
            UserStudyStats.avg_mood_rating st = None)
        /\ ((forall s, In s (ended_sessions_of d owner) ->
                       StudySession.productivity_rating s = None) ->
            UserStudyStats.avg_productivity_rating st = None)).
Proof.
  unfold getUserStats. rewrite user_study_stats_of_owner.
  split; intros H.
  - rewrite H. simpl. repeat split; try reflexivity. discriminate.
  - destruct (ended_sessions_of d owner) as [|s g] eqn:Hg; [contradiction|].
    eexists. split; [reflexivity|]. split; [reflexivity|]. split; [reflexivity|].
    split; intros Hnull; cbn [user_study_stats_group UserStudyStats.avg_mood_rating
                               UserStudyStats.avg_productivity_rating];
      now apply AVG_all_null.
Qed.

(** C6 as stated does not hold: owner A, whose only session is still
    active, gets a failure from [getUserStats], not a success. *)
Lemma C6_counterexample :
  ended_sessions_of c4_database owner_A = []
  /\ getUserStats c4_request c4_database owner_A = api_failure no_single_row
  /\ success (getUserStats c4_request c4_database owner_A) = false
  /\ data (getUserStats c4_request c4_database owner_A) = None.
Proof. vm_compute. repeat split. Qed.

(** Two instances: an owner whose only session is active, and an owner with
    one ended session that carries no rating. *)
Lemma C6_stats_witness :
  (getUserStats c4_request c4_database owner_A = api_failure no_single_row
   /\ is_failure (getUserStats c4_request c4_database owner_A))
  /\ exists st,
       getUserStats c6_request c6_one_ended owner_A = api_success st
       /\ st = user_study_stats_group c6_request owner_A
                 (ended_sessions_of c6_one_ended owner_A)
       /\ UserStudyStats.total_sessions st = COUNT (ended_sessions_of c6_one_ended owner_A)
       /\ ((forall s, In s (ended_sessions_of c6_one_ended owner_A) ->
                      StudySession.mood_rating s = None) ->
           UserStudyStats.avg_mood_rating st = None)
       /\ ((forall s, In s (ended_sessions_of c6_one_ended owner_A) ->
                      StudySession.productivity_rating s = None) ->
           UserStudyStats.avg_productivity_rating st = None).
Proof.
  split.
  - apply (proj1 (C6_stats_without_ended_session_fail c4_request c4_database owner_A)).
    reflexivity.
  - apply (proj2 (C6_stats_without_ended_session_fail c6_request c6_one_ended owner_A)).
    discriminate.
Defined.

(* ================================================================== *)
(** * 20. Completion rate of the tasks                                 *)
(* ================================================================== *)

Lemma ROUND_percent (c t : Z) :
  0 < t ->
  ROUND ((inject_Z c / inject_Z t) * 100)%Q 2
  = {| digits := rate_hundredths c t; dscale := 2 |}.
Proof.
  intros Ht. destruct t as [|p|p]; try lia.
  unfold ROUND, rate_hundredths, Qdiv, Qmult, Qinv, inject_Z.
  cbn [Qnum Qden]. f_equal.
  replace (Z.pos (1 * p * 1)) with (Z.pos p) by lia.
  f_equal. change (10 ^ Z.of_nat 2) with 100. lia.
Qed.

(** The digits PostgreSQL drops from the quotient [completed / total] do not
    matter: with any result scale of sixteen or more decimals, and a total
    that fits an [INTEGER], the rounded percentage is the same. *)
Lemma completion_rate_scale_irrelevant (c t : Z) (s : nat) :
  (16 <= s)%nat -> 0 < t <= int4_max ->
  round_half_away (numeric_div_digits s c t * 100 * 10 ^ 2) (10 ^ Z.of_nat s)
  = rate_hundredths c t.
Proof.
  intros Hs Ht. unfold rate_hundredths.
  replace (numeric_div_digits s c t * 100 * 10 ^ 2)
    with (numeric_div_digits s c t * 10 ^ Z.of_nat 4) by (change (10 ^ Z.of_nat 4) with 10000; lia).
  change 10000 with (10 ^ Z.of_nat 4).
  apply numeric_div_scale_irrelevant; [lia|lia|].
  apply Z.le_lt_trans with int4_max; [lia|].
  apply Z.lt_le_trans with (10 ^ 12); [reflexivity|].
  apply Z.pow_le_mono_r; lia.
Qed.

Lemma rate_hundredths_range (c t : Z) :
  0 <= c <= t -> 0 < t -> 0 <= rate_hundredths c t <= 10000.
Proof.
  intros Hc Ht. unfold rate_hundredths. rewrite round_half_away_nonneg by lia.
  split.
  - apply Z.div_pos; lia.
  - apply Z.lt_succ_r. apply Z.div_lt_upper_bound; lia.
Qed.

Lemma completed_le_total d owner :
  0 <= completed_tasks_of d owner <= total_tasks_of d owner.
Proof.
  unfold completed_tasks_of, total_tasks_of, COUNT. split; [lia|].
  apply Nat2Z.inj_le. apply filter_length_le.
  intros t Ht. now apply andb_prop in Ht as [Ht _].
Qed.

(** C7.  For an owner whose tasks can be counted in an [INTEGER],
    [getTaskCompletionRate] succeeds with [completed / total * 100] rounded
    to two decimals (half a hundredth goes up), a number between 0 and 100;
    without any task it is 0, and with three tasks of which one is completed
    it is 33.33. *)
Theorem C7_completion_rate_is_rounded_percentage (e : env) (d : database) (owner : uuid) :
  let total := total_tasks_of d owner in
  let completed := completed_tasks_of d owner in
  let h := rate_hundredths completed total in
  total <= int4_max ->
  exists r,
    getTaskCompletionRate e d owner = api_success r
    /\ (numeric_value r == h # 100)%Q
    /\ (0 < total -> 2 * Z.abs (total * h - completed * 10000) <= total)
    /\ 0 <= h <= 10000
    /\ (0 <= numeric_value r <= 100)%Q
    /\ (total = 0 -> r = {| digits := 0; dscale := 0 |})
    /\ (total = 3 -> completed = 1 -> r = {| digits := 3333; dscale := 2 |}).
Proof.
  intros total completed h Hmax.
  pose proof (completed_le_total d owner) as Hc. fold total completed in Hc.
  assert (Htot : 0 <= total) by (unfold total, total_tasks_of, COUNT; lia).
  assert (Hin : forall z, 0 <= z <= total -> in_int4 z = true).
  { intros z Hz. unfold in_int4, int4_min. unfold int4_max in Hmax.
    apply andb_true_intro. split; apply Z.leb_le; unfold int4_max; lia. }
  unfold getTaskCompletionRate, get_task_completion_rate.
  fold (total_tasks_of d owner) (completed_tasks_of d owner). fold total completed.
  rewrite (Hin total) by lia. cbn [guard bind ret].
  destruct (Z.eqb_spec total 0) as [H0|Hne].
  - (* no task *)
    assert (Hh : h = 0).
    { unfold h, rate_hundredths, round_half_away.
      replace completed with 0 by lia. reflexivity. }
    eexists. split; [reflexivity|]. rewrite Hh.
    repeat split; try reflexivity; try lia; try discriminate.
  - assert (Hpos : 0 < total) by lia.
    rewrite (Hin completed) by lia. cbn [guard bind ret respond_read].
    rewrite ROUND_percent by assumption. fold h.
    pose proof (rate_hundredths_range _ _ Hc Hpos) as Hr. fold h in Hr.
    eexists. split; [reflexivity|].
    assert (Hval : (numeric_value (js_or_zero {| digits := h; dscale := 2 |}) == h # 100)%Q).
    { unfold js_or_zero. cbn [digits]. destruct (Z.eqb_spec h 0) as [->|_]; reflexivity. }
    split; [exact Hval|].
    split; [intros _; unfold h, rate_hundredths; apply round_half_away_nearest; lia|].
    split; [exact Hr|].
    split.
    { rewrite Hval. unfold Qle. simpl. lia. }
    split; [lia|].
    intros H3 H1. unfold h. rewrite H3, H1. reflexivity.
Qed.

(** An instance: three tasks of the owner, one completed, beside a task of
    somebody else. *)
Lemma C7_completion_rate_witness :
  exists r,
    getTaskCompletionRate c4_request c7_database owner_A = api_success r
    /\ (numeric_value r == rate_hundredths 1 3 # 100)%Q
    /\ (0 < 3 -> 2 * Z.abs (3 * rate_hundredths 1 3 - 1 * 10000) <= 3)
    /\ 0 <= rate_hundredths 1 3 <= 10000
    /\ (0 <= numeric_value r <= 100)%Q
    /\ (3 = 0 -> r = {| digits := 0; dscale := 0 |})
    /\ (3 = 3 -> 1 = 1 -> r = {| digits := 3333; dscale := 2 |}).
Proof.
  apply (@C7_completion_rate_is_rounded_percentage c4_request c7_database owner_A).
  vm_compute. discriminate.
Defined.

(* ================================================================== *)
(** * 21. Completion of a task                                         *)
(* ================================================================== *)

(** What the trigger does on the three transitions. *)
Lemma set_task_completed_at_transitions e (OLD NEW : Task.t) :
  (Task.is_completed OLD = Some false -> Task.is_completed NEW = Some true ->
   Task.completed_at (set_task_completed_at e OLD NEW) = Some (pg_now e))
  /\ (Task.is_completed NEW = Some false ->
      Task.completed_at (set_task_completed_at e OLD NEW) = None)
  /\ (Task.is_completed OLD = Some true -> Task.is_completed NEW = Some true ->
      Task.completed_at (set_task_completed_at e OLD NEW) = Task.completed_at NEW)
  /\ Task.is_completed (set_task_completed_at e OLD NEW) = Task.is_completed NEW.
Proof.
  unfold set_task_completed_at.
  split; [|split; [|split]].
  - intros Ho Hn. rewrite Ho, Hn. reflexivity.
  - intros Hn. rewrite Hn. destruct (Task.is_completed OLD) as [[|]|]; reflexivity.
  - intros Ho Hn. rewrite Ho, Hn. reflexivity.
  - destruct (Task.is_completed NEW) as [[|]|] eqn:Hn,
             (Task.is_completed OLD) as [[|]|]; simpl; now rewrite ?Hn.
Qed.

Lemma task_before_update_consistent e (OLD NEW : Task.t) :
  completion_consistent OLD ->
  Task.is_completed NEW <> None ->
  Task.completed_at NEW = Task.completed_at OLD ->
  completion_consistent (task_before_update e OLD NEW).
Proof.
  unfold completion_consistent, task_before_update, set_task_completed_at.
  intros Hold Hsome Hkeep.
  destruct (Task.is_completed OLD) as [[|]|] eqn:Ho; [| |contradiction];
    destruct (Task.is_completed NEW) as [[|]|] eqn:Hn; try contradiction;
    simpl; rewrite ?Hn; simpl; congruence.
Qed.

Lemma task_update_row_consistent e d u OLD NEW :
  task_update_row e d u OLD = inr NEW ->
  completion_consistent OLD -> completion_consistent NEW.
Proof.
  unfold task_update_row. intros H Hold. inv_bind H. subst NEW.
  apply task_before_update_consistent; [assumption| |reflexivity].
  simpl. unfold completion_consistent in Hold.
  destruct (TaskUpdate.is_completed u); [discriminate|].
  destruct (Task.is_completed OLD); [discriminate|contradiction].
Qed.

Lemma update_tasks_consistent e d tid u :
  (forall t, In t (tasks d) -> completion_consistent t) ->
  match update_tasks e d tid u with
  | inl _ => True
  | inr (out, d') =>
      (forall t, In t (tasks d') -> completion_consistent t)
      /\ study_sessions d' = study_sessions d
  end.
Proof.
  intros Hall. unfold update_tasks.
  destruct (update_rows _ _ (tasks d)) as [err|[tbl out]] eqn:Hu; simpl; [exact I|].
  split; [|reflexivity]. intros t Hin.
  destruct (update_rows_table _ _ _ _ _ Hu t Hin) as [[Ht _]|[r [Hr [_ Hf]]]].
  - now apply Hall.
  - apply (task_update_row_consistent _ _ _ _ _ Hf). now apply Hall.
Qed.

Lemma updateTask_consistent e d tid u :
  (forall t, In t (tasks d) -> completion_consistent t) ->
  forall t, In t (tasks (snd (updateTask e d tid u))) -> completion_consistent t.
Proof.
  intros Hall. unfold updateTask.
  pose proof (@update_tasks_consistent e d tid u Hall) as H.
  destruct (update_tasks e d tid u) as [err|[out d']]; simpl; [exact Hall|].
  destruct (single out); simpl; [exact Hall|apply H].
Qed.

Lemma reorderTasks_consistent e (l : list (uuid * Z)) d :
  (forall t, In t (tasks d) -> completion_consistent t) ->
  forall t, In t (tasks (snd (reorderTasks e d l))) -> completion_consistent t.
Proof.
  unfold reorderTasks. cbn [snd]. revert d.
  induction l as [|[id order_index] l IH]; intros d Hall; simpl; [exact Hall|].
  apply IH.
  pose proof (@update_tasks_consistent e d id
                (TaskUpdate.mk None None None None None (Some order_index) None) Hall) as H.
  destruct (update_tasks e d id _) as [err|[out d']]; [exact Hall|apply H].
Qed.

Lemma session_calls_keep_tasks e d :
  (forall x, tasks (snd (createSession e d x)) = tasks d)
  /\ (forall sid u, tasks (snd (updateSession e d sid u)) = tasks d)
  /\ (forall sid x, tasks (snd (addSessionTags e d sid x)) = tasks d).
Proof.
  repeat split.
  - intros x. unfold createSession.
    destruct (insert_study_session e d x) as [err|[s d']] eqn:Hi; simpl; [reflexivity|].
    apply insert_study_session_inr in Hi. tauto.
  - intros sid u. unfold updateSession, update_study_sessions.
    destruct (update_rows _ _ (study_sessions d)) as [err|[tbl out]]; simpl;
      [reflexivity|].
    destruct (single out); reflexivity.
  - intros sid x. unfold addSessionTags, insert_study_session_tags.
    destruct (tags_of_body _) as [err|[]]; [reflexivity|]. cbn [bind].
    destruct (insert_tag_rows _ _ _ _) as [err|[[tbl ins] next]]; reflexivity.
Qed.

Lemma run_service_call_consistent e d c :
  (forall t, In t (tasks d) -> completion_consistent t) ->
  forall t, In t (tasks (run_service_call e d c)) -> completion_consistent t.
Proof.
  intros Hall. destruct (session_calls_keep_tasks e d) as [Hc [Hu Ha]].
  destruct c; cbn [run_service_call].
  - rewrite Hc. exact Hall.
  - rewrite Hu. exact Hall.
  - unfold endSession. rewrite Hu. exact Hall.
  - (* deleteSession: ON DELETE SET NULL fires the triggers of tasks *)
    cbn [deleteSession snd delete_study_sessions tasks]. intros t Hin.
    apply in_map_iff in Hin as [t0 [Ht Hin0]]. specialize (Hall t0 Hin0).
    destruct (Task.session_id t0); [|now subst].
    destruct (existsb _ _); [|now subst]. subst t.
    apply task_before_update_consistent; [assumption| |reflexivity].
    simpl. unfold completion_consistent in Hall.
    destruct (Task.is_completed t0); [discriminate|contradiction].
  - rewrite Ha. exact Hall.
  - exact Hall.
  - (* createTask: is_completed and completed_at take their defaults *)
    unfold createTask.
    destruct (insert_task e d taskData None None) as [err|[row d']] eqn:Hi; simpl;
      [exact Hall|].
    unfold insert_task in Hi. inv_bind Hi. injection Hi as Hrow Hd. subst d'.
    simpl. intros t Hin. apply in_app_or in Hin as [Hin|[<-|[]]]; [now apply Hall|].
    subst row. reflexivity.
  - now apply updateTask_consistent.
  - cbn [deleteTask snd delete_tasks with_tasks tasks]. intros t Hin.
    apply filter_In in Hin as [Hin _]. now apply Hall.
  - unfold toggleTaskCompletion.
    destruct (single _); [exact Hall|]. now apply updateTask_consistent.
  - now apply reorderTasks_consistent.
Qed.

(** C9, as amended.  A task is created through [TaskInsert], which carries
    no [is_completed]: it starts not completed and without [completed_at].
    An update that takes [is_completed] from false to true sets
    [completed_at] to the time of the update, an update that leaves it false
    clears [completed_at], an update that leaves it true keeps
    [completed_at].  Consequently, after any history of calls to the
    services, every task has [is_completed = true] with [completed_at]
    present or [is_completed = false] with [completed_at] absent. *)
Theorem C9_completed_at_tracks_is_completed
    (d : database) (calls : list (env * service_call)) :
  (forall t, In t (tasks d) -> completion_consistent t) ->
  (forall t, In t (tasks (run_service_calls d calls)) ->
     (Task.is_completed t = Some true /\ Task.completed_at t <> None)
     \/ (Task.is_completed t = Some false /\ Task.completed_at t = None))
  /\ (forall e OLD NEW,
        (Task.is_completed OLD = Some false -> Task.is_completed NEW = Some true ->
         Task.completed_at (set_task_completed_at e OLD NEW) = Some (pg_now e))
        /\ (Task.is_completed NEW = Some false ->
            Task.completed_at (set_task_completed_at e OLD NEW) = None)
        /\ (Task.is_completed OLD = Some true -> Task.is_completed NEW = Some true ->
            Task.completed_at (set_task_completed_at e OLD NEW)
            = Task.completed_at NEW))
  /\ (forall e d0 taskData row d1,
        createTask e d0 taskData = (api_success row, d1) ->
        Task.is_completed row = Some false /\ Task.completed_at row = None).
Proof.
  intros Hall. split; [|split].
  - assert (H : forall t, In t (tasks (run_service_calls d calls)) ->
                          completion_consistent t).
    { unfold run_service_calls. revert d Hall.
      induction calls as [|[e c] calls IH]; intros d Hall; simpl; [exact Hall|].
      apply IH. now apply run_service_call_consistent. }
    intros t Hin. specialize (H t Hin). unfold completion_consistent in H.
    destruct (Task.is_completed t) as [[|]|]; [left|right|contradiction]; auto.
  - intros e OLD NEW.
    destruct (set_task_completed_at_transitions e OLD NEW) as [H1 [H2 [H3 _]]]. auto.
  - intros e d0 taskData row d1 H. unfold createTask in H.
    apply respond_success in H. inv_bind H. injection H as Hrow Hd.
    apply single_inr in Hm0. injection Hm0 as Hm0. destruct a as [row0 d0'].
    simpl in *. subst. unfold insert_task in Hm. inv_bind Hm.
    injection Hm as Hrow _. subst row. split; reflexivity.
Qed.

(** C9 as stated does not hold: the trigger is [BEFORE UPDATE] only, and a
    row inserted into [tasks] with [is_completed] already true is stored
    with no [completed_at]. *)
Lemma C9_counterexample :
  insert_task c4_request c4_database c9_insert (Some (Some true)) None
  = inr (c9_row_inserted_completed,
         with_next_uuid (with_tasks c4_database [c9_row_inserted_completed]) 101%N)
  /\ Task.is_completed c9_row_inserted_completed = Some true
  /\ Task.completed_at c9_row_inserted_completed = None.
Proof. vm_compute. repeat split. Qed.

(** An instance: a task is created, toggled, renamed, a second one is
    created and moved. *)
Lemma C9_completed_at_witness :
  Forall (fun t =>
            (Task.is_completed t = Some true /\ Task.completed_at t <> None)
            \/ (Task.is_completed t = Some false /\ Task.completed_at t = None))
         (tasks (run_service_calls c4_database c9_history)).
Proof.
  assert (H0 : forall t, In t (tasks c4_database) -> completion_consistent t)
    by (intros t []).
  apply Forall_forall.
  exact (proj1 (C9_completed_at_tracks_is_completed c4_database c9_history H0)).
Defined.

(* ================================================================== *)
(** * 22. Pages of [getUserSessions]                                   *)
(* ================================================================== *)

(** C10.  With a positive [offset] and no [limit], [getUserSessions] answers
    with the ten sessions that follow the first [offset] ones of the whole
    list, hence with at most ten; with an [offset] of 0 it answers as if no
    [offset] had been given. *)
Theorem C10_offset_without_limit_gives_ten
    (e : env) (d : database) (userId : uuid) (o : SessionListOptions.t) :
  (forall off,
      SessionListOptions.offset o = Some off -> 0 < off ->
      SessionListOptions.limit o = None ->
      exists rows all,
        getUserSessions e d userId (Some o) = api_success rows
        /\ getUserSessions e d userId (Some (without_offset o)) = api_success all
        /\ rows = firstn 10 (skipn (Z.to_nat off) all)
        /\ (List.length rows <= 10)%nat)
  /\ (SessionListOptions.offset o = Some 0 ->
      getUserSessions e d userId (Some o)
      = getUserSessions e d userId (Some (without_offset o))).
Proof.
  split.
  - intros off Hoff Hpos Hlim.
    unfold getUserSessions, without_offset. cbv zeta.
    cbn [SessionListOptions.limit SessionListOptions.offset SessionListOptions.orderBy
         SessionListOptions.orderDirection SessionListOptions.dateRange].
    rewrite Hoff, Hlim. cbn [truthy or_keep].
    assert (Hnz : (off =? 0) = false) by (apply Z.eqb_neq; lia).
    rewrite Hnz. cbn [negb].
    eexists. eexists. split; [reflexivity|]. split; [reflexivity|].
    match goal with
    | |- context [q_range off _ ?q] =>
        set (q0 := q);
        assert (Hq : q_limit q0 = None /\ q_offset q0 = None)
          by (unfold q0; destruct (SessionListOptions.dateRange o); split; reflexivity)
    end.
    destruct Hq as [Hql Hqo].
    unfold run_query, q_range, paginate.
    cbn [q_limit q_offset q_order q_filters]. rewrite Hql, Hqo.
    replace (off + 10 - 1 - off + 1) with 10 by lia.
    split; [reflexivity|].
    change (Z.to_nat 10) with 10%nat. apply firstn_le_length.
  - intros Hoff.
    unfold getUserSessions, without_offset. cbv zeta.
    cbn [SessionListOptions.limit SessionListOptions.offset SessionListOptions.orderBy
         SessionListOptions.orderDirection SessionListOptions.dateRange].
    rewrite Hoff. reflexivity.
Qed.

(** An instance: thirteen sessions, an [offset] of 2, no [limit]. *)
Lemma C10_offset_witness :
  exists rows all,
    getUserSessions c4_request c10_database owner_A (Some c10_options) = api_success rows
    /\ getUserSessions c4_request c10_database owner_A (Some (without_offset c10_options))
       = api_success all
    /\ rows = firstn 10 (skipn (Z.to_nat 2) all)
    /\ (List.length rows <= 10)%nat.
Proof.
  apply (proj1 (C10_offset_without_limit_gives_ten c4_request c10_database owner_A
                  c10_options) 2 eq_refl eq_refl eq_refl).
Defined.

(** The bound is reached: of thirteen sessions, an [offset] of 2 without
    [limit] returns ten and leaves the last one out. *)
Lemma getUserSessions_page_of_ten :
  option_map (map StudySession.id)
    (data (getUserSessions c4_request c10_database owner_A (Some c10_options)))
  = Some [2; 3; 4; 5; 6; 7; 8; 9; 10; 11]%N.
Proof. reflexivity. Qed.

(* ================================================================== *)
(** * 23. Ordered answers                                              *)
(* ================================================================== *)


Section SortRows.
Context {A : Type} (le : A -> A -> bool).

Lemma insert_sorted_perm (x : A) (l : list A) :
  Permutation (insert_sorted le x l) (x :: l).
Proof.
  induction l as [|y l IH]; simpl; [reflexivity|].
  destruct (le x y); [reflexivity|].
  rewrite IH. apply perm_swap.
Qed.

Lemma sort_rows_perm (l : list A) : Permutation (sort_rows le l) l.
Proof.
  unfold sort_rows. induction l as [|x l IH]; simpl; [reflexivity|].
  rewrite insert_sorted_perm. now constructor.
Qed.

Hypothesis le_total : forall a b, le a b = true \/ le b a = true.
Hypothesis le_trans : forall a b c, le a b = true -> le b c = true -> le a c = true.

Lemma insert_sorted_sorted (x : A) (l : list A) :
  StronglySorted (fun a b => le a b = true) l ->
  StronglySorted (fun a b => le a b = true) (insert_sorted le x l).
Proof.
  induction 1 as [|y l Hs IH Hall]; simpl.
  - constructor; constructor.
  - destruct (le x y) eqn:Hxy.
    + constructor; [now constructor|].
      constructor; [assumption|].
      eapply Forall_impl; [|exact Hall]. intros z Hz. eapply le_trans; eassumption.
    + constructor; [assumption|].
      assert (Hyx : le y x = true) by (destruct (le_total x y); congruence).
      eapply Permutation_Forall; [symmetry; apply insert_sorted_perm|].
      now constructor.
Qed.

Lemma sort_rows_sorted (l : list A) :
  StronglySorted (fun a b => le a b = true) (sort_rows le l).
Proof.
  unfold sort_rows. induction l as [|x l IH]; simpl; [constructor|].
  now apply insert_sorted_sorted.
Qed.

End SortRows.

Lemma fold_left_filters {A} (fs : list (A -> bool)) (l : list A) :
  fold_left (fun rows f => filter f rows) fs l
  = filter (fun x => forallb (fun f => f x) fs) l.
Proof.
  revert l. induction fs as [|f fs IH]; intros l; simpl.
  - symmetry. apply filter_all_true.
  - rewrite IH. clear IH. induction l as [|x l IHl]; simpl; [reflexivity|].
    destruct (f x); simpl; [|assumption].
    destruct (forallb (fun g => g x) fs); simpl; now rewrite IHl.
Qed.

Lemma filter_filter_and {A} (p q : A -> bool) (l : list A) :
  filter p (filter q l) = filter (fun x => q x && p x) l.
Proof.
  induction l as [|x l IH]; simpl; [reflexivity|].
  destruct (q x); simpl; [|assumption]. destruct (p x); simpl; now rewrite IH.
Qed.

Lemma filter_pointwise {A} (p q : A -> bool) (l : list A) :
  (forall x, p x = q x) -> filter p l = filter q l.
Proof.
  intros H. induction l as [|x l IH]; simpl; [reflexivity|]. now rewrite H, IH.
Qed.

Lemma sessions_order_total options a b :
  sessions_order options a b = true \/ sessions_order options b a = true.
Proof.
  unfold sessions_order. destruct (match options with Some _ => _ | None => desc end);
    rewrite !Z.leb_le; lia.
Qed.

Lemma sessions_order_trans options a b c :
  sessions_order options a b = true -> sessions_order options b c = true ->
  sessions_order options a c = true.
Proof.
  unfold sessions_order. destruct (match options with Some _ => _ | None => desc end);
    rewrite !Z.leb_le; lia.
Qed.

(** The answer of [getUserSessions] without pagination, spelled out. *)
Lemma getUserSessions_unpaginated e d userId options :
  (forall o, options = Some o ->
             truthy (SessionListOptions.limit o) = false
             /\ truthy (SessionListOptions.offset o) = false) ->
  getUserSessions e d userId options
  = api_success (sort_rows (sessions_order options)
                           (filter (sessions_wanted e userId options) (study_sessions d))).
Proof.
  intros Hpag. unfold getUserSessions. cbv zeta.
  assert (Hshape : forall (q : query) (dir : OrderDirection) (col : OrderBy),
            q_limit q = None -> q_offset q = None ->
            run_query e d (q_order_by col (match dir with asc => true | desc => false end) q)
            = sort_rows (fun a b => match dir with
                                    | asc => order_key col a <=? order_key col b
                                    | desc => order_key col b <=? order_key col a
                                    end)
                        (filter (fun s => session_policy e s
                                          && forallb (fun f => f s) (q_filters q))
                                (study_sessions d))).
  { intros q dir col Hl Ho. unfold run_query, q_order_by, paginate, apply_order.
    cbn [q_limit q_offset q_order q_filters]. rewrite Hl, Ho.
    rewrite fold_left_filters. unfold select_study_sessions.
    rewrite filter_filter_and. now destruct dir. }
  destruct options as [o|].
  - destruct (Hpag o eq_refl) as [Hl Ho]. rewrite Hl, Ho.
    unfold sessions_order, sessions_wanted.
    destruct (SessionListOptions.dateRange o) as [r|];
      (rewrite Hshape by reflexivity); f_equal; f_equal;
      apply filter_pointwise; intros s; cbn [q_filters q_lte_start_time q_gte_start_time
        q_eq_user_id q_filter from_study_sessions app forallb];
      rewrite ?andb_true_r, ?andb_assoc; reflexivity.
  - cbn [truthy]. rewrite Hshape by reflexivity.
    unfold sessions_order, sessions_wanted. f_equal. f_equal.
    apply filter_pointwise; intros s. cbn. now rewrite !andb_true_r.
Qed.

(** X1.  Without [limit] and [offset], [getUserSessions] answers with
    exactly the sessions of [userId] that the caller may see and that began
    within the date range (bounds included), each as often as it is stored,
    in the order asked for (latest [start_time] first by default).  Asked by
    anybody but [userId], it answers with an empty list, not with a failure. *)
Theorem getUserSessions_content (e : env) (d : database) (userId : uuid)
    (options : option SessionListOptions.t) :
  (forall o, options = Some o ->
             truthy (SessionListOptions.limit o) = false
             /\ truthy (SessionListOptions.offset o) = false) ->
  exists rows,
    getUserSessions e d userId options = api_success rows
    /\ Permutation rows (filter (sessions_wanted e userId options) (study_sessions d))
    /\ StronglySorted (fun a b => sessions_order options a b = true) rows
    /\ (forall s, In s rows <->
                  In s (study_sessions d) /\ sessions_wanted e userId options s = true)
    /\ (auth_uid e <> Some userId -> rows = []).
Proof.
  intros Hpag. rewrite (getUserSessions_unpaginated e d userId options Hpag).
  eexists. split; [reflexivity|].
  pose proof (sort_rows_perm (sessions_order options)
                (filter (sessions_wanted e userId options) (study_sessions d))) as Hperm.
  split; [exact Hperm|].
  split.
  { apply sort_rows_sorted.
    - apply sessions_order_total.
    - apply sessions_order_trans. }
  split.
  - intros s. rewrite <- filter_In. split; intros H.
    + eapply Permutation_in; [exact Hperm|exact H].
    + eapply Permutation_in; [symmetry; exact Hperm|exact H].
  - intros Hother.
    rewrite (filter_none (sessions_wanted e userId options) (study_sessions d)); [reflexivity|].
    intros s _. unfold sessions_wanted, session_policy, auth_uid_is.
    destruct (auth_uid e) as [u|]; [|reflexivity].
    destruct (N.eqb_spec u (StudySession.user_id s)) as [Hu|]; [|reflexivity].
    destruct (N.eqb_spec (StudySession.user_id s) userId) as [Hs|]; [|reflexivity].
    exfalso. apply Hother. congruence.
Qed.

(** X2.  [limit] and [offset] cut a window out of the whole list: [limit]
    rows after the first [offset] ones.  A [limit] of 0 is not a limit: the
    whole list is returned (or a page of ten, after an [offset]); an
    [offset] of 0 is no offset. *)
Theorem getUserSessions_window (e : env) (d : database) (userId : uuid)
    (o : SessionListOptions.t) :
  (forall n, SessionListOptions.limit o = Some n -> 0 <= n) ->
  (forall n, SessionListOptions.offset o = Some n -> 0 <= n) ->
  exists all,
    getUserSessions e d userId (Some (without_pagination o)) = api_success all
    /\ getUserSessions e d userId (Some o)
       = api_success (sessions_window (SessionListOptions.limit o)
                                      (SessionListOptions.offset o) all).
Proof.
  intros _ _.
  unfold getUserSessions, without_pagination. cbv zeta.
  cbn [SessionListOptions.limit SessionListOptions.offset SessionListOptions.orderBy
       SessionListOptions.orderDirection SessionListOptions.dateRange truthy].
  match goal with
  | |- context [run_query e d ?q] =>
      set (q0 := q);
      assert (Hq : q_limit q0 = None /\ q_offset q0 = None)
        by (unfold q0; destruct (SessionListOptions.dateRange o); split; reflexivity)
  end.
  destruct Hq as [Hql Hqo].
  eexists. split; [reflexivity|]. f_equal.
  unfold sessions_window, run_query, paginate at 2. rewrite Hql, Hqo.
  set (all := apply_order (q_order q0) _).
  destruct (truthy (SessionListOptions.offset o)) eqn:Hoff,
           (truthy (SessionListOptions.limit o)) eqn:Hlim;
    unfold q_range, q_set_limit, paginate;
    cbn [q_limit q_offset q_order q_filters]; rewrite ?Hql, ?Hqo; fold all.
  - destruct (SessionListOptions.limit o) as [n|]; [|discriminate].
    destruct (SessionListOptions.offset o) as [m|]; [|discriminate].
    cbn [or_keep]. now replace (m + n - 1 - m + 1) with n by lia.
  - destruct (SessionListOptions.offset o) as [m|]; [|discriminate].
    cbn [or_keep]. now replace (m + 10 - 1 - m + 1) with 10 by lia.
  - destruct (SessionListOptions.limit o) as [n|]; [|discriminate]. reflexivity.
  - reflexivity.
Qed.

Lemma active_query_rows e d userId :
  run_query e d
    (q_set_limit 1
       (q_order_by by_start_time false
          (q_is_end_time_null (q_eq_user_id userId from_study_sessions))))
  = firstn 1
      (sort_rows (fun a b => StudySession.start_time b <=? StudySession.start_time a)
                 (filter (active_session_of e userId) (study_sessions d))).
Proof.
  unfold run_query, q_set_limit, q_order_by, paginate, apply_order.
  cbn [q_limit q_offset q_order q_filters order_key
       q_is_end_time_null q_eq_user_id q_filter from_study_sessions].
  rewrite fold_left_filters. unfold select_study_sessions. rewrite filter_filter_and.
  change (Z.to_nat 1) with 1%nat. f_equal. f_equal.
  apply filter_pointwise. intros s. unfold active_session_of.
  cbn. now rewrite andb_true_r, andb_assoc.
Qed.

(** X3.  [getActiveSession] never fails: it answers [null] when [userId]
    has no session without [end_time] that the caller may see, and otherwise
    one such session, none of the others having begun later. *)
Theorem getActiveSession_latest_active (e : env) (d : database) (userId : uuid) :
  match filter (active_session_of e userId) (study_sessions d) with
  | [] => getActiveSession e d userId = api_success None
  | _ :: _ =>
      exists s,
        getActiveSession e d userId = api_success (Some s)
        /\ In s (study_sessions d)
        /\ active_session_of e userId s = true
        /\ forall s', In s' (study_sessions d) -> active_session_of e userId s' = true ->
                      StudySession.start_time s' <= StudySession.start_time s
  end.
Proof.
  unfold getActiveSession. rewrite active_query_rows.
  set (le := fun a b : StudySession.t =>
               StudySession.start_time b <=? StudySession.start_time a).
  set (active := filter (active_session_of e userId) (study_sessions d)).
  pose proof (sort_rows_perm le active) as Hperm.
  assert (Hsorted : StronglySorted (fun a b => le a b = true) (sort_rows le active)).
  { apply sort_rows_sorted; unfold le; intros; rewrite ?Z.leb_le in *; lia. }
  destruct active as [|a0 active'] eqn:Hact.
  - reflexivity.
  - destruct (sort_rows le (a0 :: active')) as [|s rest] eqn:Hsort.
    + apply Permutation_nil in Hperm. discriminate.
    + exists s. split; [reflexivity|].
      assert (Hin : In s (filter (active_session_of e userId) (study_sessions d))).
      { fold active. rewrite Hact. eapply Permutation_in; [exact Hperm|now left]. }
      apply filter_In in Hin as [Hin Hs]. split; [assumption|]. split; [assumption|].
      intros s' Hin' Hs'.
      assert (Hin2 : In s' (s :: rest)).
      { eapply Permutation_in; [symmetry; exact Hperm|]. rewrite <- Hact.
        unfold active. apply filter_In. auto. }
      destruct Hin2 as [<-|Hin2]; [lia|].
      apply StronglySorted_inv in Hsorted as [_ Hall].
      rewrite Forall_forall in Hall. specialize (Hall s' Hin2).
      unfold le in Hall. now apply Z.leb_le in Hall.
Qed.

(** An instance of X1: the thirteen sessions of the fixture, no options. *)
Lemma getUserSessions_content_witness :
  exists rows,
    getUserSessions c4_request c10_database owner_A None = api_success rows
    /\ Permutation rows (filter (sessions_wanted c4_request owner_A None)
                                (study_sessions c10_database))
    /\ StronglySorted (fun a b => sessions_order None a b = true) rows
    /\ (forall s, In s rows <->
                  In s (study_sessions c10_database)
                  /\ sessions_wanted c4_request owner_A None s = true)
    /\ (auth_uid c4_request <> Some owner_A -> rows = []).
Proof.
  apply (getUserSessions_content c4_request c10_database owner_A None).
  intros o H. discriminate H.
Defined.

(** An instance of X2: a page of three after the first two. *)
Lemma getUserSessions_window_witness :
  exists all,
    getUserSessions c4_request c10_database owner_A (Some (without_pagination page_options))
    = api_success all
    /\ getUserSessions c4_request c10_database owner_A (Some page_options)
       = api_success (sessions_window (Some 3) (Some 2) all).
Proof.
  apply (getUserSessions_window c4_request c10_database owner_A page_options).
  - intros n H. injection H as <-. lia.
  - intros n H. injection H as <-. lia.
Defined.

(* ================================================================== *)
(** * 24. The streak, in general                                       *)
(* ================================================================== *)

Lemma streak_loop_spec e rows u (fuel : nat) streak day r :
  streak_loop fuel e rows u streak day = Some r ->
  0 <= streak ->
  streak + Z.of_nat (List.length (filter (on_or_before e day) rows)) <= int4_max ->
  exists n,
    r = ret (streak + n)
    /\ 0 <= n <= Z.of_nat (List.length (filter (on_or_before e day) rows))
    /\ (forall k, 0 <= k < n -> existsb (studied_on e u (day - k)) rows = true)
    /\ existsb (studied_on e u (day - n)) rows = false.
Proof.
  revert streak day r. induction fuel as [|fuel IH]; intros streak day r H Hs Hmax;
    [discriminate|].
  simpl in H. destruct (existsb (studied_on e u day) rows) eqn:Hex.
  - pose proof Hex as Hex'. apply existsb_exists in Hex' as [s [Hin Hst]].
    assert (Hday : DATE e (StudySession.start_time s) = day).
    { unfold studied_on in Hst. apply andb_prop in Hst as [Hst _].
      apply andb_prop in Hst as [_ Hst]. now apply Z.eqb_eq in Hst. }
    assert (Hlt : (List.length (filter (on_or_before e (day - 1)) rows)
                   < List.length (filter (on_or_before e day) rows))%nat).
    { apply filter_length_lt with (x := s); try assumption.
      - unfold on_or_before. intros y Hy. apply Z.leb_le in Hy. apply Z.leb_le. lia.
      - unfold on_or_before. apply Z.leb_le. lia.
      - unfold on_or_before. apply Z.leb_gt. lia. }
    assert (Hint : in_int4 (streak + 1) = true).
    { unfold in_int4, int4_min. unfold int4_max in Hmax.
      apply andb_true_intro. split; apply Z.leb_le; unfold int4_max; lia. }
    rewrite Hint in H.
    destruct (IH (streak + 1) (day - 1) r H ltac:(lia) ltac:(lia))
      as [n [Hr [Hn [Hrun Hstop]]]].
    exists (n + 1). split; [rewrite Hr; f_equal; lia|].
    split; [lia|]. split.
    + intros k Hk. destruct (Z.eq_dec k 0) as [->|Hk0].
      * now rewrite Z.sub_0_r.
      * replace (day - k) with (day - 1 - (k - 1)) by lia. apply Hrun. lia.
    + now replace (day - (n + 1)) with (day - 1 - n) by lia.
  - injection H as <-. exists 0. rewrite Z.add_0_r, Z.sub_0_r.
    split; [reflexivity|]. split; [lia|]. split; [intros; lia|assumption].
Qed.

(** [get_study_streak] on a table of fewer than 2^31 sessions. *)
Lemma get_study_streak_run e d owner :
  Z.of_nat (List.length (study_sessions d)) <= int4_max ->
  exists n,
    get_study_streak e d owner = Some (inr n)
    /\ 0 <= n <= Z.of_nat (List.length (study_sessions d))
    /\ (forall k, 0 <= k < n ->
                  existsb (studied_on e owner (CURRENT_DATE e - k)) (study_sessions d) = true)
    /\ existsb (studied_on e owner (CURRENT_DATE e - n)) (study_sessions d) = false.
Proof.
  intros Hmax.
  destruct (get_study_streak_terminates e d owner) as [r Hr].
  pose proof (@filter_length_le _ (on_or_before e (CURRENT_DATE e))
                (fun _ => true) (fun _ _ => eq_refl) (study_sessions d)) as Hle.
  rewrite filter_all_true in Hle.
  pose proof Hr as Hloop. unfold get_study_streak in Hloop.
  destruct (streak_loop_spec _ _ _ _ _ _ _ Hloop ltac:(lia) ltac:(lia))
    as [n [-> [Hn [Hrun Hstop]]]].
  exists n. split; [exact Hr|]. split; [lia|]. split; assumption.
Qed.

(** X4.  For a table of fewer than 2^31 sessions, [getStudyStreak] succeeds
    with the number [n] of days in the unbroken run that ends today: the
    owner has an ended session begun on each of the [n] days up to today,
    and none on the day before the run.  The streak is at most the number
    of stored sessions. *)
Theorem getStudyStreak_counts_the_run (e : env) (d : database) (owner : uuid) :
  Z.of_nat (List.length (study_sessions d)) <= int4_max ->
  exists n,
    getStudyStreak e d owner = Some (api_success n)
    /\ 0 <= n <= Z.of_nat (List.length (study_sessions d))
    /\ (forall k, 0 <= k < n -> has_ended_session_on e d owner (CURRENT_DATE e - k))
    /\ ~ has_ended_session_on e d owner (CURRENT_DATE e - n).
Proof.
  intros Hmax.
  destruct (get_study_streak_run e d owner Hmax) as [n [Hr [Hn [Hrun Hstop]]]].
  exists n. split.
  - unfold getStudyStreak. rewrite Hr. simpl.
    destruct (Z.eqb_spec n 0) as [->|_]; reflexivity.
  - split; [lia|]. split.
    + intros k Hk. apply studied_on_iff. now apply Hrun.
    + intros H. apply studied_on_iff in H. congruence.
Qed.

(** An instance of X4: sessions today, one, two and four days ago. *)
Lemma getStudyStreak_counts_the_run_witness :
  exists n,
    getStudyStreak c2_request c2_three_days owner_A = Some (api_success n)
    /\ 0 <= n <= Z.of_nat (List.length (study_sessions c2_three_days))
    /\ (forall k, 0 <= k < n ->
                  has_ended_session_on c2_request c2_three_days owner_A
                    (CURRENT_DATE c2_request - k))
    /\ ~ has_ended_session_on c2_request c2_three_days owner_A
           (CURRENT_DATE c2_request - n).
Proof.
  apply (getStudyStreak_counts_the_run c2_request c2_three_days owner_A).
  vm_compute. discriminate.
Defined.

(* ================================================================== *)
(** * 25. What a call leaves alone                                     *)
(* ================================================================== *)

Section UpdateRowsMore.
Context {A : Type} (sel : A -> bool) (f : A -> result A).

Lemma update_rows_keys {K} (key : A -> K) (rows tbl out : list A) :
  (forall r r', f r = inr r' -> key r' = key r) ->
  update_rows sel f rows = inr (tbl, out) ->
  map key tbl = map key rows.
Proof.
  intros Hkey. revert tbl out. induction rows as [|r rest IH]; intros tbl out H.
  - simpl in H. injection H as <- <-. reflexivity.
  - simpl in H. destruct (sel r).
    + inv_bind H. destruct a0 as [tbl' out']. simpl in H. injection H as <- <-.
      simpl. rewrite (Hkey _ _ Hm). f_equal. eapply IH. eassumption.
    + inv_bind H. destruct a as [tbl' out']. simpl in H. injection H as <- <-.
      simpl. f_equal. eapply IH. eassumption.
Qed.

Lemma update_rows_filter_unselected (p : A -> bool) (rows tbl out : list A) :
  (forall r, sel r = true -> p r = false) ->
  (forall r r', sel r = true -> f r = inr r' -> p r' = false) ->
  update_rows sel f rows = inr (tbl, out) ->
  filter p tbl = filter p rows.
Proof.
  intros Hsel Hnew. revert tbl out. induction rows as [|r rest IH]; intros tbl out H.
  - simpl in H. injection H as <- <-. reflexivity.
  - simpl in H. destruct (sel r) eqn:Hr.
    + inv_bind H. destruct a0 as [tbl' out']. simpl in H. injection H as <- <-.
      simpl. rewrite (Hsel _ Hr), (Hnew _ _ Hr Hm). eapply IH. eassumption.
    + inv_bind H. destruct a as [tbl' out']. simpl in H. injection H as <- <-.
      simpl. destruct (p r); [f_equal|]; eapply IH; eassumption.
Qed.

End UpdateRowsMore.

Lemma filter_app_singleton_false {A} (p : A -> bool) (l : list A) (x : A) :
  p x = false -> filter p (l ++ [x]) = filter p l.
Proof. intros H. rewrite filter_app. simpl. rewrite H. apply app_nil_r. Qed.

Lemma NoDup_snoc {A} (l : list A) (x : A) :
  NoDup l -> ~ In x l -> NoDup (l ++ [x]).
Proof.
  intros Hl Hx. eapply Permutation_NoDup; [apply Permutation_cons_append|].
  now constructor.
Qed.

Lemma substring_length_le (s : string) :
  forall n m, (String.length (substring n m s) <= m)%nat.
Proof.
  induction s as [|c s IH]; intros n m.
  - destruct n, m; simpl; lia.
  - destruct n as [|n]; destruct m as [|m]; simpl; try lia.
    + specialize (IH 0%nat m). lia.
    + apply (IH n 0%nat).
    + apply (IH n (S m)).
Qed.

(** Storing into [VARCHAR(n)] keeps at most [n] characters. *)
Lemma varchar_length (n : nat) (s v : string) :
  varchar n s = inr v -> (String.length v <= n)%nat.
Proof.
  unfold varchar. destruct (String.length s <=? n)%nat eqn:Hle.
  - intros H. apply ret_inr in H. subst v. now apply Nat.leb_le.
  - destruct (all_spaces _); [|discriminate].
    intros H. apply ret_inr in H. subst v. apply substring_length_le.
Qed.

(** What an INSERT into [study_session_tags] that succeeds has added. *)
Lemma insert_tag_rows_inr e d rows :
  forall table inserted next table' inserted' next',
    insert_tag_rows e d (table, inserted, next) rows = inr (table', inserted', next') ->
    exists added,
      table' = table ++ added
      /\ inserted' = inserted ++ added
      /\ (forall g, In g added ->
                    tag_policy_for e d (StudySessionTag.session_id g) = true
                    /\ In (StudySessionTag.session_id g) (session_ids d)
                    /\ (String.length (StudySessionTag.tag g) <= 50)%nat)
      /\ (NoDup (map tag_key table) -> NoDup (map tag_key table')).
Proof.
  induction rows as [|r rows IH]; intros table inserted next table' inserted' next' H.
  - simpl in H. injection H as <- <- <-. exists []. rewrite !app_nil_r.
    split; [reflexivity|]. split; [reflexivity|]. split; [intros g []|auto].
  - cbn [insert_tag_rows] in H. apply bind_inr in H as [[[t1 i1] n1] [Hrow H]].
    unfold insert_tag_row in Hrow. inv_bind Hrow.
    injection Hrow as <- <- <-.
    destruct (IH _ _ _ _ _ _ H) as [added [-> [-> [Hadded Hnd]]]].
    set (row := StudySessionTag.mk next (StudySessionTagInsert.session_id r) a
                                   (pg_now e)) in *.
    exists (row :: added). rewrite <- !app_assoc. split; [reflexivity|].
    split; [reflexivity|]. split.
    + intros g [<-|Hgin]; [|now apply Hadded]. cbn [row StudySessionTag.session_id
                                                    StudySessionTag.tag].
      split; [assumption|]. split.
      * apply existsb_exists in Hg0 as [s [Hin Hs]]. apply N.eqb_eq in Hs.
        unfold session_ids. rewrite <- Hs. now apply in_map.
      * apply tag_of_body_inr in Hm as [_ Hm]. eapply varchar_length. eassumption.
    + intros Hnodup. rewrite app_assoc. apply Hnd.
      rewrite map_app. simpl.
      apply NoDup_snoc; [assumption|].
      intros Hin. apply in_map_iff in Hin as [g [Hkey Hin]].
      apply negb_true_iff in Hg1.
      assert (Hex : tag_exists table (StudySessionTagInsert.session_id r) a = true);
        [|congruence].
      apply existsb_exists. exists g. split; [assumption|].
      unfold tag_key in Hkey. injection Hkey as Hs Ht.
      rewrite Hs, Ht, N.eqb_refl, String.eqb_refl. reflexivity.
Qed.

(** The statements a call of the services is made of: a property of the
    database that each of them keeps is kept by every call, and by every
    history of calls. *)
Section Invariant.
Variable P : database -> Prop.
Hypothesis P_insert_session : forall e d ins s d',
  P d -> insert_study_session e d ins = inr (s, d') -> P d'.
Hypothesis P_update_sessions : forall e d sid u out d',
  P d -> update_study_sessions e d sid u = inr (out, d') -> P d'.
Hypothesis P_delete_sessions : forall e d sid,
  P d -> P (delete_study_sessions e d sid).
Hypothesis P_insert_tags : forall e d rows out d',
  P d -> insert_study_session_tags e d rows = inr (out, d') -> P d'.
Hypothesis P_remove_tag : forall e d sid tag,
  P d -> P (snd (removeSessionTag e d sid tag)).
Hypothesis P_insert_task : forall e d ins row d',
  P d -> insert_task e d ins None None = inr (row, d') -> P d'.
Hypothesis P_update_tasks : forall e d tid u out d',
  P d -> update_tasks e d tid u = inr (out, d') -> P d'.
Hypothesis P_delete_tasks : forall e d tid,
  P d -> P (delete_tasks e d tid).

Lemma invariant_updateSession e d sid u : P d -> P (snd (updateSession e d sid u)).
Proof.
  intros H. unfold updateSession.
  destruct (update_study_sessions e d sid u) as [err|[out d']] eqn:Hu; simpl; [exact H|].
  destruct (single out); simpl; [exact H|]. eapply P_update_sessions; eassumption.
Qed.

Lemma invariant_updateTask e d tid u : P d -> P (snd (updateTask e d tid u)).
Proof.
  intros H. unfold updateTask.
  destruct (update_tasks e d tid u) as [err|[out d']] eqn:Hu; simpl; [exact H|].
  destruct (single out); simpl; [exact H|]. eapply P_update_tasks; eassumption.
Qed.

Lemma invariant_call e d c : P d -> P (run_service_call e d c).
Proof.
  intros H. destruct c; cbn [run_service_call].
  - unfold createSession.
    destruct (insert_study_session e d sessionData) as [err|[s d']] eqn:Hi; simpl;
      [exact H|]. eapply P_insert_session; eassumption.
  - now apply invariant_updateSession.
  - unfold endSession. now apply invariant_updateSession.
  - now apply P_delete_sessions.
  - unfold addSessionTags.
    destruct (insert_study_session_tags e d _) as [err|[out d']] eqn:Hi; simpl;
      [exact H|]. eapply P_insert_tags; eassumption.
  - now apply P_remove_tag.
  - unfold createTask.
    destruct (insert_task e d taskData None None) as [err|[row d']] eqn:Hi; simpl;
      [exact H|]. eapply P_insert_task; eassumption.
  - now apply invariant_updateTask.
  - now apply P_delete_tasks.
  - unfold toggleTaskCompletion. destruct (single _); [exact H|].
    now apply invariant_updateTask.
  - unfold reorderTasks. cbn [snd]. revert d H.
    induction taskUpdates as [|[id k] l IH]; intros d H; simpl; [exact H|].
    apply IH. destruct (update_tasks e d id _) as [err|[out d']] eqn:Hu; [exact H|].
    eapply P_update_tasks; eassumption.
Qed.

Lemma invariant_calls (calls : list (env * service_call)) (d : database) :
  P d -> P (run_service_calls d calls).
Proof.
  unfold run_service_calls. revert d.
  induction calls as [|[e c] calls IH]; intros d H; simpl; [exact H|].
  apply IH. now apply invariant_call.
Qed.

End Invariant.

(* ------------------------------------------------------------------ *)
(** ** Effects of the statements                                        *)
(* ------------------------------------------------------------------ *)

Lemma insert_study_session_effect e d ins s d' :
  insert_study_session e d ins = inr (s, d') ->
  study_sessions d' = study_sessions d ++ [s]
  /\ tasks d' = tasks d /\ study_session_tags d' = study_session_tags d
  /\ session_policy e s = true /\ study_session_checks s = true
  /\ duration_consistent s.
Proof.
  intros H. pose proof (insert_study_session_inr _ _ _ _ _ H) as [Hc [Hk [Hs [Ht Hg]]]].
  unfold insert_study_session in H. inv_bind H. injection H as Hs' _. subst s.
  tauto.
Qed.

Lemma update_study_sessions_effect e d sid u out d' :
  update_study_sessions e d sid u = inr (out, d') ->
  exists tbl,
    update_rows (fun s => session_policy e s && N.eqb (StudySession.id s) sid)
                (session_update_row e u) (study_sessions d) = inr (tbl, out)
    /\ study_sessions d' = tbl
    /\ tasks d' = tasks d /\ study_session_tags d' = study_session_tags d.
Proof.
  unfold update_study_sessions. intros H. inv_bind H. destruct a as [tbl out'].
  injection H as <- <-. exists tbl. simpl. auto.
Qed.

Lemma update_tasks_effect e d tid u out d' :
  update_tasks e d tid u = inr (out, d') ->
  exists tbl,
    update_rows (fun t => task_policy e t && N.eqb (Task.id t) tid)
                (task_update_row e d u) (tasks d) = inr (tbl, out)
    /\ tasks d' = tbl
    /\ study_sessions d' = study_sessions d
    /\ study_session_tags d' = study_session_tags d.
Proof.
  unfold update_tasks. intros H. inv_bind H. destruct a as [tbl out'].
  injection H as <- <-. exists tbl. simpl. auto.
Qed.

Lemma insert_study_session_tags_effect e d rows out d' :
  insert_study_session_tags e d rows = inr (out, d') ->
  study_session_tags d' = study_session_tags d ++ out
  /\ study_sessions d' = study_sessions d /\ tasks d' = tasks d
  /\ (forall g, In g out ->
                tag_policy_for e d (StudySessionTag.session_id g) = true
                /\ In (StudySessionTag.session_id g) (session_ids d)
                /\ (String.length (StudySessionTag.tag g) <= 50)%nat)
  /\ (NoDup (map tag_key (study_session_tags d)) ->
      NoDup (map tag_key (study_session_tags d'))).
Proof.
  unfold insert_study_session_tags. intros H. inv_bind H.
  destruct a0 as [[table inserted] next]. injection H as <- <-.
  destruct (insert_tag_rows_inr _ _ _ _ _ _ _ _ _ Hm0) as [added [-> [-> [Ha Hnd]]]].
  simpl. auto.
Qed.

Lemma insert_task_effect e d ins row d' :
  insert_task e d ins None None = inr (row, d') ->
  tasks d' = tasks d ++ [row]
  /\ study_sessions d' = study_sessions d
  /\ study_session_tags d' = study_session_tags d
  /\ task_policy e row = true
  /\ title_not_empty row = true
  /\ (String.length (Task.title row) <= 500)%nat
  /\ task_session_fk d row = true
  /\ Task.is_completed row = Some false /\ Task.completed_at row = None.
Proof.
  unfold insert_task. intros H. inv_bind H. injection H as <- <-.
  apply varchar_length in Hm. simpl. auto 10.
Qed.

Lemma task_update_row_effect e d u OLD NEW :
  task_update_row e d u OLD = inr NEW ->
  Task.id NEW = Task.id OLD /\ Task.user_id NEW = Task.user_id OLD
  /\ task_policy e NEW = true
  /\ title_not_empty NEW = true
  /\ (String.length (Task.title NEW) <= 500)%nat
  /\ task_session_fk d NEW = true.
Proof.
  unfold task_update_row. intros H. inv_bind H. subst NEW.
  apply varchar_length in Hm.
  assert (Hsame : forall X, Task.id (task_before_update e OLD X) = Task.id X
                            /\ Task.user_id (task_before_update e OLD X) = Task.user_id X
                            /\ Task.title (task_before_update e OLD X) = Task.title X).
  { intros X. unfold task_before_update, set_task_completed_at.
    destruct (sql_is_true _); [|destruct (sql_is_true _)]; simpl; auto. }
  destruct (Hsame (apply_task_update u OLD a)) as [H1 [H2 H3]].
  rewrite H1, H2, H3. simpl. auto 10.
Qed.

(* ================================================================== *)
(** * 26. What every history of calls keeps                            *)
(* ================================================================== *)

Lemma existsb_id_in (rows : list StudySession.t) (sid : uuid) :
  existsb (fun s => N.eqb (StudySession.id s) sid) rows = true <->
  In sid (map StudySession.id rows).
Proof.
  rewrite existsb_exists, in_map_iff. split; intros [s [H1 H2]]; exists s.
  - apply N.eqb_eq in H2. auto.
  - split; [assumption|]. now apply N.eqb_eq.
Qed.

Lemma update_study_sessions_ids e d sid u out d' :
  update_study_sessions e d sid u = inr (out, d') -> session_ids d' = session_ids d.
Proof.
  intros H. destruct (update_study_sessions_effect _ _ _ _ _ _ H) as [tbl [Hu [Hs _]]].
  unfold session_ids. rewrite Hs.
  apply (update_rows_keys _ _ StudySession.id _ _ _) in Hu; [assumption|].
  intros r r' Hr. now apply session_update_row_inr in Hr.
Qed.

(** The sessions [delete_study_sessions] removes are the ones whose tags and
    task references it clears. *)
Lemma delete_keeps_referenced e d sid (i : uuid) :
  In i (session_ids d) ->
  existsb (fun s => (session_policy e s && N.eqb (StudySession.id s) sid)
                    && N.eqb (StudySession.id s) i) (study_sessions d) = false ->
  In i (session_ids (delete_study_sessions e d sid)).
Proof.
  unfold session_ids. intros Hin Hgone. apply in_map_iff in Hin as [s [Hid Hs]].
  apply in_map_iff. exists s. split; [assumption|].
  simpl. apply filter_In. split; [assumption|].
  destruct (session_policy e s && N.eqb (StudySession.id s) sid) eqn:Hd; [|reflexivity].
  exfalso. assert (Ht : existsb (fun s => (session_policy e s && N.eqb (StudySession.id s) sid)
                    && N.eqb (StudySession.id s) i) (study_sessions d) = true).
  { apply existsb_exists. exists s. split; [assumption|].
    rewrite Hd. simpl. now apply N.eqb_eq. }
  congruence.
Qed.

Lemma task_before_update_session_id e OLD NEW :
  Task.session_id (task_before_update e OLD NEW) = Task.session_id NEW
  /\ Task.title (task_before_update e OLD NEW) = Task.title NEW
  /\ Task.id (task_before_update e OLD NEW) = Task.id NEW
  /\ Task.user_id (task_before_update e OLD NEW) = Task.user_id NEW.
Proof.
  unfold task_before_update, set_task_completed_at.
  destruct (sql_is_true _); [|destruct (sql_is_true _)]; simpl; auto.
Qed.

Lemma references_resolve_call_parts :
  (forall e d ins s d',
     references_resolve d -> insert_study_session e d ins = inr (s, d') ->
     references_resolve d')
  /\ (forall e d sid u out d',
     references_resolve d -> update_study_sessions e d sid u = inr (out, d') ->
     references_resolve d')
  /\ (forall e d sid, references_resolve d ->
                      references_resolve (delete_study_sessions e d sid))
  /\ (forall e d rows out d',
     references_resolve d -> insert_study_session_tags e d rows = inr (out, d') ->
     references_resolve d')
  /\ (forall e d sid tag, references_resolve d ->
                          references_resolve (snd (removeSessionTag e d sid tag)))
  /\ (forall e d ins row d',
     references_resolve d -> insert_task e d ins None None = inr (row, d') ->
     references_resolve d')
  /\ (forall e d tid u out d',
     references_resolve d -> update_tasks e d tid u = inr (out, d') ->
     references_resolve d')
  /\ (forall e d tid, references_resolve d -> references_resolve (delete_tasks e d tid)).
Proof.
  unfold references_resolve. repeat apply conj.
  - intros e d ins s d' [Hg Ht] H.
    destruct (insert_study_session_effect _ _ _ _ _ H) as [Hs [Hk [Htag _]]].
    unfold session_ids in *. rewrite Hs, Hk, Htag, map_app. split.
    + intros g Hin. apply in_or_app. left. now apply Hg.
    + intros t sid Hin Hsid. apply in_or_app. left. eapply Ht; eassumption.
  - intros e d sid u out d' [Hg Ht] H.
    rewrite (update_study_sessions_ids _ _ _ _ _ _ H).
    destruct (update_study_sessions_effect _ _ _ _ _ _ H) as [tbl [_ [_ [Hk Htag]]]].
    rewrite Hk, Htag. auto.
  - intros e d sid [Hg Ht]. split.
    + intros g Hin. simpl in Hin. apply filter_In in Hin as [Hin Hgone].
      apply negb_true_iff in Hgone. apply delete_keeps_referenced; auto.
    + intros t sid0 Hin Hsid. simpl in Hin. apply in_map_iff in Hin as [t0 [Heq Hin]].
      destruct (Task.session_id t0) as [i|] eqn:Hi.
      * destruct (existsb _ _) eqn:Hgone in Heq.
        -- subst t. destruct (task_before_update_session_id e t0 (set_task_session_id t0 None))
             as [Hsame _]. rewrite Hsame in Hsid. discriminate.
        -- subst t0. rewrite Hi in Hsid. injection Hsid as <-.
           apply delete_keeps_referenced; [eapply Ht; eassumption|assumption].
      * subst t0. congruence.
  - intros e d rows out d' [Hg Ht] H.
    destruct (insert_study_session_tags_effect _ _ _ _ _ H) as [Htag [Hs [Hk [Hnew _]]]].
    unfold session_ids in *. rewrite Htag, Hs, Hk. split; [|assumption].
    intros g Hin. apply in_app_or in Hin as [Hin|Hin]; [now apply Hg|].
    now apply Hnew.
  - intros e d sid tag [Hg Ht]. split; [|assumption].
    intros g Hin. simpl in Hin. apply filter_In in Hin as [Hin _]. now apply Hg.
  - intros e d ins row d' [Hg Ht] H.
    destruct (insert_task_effect _ _ _ _ _ H) as [Hk [Hs [Htag [_ [_ [_ [Hfk _]]]]]]].
    unfold session_ids in *. rewrite Hk, Hs, Htag. split; [assumption|].
    intros t sid Hin Hsid. apply in_app_or in Hin as [Hin|[<-|[]]].
    + eapply Ht; eassumption.
    + unfold task_session_fk in Hfk. rewrite Hsid in Hfk. now apply existsb_id_in.
  - intros e d tid u out d' [Hg Ht] H.
    destruct (update_tasks_effect _ _ _ _ _ _ H) as [tbl [Hu [Hk [Hs Htag]]]].
    unfold session_ids in *. rewrite Hk, Hs, Htag. split; [assumption|].
    intros t sid Hin Hsid.
    destruct (update_rows_table _ _ _ _ _ Hu t Hin) as [[Hold _]|[r [_ [_ Hf]]]].
    + eapply Ht; eassumption.
    + apply task_update_row_effect in Hf as [_ [_ [_ [_ [_ Hfk]]]]].
      unfold task_session_fk in Hfk. rewrite Hsid in Hfk. now apply existsb_id_in.
  - intros e d tid [Hg Ht]. split; [assumption|].
    intros t sid Hin Hsid. simpl in Hin. apply filter_In in Hin as [Hin _].
    eapply Ht; eassumption.
Qed.

(** X5.  No call of the services leaves a dangling reference: if every
    stored tag belongs to a stored session and every task that names a
    session names a stored one, this still holds after any history of calls
    by any callers.  Deleting a session takes its tags along and clears the
    reference of the tasks that named it, which is what keeps it. *)
Theorem references_resolve_kept (d : database) (calls : list (env * service_call)) :
  references_resolve d -> references_resolve (run_service_calls d calls).
Proof.
  destruct references_resolve_call_parts
    as [H1 [H2 [H3 [H4 [H5 [H6 [H7 H8]]]]]]].
  now apply (invariant_calls references_resolve H1 H2 H3 H4 H5 H6 H7 H8).
Qed.

Lemma cascade_database_resolves : references_resolve cascade_database.
Proof.
  split.
  - intros g Hin. simpl in Hin. unfold session_ids. simpl.
    repeat (destruct Hin as [<-|Hin]; [simpl; auto|]). contradiction.
  - intros t sid Hin Hsid. simpl in Hin. unfold session_ids. simpl.
    repeat (destruct Hin as [<-|Hin]; [simpl in Hsid; injection Hsid as <-; auto|]).
    contradiction.
Qed.

Lemma references_resolve_kept_witness :
  references_resolve cascade_database
  /\ references_resolve (run_service_calls cascade_database cascade_history).
Proof.
  split; [exact cascade_database_resolves|].
  apply (references_resolve_kept cascade_database cascade_history).
  exact cascade_database_resolves.
Defined.

Lemma NoDup_map_filter {K R} (key : R -> K) (keep : R -> bool) (rows : list R) :
  NoDup (map key rows) -> NoDup (map key (filter keep rows)).
Proof.
  intros Hnd. induction rows as [|r rows IH]; simpl; [constructor|].
  simpl in Hnd. apply NoDup_cons_iff in Hnd as [Hr Hrows].
  destruct (keep r); simpl; [|now apply IH].
  constructor; [|now apply IH].
  intros Hin. apply Hr. apply in_map_iff in Hin as [r' [Hkey Hin]].
  apply filter_In in Hin as [Hin _]. apply in_map_iff. now exists r'.
Qed.

Lemma tags_constraints_call_parts :
  (forall e d ins s d',
     tags_constraints_hold d -> insert_study_session e d ins = inr (s, d') ->
     tags_constraints_hold d')
  /\ (forall e d sid u out d',
     tags_constraints_hold d -> update_study_sessions e d sid u = inr (out, d') ->
     tags_constraints_hold d')
  /\ (forall e d sid, tags_constraints_hold d ->
                      tags_constraints_hold (delete_study_sessions e d sid))
  /\ (forall e d rows out d',
     tags_constraints_hold d -> insert_study_session_tags e d rows = inr (out, d') ->
     tags_constraints_hold d')
  /\ (forall e d sid tag, tags_constraints_hold d ->
                          tags_constraints_hold (snd (removeSessionTag e d sid tag)))
  /\ (forall e d ins row d',
     tags_constraints_hold d -> insert_task e d ins None None = inr (row, d') ->
     tags_constraints_hold d')
  /\ (forall e d tid u out d',
     tags_constraints_hold d -> update_tasks e d tid u = inr (out, d') ->
     tags_constraints_hold d')
  /\ (forall e d tid, tags_constraints_hold d -> tags_constraints_hold (delete_tasks e d tid)).
Proof.
  unfold tags_constraints_hold. repeat apply conj.
  - intros e d ins s d' Hd H.
    destruct (insert_study_session_effect _ _ _ _ _ H) as [_ [_ [Htag _]]].
    now rewrite Htag.
  - intros e d sid u out d' Hd H.
    destruct (update_study_sessions_effect _ _ _ _ _ _ H) as [tbl [_ [_ [_ Htag]]]].
    now rewrite Htag.
  - intros e d sid [Hnd Hlen]. simpl. split.
    + now apply NoDup_map_filter.
    + intros g Hin. apply filter_In in Hin as [Hin _]. now apply Hlen.
  - intros e d rows out d' [Hnd Hlen] H.
    destruct (insert_study_session_tags_effect _ _ _ _ _ H) as [Htag [_ [_ [Hnew Hkeep]]]].
    split; [now apply Hkeep|]. rewrite Htag.
    intros g Hin. apply in_app_or in Hin as [Hin|Hin]; [now apply Hlen|].
    now apply Hnew.
  - intros e d sid tag [Hnd Hlen]. simpl. split.
    + now apply NoDup_map_filter.
    + intros g Hin. apply filter_In in Hin as [Hin _]. now apply Hlen.
  - intros e d ins row d' Hd H.
    destruct (insert_task_effect _ _ _ _ _ H) as [_ [_ [Htag _]]]. now rewrite Htag.
  - intros e d tid u out d' Hd H.
    destruct (update_tasks_effect _ _ _ _ _ _ H) as [tbl [_ [_ [_ Htag]]]].
    now rewrite Htag.
  - intros e d tid Hd. exact Hd.
Qed.

(** X6.  The tags of a session stay pairwise different and at most 50
    characters long: [UNIQUE(session_id, tag)] and [tag VARCHAR(50)] hold of
    the stored tags after any history of calls, by any callers, that starts
    from a table of which they hold.  An [addSessionTags] that would break
    either fails as a whole and stores nothing. *)
Theorem tags_constraints_kept (d : database) (calls : list (env * service_call)) :
  tags_constraints_hold d -> tags_constraints_hold (run_service_calls d calls).
Proof.
  destruct tags_constraints_call_parts
    as [H1 [H2 [H3 [H4 [H5 [H6 [H7 H8]]]]]]].
  now apply (invariant_calls tags_constraints_hold H1 H2 H3 H4 H5 H6 H7 H8).
Qed.

Lemma cascade_database_tags : tags_constraints_hold cascade_database.
Proof.
  split.
  - simpl. repeat constructor; simpl; intuition discriminate.
  - intros g Hin. simpl in Hin.
    repeat (destruct Hin as [<-|Hin]; [simpl; lia|]). contradiction.
Qed.

Lemma tags_constraints_kept_witness :
  tags_constraints_hold cascade_database
  /\ tags_constraints_hold (run_service_calls cascade_database cascade_history).
Proof.
  split; [exact cascade_database_tags|].
  apply (tags_constraints_kept cascade_database cascade_history).
  exact cascade_database_tags.
Defined.

Lemma checks_hold_call_parts :
  (forall e d ins s d',
     checks_hold d -> insert_study_session e d ins = inr (s, d') -> checks_hold d')
  /\ (forall e d sid u out d',
     checks_hold d -> update_study_sessions e d sid u = inr (out, d') -> checks_hold d')
  /\ (forall e d sid, checks_hold d -> checks_hold (delete_study_sessions e d sid))
  /\ (forall e d rows out d',
     checks_hold d -> insert_study_session_tags e d rows = inr (out, d') -> checks_hold d')
  /\ (forall e d sid tag, checks_hold d -> checks_hold (snd (removeSessionTag e d sid tag)))
  /\ (forall e d ins row d',
     checks_hold d -> insert_task e d ins None None = inr (row, d') -> checks_hold d')
  /\ (forall e d tid u out d',
     checks_hold d -> update_tasks e d tid u = inr (out, d') -> checks_hold d')
  /\ (forall e d tid, checks_hold d -> checks_hold (delete_tasks e d tid)).
Proof.
  unfold checks_hold. repeat apply conj.
  - intros e d ins s d' [Hs Ht] H.
    destruct (insert_study_session_effect _ _ _ _ _ H) as [Hs' [Hk [_ [_ [Hc Hdur]]]]].
    rewrite Hs', Hk. split; [|assumption].
    intros s0 Hin. apply in_app_or in Hin as [Hin|[<-|[]]]; auto.
  - intros e d sid u out d' [Hs Ht] H.
    destruct (update_study_sessions_effect _ _ _ _ _ _ H) as [tbl [Hu [Hs' [Hk _]]]].
    rewrite Hs', Hk. split; [|assumption].
    intros s0 Hin.
    destruct (update_rows_table _ _ _ _ _ Hu s0 Hin) as [[Hold _]|[r [_ [_ Hf]]]]; auto.
    apply session_update_row_inr in Hf. tauto.
  - intros e d sid [Hs Ht]. simpl. split.
    + intros s Hin. apply filter_In in Hin as [Hin _]. auto.
    + intros t Hin. apply in_map_iff in Hin as [t0 [Heq Hin]].
      destruct (Task.session_id t0) as [i|]; [|subst; auto].
      destruct (existsb _ _); [|subst; auto]. subst t.
      destruct (task_before_update_session_id e t0 (set_task_session_id t0 None))
        as [_ [Htitle _]].
      unfold title_not_empty. rewrite Htitle. simpl. now apply Ht.
  - intros e d rows out d' Hd H.
    destruct (insert_study_session_tags_effect _ _ _ _ _ H) as [_ [Hs [Hk _]]].
    now rewrite Hs, Hk.
  - intros e d sid tag Hd. exact Hd.
  - intros e d ins row d' [Hs Ht] H.
    destruct (insert_task_effect _ _ _ _ _ H) as [Hk [Hs' [_ [_ [Hne [Hlen _]]]]]].
    rewrite Hk, Hs'. split; [assumption|].
    intros t Hin. apply in_app_or in Hin as [Hin|[<-|[]]]; auto.
  - intros e d tid u out d' [Hs Ht] H.
    destruct (update_tasks_effect _ _ _ _ _ _ H) as [tbl [Hu [Hk [Hs' _]]]].
    rewrite Hk, Hs'. split; [assumption|].
    intros t Hin.
    destruct (update_rows_table _ _ _ _ _ Hu t Hin) as [[Hold _]|[r [_ [_ Hf]]]]; auto.
    apply task_update_row_effect in Hf. tauto.
  - intros e d tid [Hs Ht]. simpl. split; [assumption|].
    intros t Hin. apply filter_In in Hin as [Hin _]. auto.
Qed.

(** X7.  The stored rows always pass the checks of their tables: after
    any history of calls, every session has its ratings absent or within 1
    to 5, its [end_time] absent or after its [start_time] and its
    [duration_minutes] as the trigger computes it, and every task has a title
    of 1 to 500 characters.  A call that would store another row fails and
    changes nothing. *)
Theorem checks_kept (d : database) (calls : list (env * service_call)) :
  checks_hold d -> checks_hold (run_service_calls d calls).
Proof.
  destruct checks_hold_call_parts as [H1 [H2 [H3 [H4 [H5 [H6 [H7 H8]]]]]]].
  now apply (invariant_calls checks_hold H1 H2 H3 H4 H5 H6 H7 H8).
Qed.

Lemma cascade_database_checks : checks_hold cascade_database.
Proof.
  split.
  - intros s Hin. simpl in Hin.
    repeat (destruct Hin as [<-|Hin];
            [split; [reflexivity|unfold duration_consistent; simpl; intros t' Ht';
                                 try discriminate; injection Ht' as <-; reflexivity]|]).
    contradiction.
  - intros t Hin. simpl in Hin.
    repeat (destruct Hin as [<-|Hin]; [split; [reflexivity|simpl; lia]|]).
    contradiction.
Qed.

Lemma checks_kept_witness :
  checks_hold cascade_database
  /\ checks_hold (run_service_calls cascade_database cascade_history).
Proof.
  split; [exact cascade_database_checks|].
  apply (checks_kept cascade_database cascade_history).
  exact cascade_database_checks.
Defined.

(* ------------------------------------------------------------------ *)
(** ** Rows of other owners                                             *)
(* ------------------------------------------------------------------ *)

Lemma update_tasks_others e d tid u out d' :
  update_tasks e d tid u = inr (out, d') ->
  study_sessions d' = study_sessions d
  /\ study_session_tags d' = study_session_tags d
  /\ filter (fun t => negb (task_policy e t)) (tasks d')
     = filter (fun t => negb (task_policy e t)) (tasks d).
Proof.
  intros H. destruct (update_tasks_effect _ _ _ _ _ _ H) as [tbl [Hu [Hk [Hs Htag]]]].
  split; [assumption|]. split; [assumption|]. rewrite Hk.
  apply (update_rows_filter_unselected _ _ (fun t => negb (task_policy e t)) _ _ _) in Hu;
    [exact Hu| |].
  - intros r Hr. apply andb_prop in Hr as [Hr _]. now rewrite Hr.
  - intros r r' _ Hf. apply task_update_row_effect in Hf as [_ [_ [Hp _]]]. now rewrite Hp.
Qed.

Lemma updateTask_others e d tid u :
  rows_of_others e d (snd (updateTask e d tid u)) = rows_of_others e d d.
Proof.
  unfold updateTask.
  destruct (update_tasks e d tid u) as [err|[out d']] eqn:Hu; simpl; [reflexivity|].
  destruct (single out); simpl; [reflexivity|].
  destruct (update_tasks_others _ _ _ _ _ _ Hu) as [Hs [Htag Hk]].
  unfold rows_of_others. now rewrite Hs, Htag, Hk.
Qed.

Lemma updateSession_others e d sid u :
  rows_of_others e d (snd (updateSession e d sid u)) = rows_of_others e d d.
Proof.
  unfold updateSession.
  destruct (update_study_sessions e d sid u) as [err|[out d']] eqn:Hu; simpl; [reflexivity|].
  destruct (single out); simpl; [reflexivity|].
  destruct (update_study_sessions_effect _ _ _ _ _ _ Hu) as [tbl [Hr [Hs [Hk Htag]]]].
  unfold rows_of_others. rewrite Hs, Htag, Hk. do 2 f_equal.
  apply (update_rows_filter_unselected _ _ (fun s => negb (session_policy e s)) _ _ _) in Hr;
    [exact Hr| |].
  - intros r Hsel. apply andb_prop in Hsel as [Hsel _]. now rewrite Hsel.
  - intros r r' _ Hf. unfold session_update_row in Hf. inv_bind Hf. subst r'.
    now rewrite Hg1.
Qed.

Lemma gone_is_owned e d sid (i : uuid) :
  existsb (fun s => (session_policy e s && N.eqb (StudySession.id s) sid)
                    && N.eqb (StudySession.id s) i) (study_sessions d) = true ->
  tag_policy_for e d i = true.
Proof.
  intros H. apply existsb_exists in H as [s [Hin Hs]].
  apply andb_prop in Hs as [Hs Hi]. apply andb_prop in Hs as [Hp _].
  unfold tag_policy_for. apply existsb_exists. exists s. split; [assumption|].
  rewrite Hi. unfold session_policy in Hp. now rewrite Hp.
Qed.

(** Every call but [deleteSession] leaves the rows of others as they are. *)
Lemma rows_of_others_kept (e : env) (d : database) (c : service_call) :
  is_deleteSession c = false ->
  rows_of_others e d (run_service_call e d c) = rows_of_others e d d.
Proof.
  intros Hc. destruct c; cbn [run_service_call]; try discriminate Hc; clear Hc.
  - unfold createSession.
    destruct (insert_study_session e d sessionData) as [err|[s d']] eqn:Hi; simpl;
      [reflexivity|].
    destruct (insert_study_session_effect _ _ _ _ _ Hi) as [Hs [Hk [Htag [Hp _]]]].
    unfold rows_of_others. rewrite Hs, Hk, Htag.
    rewrite filter_app_singleton_false by now rewrite Hp. reflexivity.
  - apply updateSession_others.
  - unfold endSession. apply updateSession_others.
  - unfold addSessionTags.
    destruct (insert_study_session_tags e d _) as [err|[out d']] eqn:Hi; simpl;
      [reflexivity|].
    destruct (insert_study_session_tags_effect _ _ _ _ _ Hi) as [Htag [Hs [Hk [Hnew _]]]].
    unfold rows_of_others. rewrite Hs, Hk, Htag. do 2 f_equal.
    rewrite filter_app.
    rewrite (filter_none (fun g => negb (tag_policy e d g)) out).
    + apply app_nil_r.
    + intros g Hin. unfold tag_policy. destruct (Hnew g Hin) as [Hp _]. now rewrite Hp.
  - unfold rows_of_others. simpl. do 2 f_equal.
    apply filter_filter_implied. intros g Hg. apply negb_true_iff in Hg.
    now rewrite Hg.
  - unfold createTask.
    destruct (insert_task e d taskData None None) as [err|[row d']] eqn:Hi; simpl;
      [reflexivity|].
    destruct (insert_task_effect _ _ _ _ _ Hi) as [Hk [Hs [Htag [Hp _]]]].
    unfold rows_of_others. rewrite Hs, Hk, Htag.
    rewrite filter_app_singleton_false by now rewrite Hp. reflexivity.
  - apply updateTask_others.
  - unfold rows_of_others. simpl. f_equal.
    apply filter_filter_implied. intros t Ht. apply negb_true_iff in Ht.
    now rewrite Ht.
  - unfold toggleTaskCompletion. destruct (single _); [reflexivity|].
    apply updateTask_others.
  - unfold reorderTasks. cbn [snd].
    assert (Hgen : forall l d1,
               study_sessions d1 = study_sessions d ->
               study_session_tags d1 = study_session_tags d ->
               filter (fun t => negb (task_policy e t)) (tasks d1)
               = filter (fun t => negb (task_policy e t)) (tasks d) ->
               rows_of_others e d
                 (fold_left
                    (fun d' '(id, order_index) =>
                       match update_tasks e d' id
                               (TaskUpdate.mk None None None None None (Some order_index) None)
                       with
                       | inl _ => d'
                       | inr (_, d'') => d''
                       end) l d1)
               = rows_of_others e d d).
    { induction l as [|[id k] l IH]; intros d1 Hs Htag Hk; simpl.
      - unfold rows_of_others. now rewrite Hs, Htag, Hk.
      - destruct (update_tasks e d1 id _) as [err|[out d2]] eqn:Hu; [now apply IH|].
        destruct (update_tasks_others _ _ _ _ _ _ Hu) as [Hs2 [Htag2 Hk2]].
        apply IH; congruence. }
    now apply Hgen.
Qed.

(** X8.  A call never touches a session that is not the caller's nor a tag
    of a session that is not the caller's, whatever its arguments: the
    sessions and the tags outside the caller's policies are the same rows, in
    the same order, after the call.  The same holds of the tasks for every
    call but [deleteSession]. *)
Theorem calls_leave_rows_of_others (e : env) (d : database) (c : service_call) :
  fst (rows_of_others e d (run_service_call e d c)) = fst (rows_of_others e d d)
  /\ (is_deleteSession c = false ->
      rows_of_others e d (run_service_call e d c) = rows_of_others e d d).
Proof.
  destruct (is_deleteSession c) eqn:Hc.
  - destruct c; try discriminate Hc. cbn [run_service_call].
    split; [|discriminate]. unfold rows_of_others. simpl. f_equal.
    + apply filter_filter_implied. intros s Hs. apply negb_true_iff in Hs.
      now rewrite Hs.
    + apply filter_filter_implied. intros g Hg. apply negb_true_iff in Hg.
      apply negb_true_iff. apply not_true_is_false. intros Hgone.
      apply gone_is_owned in Hgone. unfold tag_policy in Hg. congruence.
  - rewrite (rows_of_others_kept e d c Hc). auto.
Qed.

(* ------------------------------------------------------------------ *)
(** ** Deleting a session                                               *)
(* ------------------------------------------------------------------ *)

Lemma NoDup_map_In_inj {A B} (f : A -> B) (l : list A) (x y : A) :
  NoDup (map f l) -> In x l -> In y l -> f x = f y -> x = y.
Proof.
  induction l as [|a l IH]; simpl; intros Hnd Hx Hy Hf; [contradiction|].
  apply NoDup_cons_iff in Hnd as [Ha Hnd].
  destruct Hx as [<-|Hx], Hy as [<-|Hy]; auto.
  - exfalso. apply Ha. rewrite Hf. now apply in_map.
  - exfalso. apply Ha. rewrite <- Hf. now apply in_map.
Qed.

Lemma gone_iff_deleted e d sid s (i : uuid) :
  NoDup (session_ids d) -> In s (study_sessions d) ->
  StudySession.id s = sid -> session_policy e s = true ->
  existsb (fun x => (session_policy e x && N.eqb (StudySession.id x) sid)
                    && N.eqb (StudySession.id x) i) (study_sessions d)
  = N.eqb i sid.
Proof.
  intros Hnd Hin Hid Hpol. destruct (N.eqb i sid) eqn:Hi.
  - apply N.eqb_eq in Hi. subst i. apply existsb_exists. exists s.
    split; [assumption|]. rewrite Hpol, Hid, N.eqb_refl. reflexivity.
  - apply not_true_is_false. intros H. apply existsb_exists in H as [x [_ Hx]].
    apply andb_prop in Hx as [Hx Hxi]. apply andb_prop in Hx as [_ Hxs].
    apply N.eqb_eq in Hxi, Hxs. apply N.eqb_neq in Hi. congruence.
Qed.

(** X9.  [deleteSession] of a session of the caller, in a table whose
    keys are unique: the session is gone and no other is; its tags are gone
    and no other tag is; no task is deleted, of the caller or of anybody
    else: a task that named the session keeps its key, owner, title and
    completion, names no session any more and has [updated_at] set to the
    time of the call, also when it belongs to another owner, and every other
    task is the row it was. *)
Theorem deleteSession_cascades (e : env) (d : database) (s : StudySession.t) :
  NoDup (session_ids d) -> In s (study_sessions d) -> session_policy e s = true ->
  fst (deleteSession e d (StudySession.id s)) = api_success_null
  /\ study_sessions (snd (deleteSession e d (StudySession.id s)))
     = filter (fun x => negb (N.eqb (StudySession.id x) (StudySession.id s)))
              (study_sessions d)
  /\ ~ In (StudySession.id s) (session_ids (snd (deleteSession e d (StudySession.id s))))
  /\ study_session_tags (snd (deleteSession e d (StudySession.id s)))
     = filter (fun g => negb (N.eqb (StudySessionTag.session_id g) (StudySession.id s)))
              (study_session_tags d)
  /\ Forall2 (fun t t' =>
                Task.id t' = Task.id t /\ Task.user_id t' = Task.user_id t
                /\ Task.title t' = Task.title t
                /\ Task.is_completed t' = Task.is_completed t
                /\ (Task.session_id t = Some (StudySession.id s) ->
                    Task.session_id t' = None /\ Task.updated_at t' = pg_now e)
                /\ (Task.session_id t <> Some (StudySession.id s) -> t' = t))
             (tasks d) (tasks (snd (deleteSession e d (StudySession.id s)))).
Proof.
  intros Hnd Hin Hpol. set (sid := StudySession.id s).
  assert (Hgone : forall i,
             existsb (fun x => (session_policy e x && N.eqb (StudySession.id x) sid)
                               && N.eqb (StudySession.id x) i) (study_sessions d)
             = N.eqb i sid).
  { intros i. now apply (gone_iff_deleted e d sid s i). }
  assert (Hsess : study_sessions (snd (deleteSession e d sid))
                  = filter (fun x => negb (N.eqb (StudySession.id x) sid)) (study_sessions d)).
  { simpl. apply filter_ext_in. intros x Hx. f_equal.
    destruct (N.eqb (StudySession.id x) sid) eqn:Hxs.
    - apply N.eqb_eq in Hxs.
      assert (x = s) by (apply (NoDup_map_In_inj StudySession.id (study_sessions d)); auto).
      subst x. now rewrite Hpol.
    - apply andb_false_r. }
  split; [reflexivity|]. split; [exact Hsess|]. split; [|split].
  - unfold session_ids. rewrite Hsess. intros H. apply in_map_iff in H as [x [Hx Hxin]].
    apply filter_In in Hxin as [_ Hxin]. apply negb_true_iff, N.eqb_neq in Hxin.
    contradiction.
  - simpl. apply filter_ext. intros g. now rewrite Hgone.
  - simpl. induction (tasks d) as [|t l IH]; simpl; constructor; [|exact IH].
    destruct (Task.session_id t) as [i|] eqn:Hi.
    + rewrite Hgone. destruct (N.eqb i sid) eqn:His.
      * destruct (task_before_update_session_id e t (set_task_session_id t None))
          as [H1 [H2 [H3 H4]]].
        rewrite H1, H2, H3, H4. apply N.eqb_eq in His. subst i.
        assert (Hc : Task.is_completed (task_before_update e t (set_task_session_id t None))
                     = Task.is_completed t
                     /\ Task.updated_at (task_before_update e t (set_task_session_id t None))
                        = pg_now e).
        { unfold task_before_update, set_task_completed_at.
          destruct (sql_is_true _); [|destruct (sql_is_true _)]; split; reflexivity. }
        destruct Hc as [Hc Hu]. rewrite Hc, Hu. simpl.
        split; [reflexivity|]. split; [reflexivity|]. split; [reflexivity|].
        split; [reflexivity|]. split; [auto|]. intros Hne. contradiction.
      * split; [reflexivity|]. split; [reflexivity|]. split; [reflexivity|].
        split; [reflexivity|]. split; [|reflexivity].
        intros Heq. injection Heq as ->. rewrite N.eqb_refl in His. discriminate.
    + split; [reflexivity|]. split; [reflexivity|]. split; [reflexivity|].
      split; [reflexivity|]. split; [discriminate|reflexivity].
Qed.

Lemma deleteSession_cascades_witness :
  NoDup (session_ids cascade_database)
  /\ In (session_row 10%N owner_A t_2025_01_01_10h (Some (minutes 30)))
        (study_sessions cascade_database)
  /\ session_policy cascade_request
       (session_row 10%N owner_A t_2025_01_01_10h (Some (minutes 30))) = true
  /\ session_ids (snd (deleteSession cascade_request cascade_database 10%N)) = [11%N]
  /\ map tag_key (study_session_tags (snd (deleteSession cascade_request cascade_database 10%N)))
     = [(11%N, "math"%string)]
  /\ map (fun t => (Task.id t, Task.user_id t, Task.session_id t))
         (tasks (snd (deleteSession cascade_request cascade_database 10%N)))
     = [(20%N, owner_A, None); (21%N, owner_A, Some 11%N); (22%N, principal_B, None)].
Proof.
  assert (Hnd : NoDup (session_ids cascade_database)).
  { unfold session_ids. simpl. repeat constructor; simpl; intuition discriminate. }
  assert (Hin : In (session_row 10%N owner_A t_2025_01_01_10h (Some (minutes 30)))
                   (study_sessions cascade_database)) by (simpl; auto).
  assert (Hpol : session_policy cascade_request
                   (session_row 10%N owner_A t_2025_01_01_10h (Some (minutes 30))) = true)
    by reflexivity.
  split; [exact Hnd|]. split; [exact Hin|]. split; [exact Hpol|].
  pose proof (deleteSession_cascades cascade_request cascade_database
                (session_row 10%N owner_A t_2025_01_01_10h (Some (minutes 30)))
                Hnd Hin Hpol) as [_ [Hs [_ [Htag _]]]].
  change (StudySession.id (session_row 10%N owner_A t_2025_01_01_10h (Some (minutes 30))))
    with 10%N in Hs, Htag.
  unfold session_ids. rewrite Hs, Htag. vm_compute. auto.
Defined.

Lemma existsb_none {A} (p : A -> bool) (l : list A) :
  (forall x, In x l -> p x = false) -> existsb p l = false.
Proof.
  induction l as [|x l IH]; intros H; simpl; [reflexivity|].
  rewrite (H x (or_introl eq_refl)). apply IH. intros; apply H; now right.
Qed.

(** X10.  A caller who is not signed in ([auth.uid()] is null) changes
    nothing: whatever the call and its arguments, the three tables are
    afterwards what they were. *)
Theorem anonymous_calls_change_nothing (e : env) (d : database) (c : service_call) :
  auth_uid e = None ->
  study_sessions (run_service_call e d c) = study_sessions d
  /\ study_session_tags (run_service_call e d c) = study_session_tags d
  /\ tasks (run_service_call e d c) = tasks d.
Proof.
  intros Hanon.
  assert (Hno : forall u, auth_uid_is e u = false)
    by (intros u; unfold auth_uid_is; now rewrite Hanon).
  assert (Hall : forall d', rows_of_others e d d'
                            = (study_sessions d', study_session_tags d', tasks d')).
  { intros d'. unfold rows_of_others. f_equal; [f_equal|]; apply filter_keep_all.
    - intros s _. unfold session_policy. now rewrite Hno.
    - intros g _. unfold tag_policy, tag_policy_for.
      rewrite existsb_none; [reflexivity|].
      intros s _. rewrite Hno. now rewrite andb_false_r.
    - intros t _. unfold task_policy. now rewrite Hno. }
  destruct (is_deleteSession c) eqn:Hc.
  - destruct c; try discriminate. cbn [run_service_call].
    assert (Hsame : snd (deleteSession e d sessionId) = d).
    { apply (session_policies_isolate e d sessionId).
      intros s _ _. unfold session_policy. apply Hno. }
    rewrite Hsame. auto.
  - pose proof (rows_of_others_kept e d c Hc) as H.
    rewrite !Hall in H. injection H as H1 H2 H3. auto.
Qed.

Lemma anonymous_calls_change_nothing_witness :
  auth_uid anonymous_request = None
  /\ study_sessions (run_service_call anonymous_request cascade_database
                       (Call_deleteSession 10%N))
     = study_sessions cascade_database
  /\ study_session_tags (run_service_call anonymous_request cascade_database
                           (Call_deleteSession 10%N))
     = study_session_tags cascade_database
  /\ tasks (run_service_call anonymous_request cascade_database (Call_deleteSession 10%N))
     = tasks cascade_database.
Proof.
  split; [reflexivity|].
  apply (anonymous_calls_change_nothing anonymous_request cascade_database
           (Call_deleteSession 10%N)).
  reflexivity.
Defined.

(* ================================================================== *)
(** * 27. Tags: what is stored, removed and found                      *)
(* ================================================================== *)

(* ------------------------------------------------------------------ *)
(** ** A normalized tag and [VARCHAR(50)]                               *)
(* ------------------------------------------------------------------ *)

Lemma string_rev_snoc (s : string) (c : ascii) :
  string_rev (s ++ String c EmptyString) = String c (string_rev s).
Proof.
  induction s as [|a s IH]; simpl; [reflexivity|]. now rewrite IH.
Qed.

Lemma string_rev_involutive (s : string) : string_rev (string_rev s) = s.
Proof.
  induction s as [|a s IH]; simpl; [reflexivity|].
  now rewrite string_rev_snoc, IH.
Qed.

Lemma trimStart_head (s : string) (c : ascii) (r : string) :
  trimStart s = String c r -> is_js_whitespace c = false.
Proof.
  induction s as [|a s IH]; simpl; [discriminate|].
  destruct (is_js_whitespace a) eqn:Ha; [exact IH|].
  intros H. injection H as <- _. exact Ha.
Qed.

(** A string whose characters past position [n] are all spaces ends in a
    space, if there is such a character. *)
Lemma all_spaces_tail_rev (s : string) :
  forall n, (n < String.length s)%nat ->
    all_spaces (substring n (String.length s - n) s) = true ->
    exists r, string_rev s = String " "%char r.
Proof.
  induction s as [|c s IH]; intros n Hlen Hsp; simpl in Hlen; [lia|].
  destruct n as [|n].
  - simpl in Hsp. apply andb_prop in Hsp as [Hc Hrest].
    apply Ascii.eqb_eq in Hc. subst c.
    destruct s as [|c' s'].
    + exists EmptyString. reflexivity.
    + destruct (IH 0%nat) as [r Hr].
      * simpl. lia.
      * rewrite Nat.sub_0_r. exact Hrest.
      * simpl. simpl in Hr. rewrite Hr. simpl. eexists. reflexivity.
  - simpl in Hsp. destruct (IH n) as [r Hr]; [lia|exact Hsp|].
    simpl. rewrite Hr. simpl. eexists. reflexivity.
Qed.

(** [trim] leaves no space at the end, so [VARCHAR(n)] never cuts a trimmed
    string: it stores it as it is or refuses it. *)
Lemma varchar_trimmed (n : nat) (s x : string) :
  varchar n (trim s) = inr x -> x = trim s /\ (String.length x <= n)%nat.
Proof.
  unfold varchar. destruct (String.length (trim s) <=? n)%nat eqn:Hlen.
  - intros H. injection H as <-. apply Nat.leb_le in Hlen. auto.
  - destruct (all_spaces _) eqn:Hsp; [|discriminate]. exfalso.
    apply Nat.leb_gt in Hlen.
    destruct (all_spaces_tail_rev (trim s) n Hlen Hsp) as [r Hr].
    unfold trim, trimEnd in Hr. rewrite string_rev_involutive in Hr.
    apply trimStart_head in Hr. discriminate.
Qed.

Lemma varchar_normalized (t x : string) :
  varchar 50 (normalize_tag t) = inr x ->
  x = normalize_tag t /\ (String.length x <= 50)%nat.
Proof. unfold normalize_tag. apply varchar_trimmed. Qed.

Lemma insert_tag_rows_normalized e d sid (tags : list string) :
  forall table inserted next table' inserted' next',
    insert_tag_rows e d (table, inserted, next)
      (map (fun t => StudySessionTagInsert.mk sid (normalize_tag t)) tags)
    = inr (table', inserted', next') ->
    exists added,
      table' = table ++ added /\ inserted' = inserted ++ added
      /\ map StudySessionTag.tag added = map normalize_tag tags
      /\ (forall g, In g added -> StudySessionTag.session_id g = sid)
      /\ (forall t, In t tags ->
                    (String.length (normalize_tag t) <= 50)%nat
                    /\ tag_exists table sid (normalize_tag t) = false)
      /\ NoDup (map normalize_tag tags)
      /\ (tags <> [] -> tag_policy_for e d sid = true).
Proof.
  induction tags as [|t rest IH]; intros table inserted next table' inserted' next' H.
  - simpl in H. injection H as <- <- <-. exists []. rewrite !app_nil_r.
    split; [reflexivity|]. split; [reflexivity|]. split; [reflexivity|].
    split; [intros g []|]. split; [intros t []|]. split; [constructor|].
    intros Hne. now contradiction Hne.
  - cbn [map insert_tag_rows] in H. inv_bind H. destruct a as [[table1 inserted1] next1].
    unfold insert_tag_row in Hm. inv_bind Hm. cbn [StudySessionTagInsert.tag] in Hm0.
    apply tag_of_body_inr in Hm0 as [_ Hm0].
    apply varchar_normalized in Hm0 as [-> Hlen].
    cbn [StudySessionTagInsert.session_id] in *.
    injection Hm as <- <- <-.
    destruct (IH _ _ _ _ _ _ H) as [added [-> [-> [Htags [Hsid [Hrest [Hnd _]]]]]]].
    apply negb_true_iff in Hg1.
    exists (StudySessionTag.mk next sid (normalize_tag t) (pg_now e) :: added).
    rewrite <- !app_assoc. split; [reflexivity|]. split; [reflexivity|].
    split; [simpl; now rewrite Htags|].
    split; [intros g [<-|Hg']; [reflexivity|now apply Hsid]|].
    split; [|split].
    + intros t' [<-|Hin]; [auto|].
      destruct (Hrest t' Hin) as [Hl Hex]. split; [assumption|].
      rewrite tag_exists_snoc in Hex. now apply orb_false_elim in Hex.
    + simpl. constructor; [|assumption]. intros Hin.
      apply in_map_iff in Hin as [t' [Heq Hin]].
      destruct (Hrest t' Hin) as [_ Hex]. rewrite tag_exists_snoc in Hex.
      apply orb_false_elim in Hex as [_ Hex]. simpl in Hex.
      rewrite N.eqb_refl, Heq, String.eqb_refl in Hex. discriminate.
    + intros _. assumption.
Qed.

(** A successful [addSessionTags] is a successful INSERT of the normalized
    tags. *)
Lemma addSessionTags_inr e d d' sid (tags : list string) (rows : list StudySessionTag.t) :
  addSessionTags e d sid tags = (api_success rows, d') ->
  exists next,
    insert_tag_rows e d (study_session_tags d, [], next_uuid d)
      (map (fun t => StudySessionTagInsert.mk sid (normalize_tag t)) tags)
    = inr (study_session_tags d', rows, next)
    /\ study_sessions d' = study_sessions d /\ tasks d' = tasks d.
Proof.
  unfold addSessionTags, insert_study_session_tags. intros H.
  destruct (tags_of_body _) as [err|[]]; [discriminate|]. cbn [bind] in H.
  destruct (insert_tag_rows e d _ _) as [err|[[table inserted] next]] eqn:Hi;
    simpl in H; [discriminate|].
  injection H as <- <-. exists next. simpl. auto.
Qed.

(** The rows a successful [addSessionTags] added. *)
Lemma addSessionTags_rows e d d' sid (tags : list string) (rows : list StudySessionTag.t) :
  addSessionTags e d sid tags = (api_success rows, d') ->
  map StudySessionTag.tag rows = map normalize_tag tags
  /\ (forall g, In g rows -> StudySessionTag.session_id g = sid)
  /\ study_session_tags d' = study_session_tags d ++ rows
  /\ study_sessions d' = study_sessions d
  /\ (forall t, In t tags ->
                tag_exists (study_session_tags d) sid (normalize_tag t) = false)
  /\ (tags <> [] -> tag_policy_for e d sid = true).
Proof.
  intros H. destruct (addSessionTags_inr e d d' sid tags rows H) as [next [Hi [Hs _]]].
  destruct (insert_tag_rows_normalized _ _ _ _ _ _ _ _ _ _ Hi)
    as [added [Htbl [Hrows [Htags [Hsid [Hrest [_ Hpol]]]]]]].
  simpl in Hrows. subst added.
  split; [assumption|]. split; [assumption|]. split; [assumption|].
  split; [assumption|]. split; [|assumption].
  intros t Ht. now apply Hrest.
Qed.

(** X11.  When [addSessionTags] succeeds, what it stored is exactly the
    tags it was given, each lower-cased and trimmed, in the order given, all
    for the session named, after the rows that were there.  It can succeed
    only if every normalized tag has at most 50 characters (a longer one is
    refused, never cut, since a trimmed string has no space at its end), the
    normalized tags are pairwise different, none was stored for the session
    yet, and, unless no tag was given, the session is the caller's. *)
Theorem addSessionTags_success (e : env) (d d' : database) (sid : uuid)
    (tags : list string) (rows : list StudySessionTag.t) :
  addSessionTags e d sid tags = (api_success rows, d') ->
  map StudySessionTag.tag rows = map normalize_tag tags
  /\ (forall g, In g rows -> StudySessionTag.session_id g = sid)
  /\ study_session_tags d' = study_session_tags d ++ rows
  /\ study_sessions d' = study_sessions d /\ tasks d' = tasks d
  /\ (forall t, In t tags ->
                (String.length (normalize_tag t) <= 50)%nat
                /\ tag_exists (study_session_tags d) sid (normalize_tag t) = false)
  /\ NoDup (map normalize_tag tags)
  /\ (tags <> [] -> tag_policy_for e d sid = true).
Proof.
  intros H. destruct (addSessionTags_inr e d d' sid tags rows H) as [next [Hi [Hs Hk]]].
  destruct (insert_tag_rows_normalized _ _ _ _ _ _ _ _ _ _ Hi)
    as [added [Htbl [Hrows [Htags [Hsid [Hrest [Hnd Hpol]]]]]]].
  simpl in Hrows. subst added. auto 10.
Qed.

Lemma addSessionTags_success_witness :
  exists rows d',
    addSessionTags c4_request c4_database 10%N [" Math "; "EXAM"]%string
    = (api_success rows, d')
    /\ map StudySessionTag.tag rows = ["math"; "exam"]%string
    /\ study_session_tags d' = study_session_tags c4_database ++ rows.
Proof.
  pose (p := addSessionTags c4_request c4_database 10%N [" Math "; "EXAM"]%string).
  assert (H : p = (api_success (match data (fst p) with Some r => r | None => [] end),
                   snd p)) by (vm_compute; reflexivity).
  exists (match data (fst p) with Some r => r | None => [] end), (snd p).
  split; [exact H|].
  destruct (addSessionTags_success c4_request c4_database (snd p) 10%N
              [" Math "; "EXAM"]%string _ H) as [H1 [_ [H3 _]]].
  split; [exact H1|exact H3].
Defined.

(* ------------------------------------------------------------------ *)
(** ** [removeSessionTag]                                               *)
(* ------------------------------------------------------------------ *)



Lemma removeSessionTag_tags e d sid tag :
  study_session_tags (snd (removeSessionTag e d sid tag))
  = (if tag_policy_for e d sid
     then filter (fun g => negb (N.eqb (StudySessionTag.session_id g) sid
                                 && String.eqb (StudySessionTag.tag g)
                                               (normalize_tag tag)))
                 (study_session_tags d)
     else study_session_tags d).
Proof.
  simpl. destruct (tag_policy_for e d sid) eqn:Hpol.
  - apply filter_pointwise. intros g. unfold tag_policy.
    destruct (N.eqb_spec (StudySessionTag.session_id g) sid) as [->|Hne].
    + now rewrite Hpol.
    + now rewrite andb_false_r.
  - apply filter_keep_all. intros g _. unfold tag_policy.
    destruct (N.eqb_spec (StudySessionTag.session_id g) sid) as [->|Hne].
    + now rewrite Hpol.
    + now rewrite andb_false_r.
Qed.


Lemma tag_policy_for_same_caller e e' d d' sid :
  auth_uid e' = auth_uid e -> study_sessions d' = study_sessions d ->
  tag_policy_for e' d' sid = tag_policy_for e d sid.
Proof.
  intros Ha Hs. unfold tag_policy_for, session_policy, auth_uid_is. now rewrite Ha, Hs.
Qed.

(** X13.  Adding a tag and removing it again restores the table of tags:
    after a successful [addSessionTags] of one tag, a [removeSessionTag] by
    the same caller, of the tag in any spelling that lower-cases and trims to
    the same string, leaves exactly the rows that were there before. *)
Theorem add_then_remove_restores (e e' : env) (d d' : database) (sid : uuid)
    (t t' : string) (rows : list StudySessionTag.t) :
  auth_uid e' = auth_uid e ->
  normalize_tag t' = normalize_tag t ->
  addSessionTags e d sid [t] = (api_success rows, d') ->
  study_session_tags (snd (removeSessionTag e' d' sid t')) = study_session_tags d.
Proof.
  intros Hauth Hnorm Hadd.
  destruct (addSessionTags_rows e d d' sid [t] rows Hadd)
    as [Htags [Hsid [Htbl [Hs [Hnew Hpol]]]]].
  rewrite (removeSessionTag_tags e' d' sid t'), (tag_policy_for_same_caller e e' d d' sid Hauth Hs).
  rewrite Hpol by discriminate. rewrite Htbl, filter_app, Hnorm.
  pose proof (Hnew t (or_introl eq_refl)) as Hex.
  rewrite filter_keep_all.
  - rewrite filter_none; [apply app_nil_r|].
    intros g Hg. rewrite (Hsid g Hg), N.eqb_refl.
    destruct rows as [|g0 [|g1 rows]]; try discriminate.
    destruct Hg as [<-|[]]. simpl in Htags. injection Htags as ->.
    now rewrite String.eqb_refl.
  - intros g Hg. apply negb_true_iff. apply not_true_is_false. intros Hmatch.
    assert (Ht : tag_exists (study_session_tags d) sid (normalize_tag t) = true).
    { apply existsb_exists. exists g. auto. }
    congruence.
Qed.

Lemma add_then_remove_restores_witness :
  auth_uid (request owner_A (t_2025_01_01_10h + minutes 9)) = auth_uid c4_request
  /\ normalize_tag "math" = normalize_tag " Math "
  /\ study_session_tags
       (snd (removeSessionTag (request owner_A (t_2025_01_01_10h + minutes 9))
               (snd (addSessionTags c4_request c4_database 10%N [" Math "%string]))
               10%N "math"))
     = study_session_tags c4_database.
Proof.
  split; [reflexivity|]. split; [reflexivity|].
  pose (p := addSessionTags c4_request c4_database 10%N [" Math "%string]).
  assert (H : p = (api_success (match data (fst p) with Some r => r | None => [] end),
                   snd p)) by (vm_compute; reflexivity).
  exact (add_then_remove_restores c4_request
           (request owner_A (t_2025_01_01_10h + minutes 9))
           c4_database (snd p) 10%N " Math "%string "math"%string _
           eq_refl eq_refl H).
Defined.

(* ------------------------------------------------------------------ *)
(** ** [getSessionsByTag]                                               *)
(* ------------------------------------------------------------------ *)

(** For a session the caller may see, the keys found for the tag are the
    keys of the sessions that carry it. *)
Lemma tag_lookup_finds e d tag s :
  In s (study_sessions d) -> session_policy e s = true ->
  existsb (N.eqb (StudySession.id s))
    (map StudySessionTag.session_id
       (filter (fun g => String.eqb (StudySessionTag.tag g) (normalize_tag tag))
               (select_study_session_tags e d)))
  = tag_exists (study_session_tags d) (StudySession.id s) (normalize_tag tag).
Proof.
  intros Hin Hpol. unfold tag_exists.
  destruct (existsb (fun g => _ && _) (study_session_tags d)) eqn:Hex.
  - apply existsb_exists in Hex as [g [Hg Hmatch]].
    apply andb_prop in Hmatch as [Hid Htag]. apply N.eqb_eq in Hid.
    apply existsb_exists. exists (StudySessionTag.session_id g).
    split; [|rewrite Hid; apply N.eqb_refl].
    apply in_map. apply filter_In. split; [|assumption].
    apply filter_In. split; [assumption|].
    unfold tag_policy, tag_policy_for. apply existsb_exists. exists s.
    split; [assumption|]. rewrite Hid, N.eqb_refl, Hpol.
    unfold session_policy in Hpol. rewrite Hpol. reflexivity.
  - apply not_true_is_false. intros H. apply existsb_exists in H as [i [Hi Heq]].
    apply N.eqb_eq in Heq. subst i. apply in_map_iff in Hi as [g [Hid Hg]].
    apply filter_In in Hg as [Hg Htag]. apply filter_In in Hg as [Hg _].
    assert (Ht : existsb (fun g => N.eqb (StudySessionTag.session_id g) (StudySession.id s)
                                   && String.eqb (StudySessionTag.tag g) (normalize_tag tag))
                         (study_session_tags d) = true).
    { apply existsb_exists. exists g. split; [assumption|].
      rewrite Hid, N.eqb_refl. assumption. }
    congruence.
Qed.

Lemma getSessionsByTag_answer e d userId tag :
  getSessionsByTag e d userId tag
  = api_success (sort_rows latest_first
                   (filter (sessions_tagged e d userId tag) (study_sessions d))).
Proof.
  unfold getSessionsByTag. cbv zeta.
  set (tagData := filter _ (select_study_session_tags e d)).
  assert (Hrows : run_query e d
                    (q_order_by by_start_time false
                       (q_in_id (map StudySessionTag.session_id tagData)
                          (q_eq_user_id userId from_study_sessions)))
                  = sort_rows latest_first
                      (filter (sessions_tagged e d userId tag) (study_sessions d))).
  { unfold run_query, q_order_by, q_in_id, q_eq_user_id, q_filter, from_study_sessions,
      paginate, apply_order, select_study_sessions.
    cbn [q_limit q_offset q_order q_filters app fold_left order_key].
    rewrite !filter_filter_and. f_equal.
    apply filter_ext_in. intros s Hin. unfold sessions_tagged.
    destruct (session_policy e s) eqn:Hpol; [|reflexivity]. cbn [andb].
    destruct (N.eqb (StudySession.user_id s) userId); [|reflexivity]. cbn [andb].
    now apply tag_lookup_finds. }
  destruct tagData as [|g rest] eqn:Hdata; [|now rewrite Hrows].
  rewrite <- Hrows. f_equal.
  unfold run_query, q_order_by, q_in_id, q_eq_user_id, q_filter, from_study_sessions,
    paginate, apply_order, select_study_sessions.
  cbn [q_limit q_offset q_order q_filters app fold_left order_key map existsb].
  rewrite (filter_none (fun _ => false)) by reflexivity. reflexivity.
Qed.




(** X15.  A tag that was added is found: after a successful
    [addSessionTags] for a session of the caller, [getSessionsByTag] with any
    of the tags given, as it was given, lists that session. *)
Theorem added_tag_is_found (e : env) (d d' : database) (tags : list string)
    (rows : list StudySessionTag.t) (t : string) (s : StudySession.t) :
  addSessionTags e d (StudySession.id s) tags = (api_success rows, d') ->
  In t tags -> In s (study_sessions d) -> session_policy e s = true ->
  exists found,
    getSessionsByTag e d' (StudySession.user_id s) t = api_success found /\ In s found.
Proof.
  intros Hadd Ht Hin Hpol.
  destruct (addSessionTags_rows e d d' (StudySession.id s) tags rows Hadd)
    as [Htags [Hsid [Htbl [Hs _]]]].
  rewrite getSessionsByTag_answer. eexists. split; [reflexivity|].
  eapply Permutation_in; [symmetry; apply sort_rows_perm|].
  apply filter_In. rewrite Hs. split; [assumption|].
  unfold sessions_tagged. rewrite Hpol, N.eqb_refl. cbn [andb].
  assert (Hg : In (normalize_tag t) (map StudySessionTag.tag rows))
    by (rewrite Htags; now apply in_map).
  apply in_map_iff in Hg as [g [Hgt Hg]].
  apply existsb_exists. exists g. split.
  - rewrite Htbl. apply in_or_app. now right.
  - rewrite (Hsid g Hg), N.eqb_refl, Hgt. apply String.eqb_refl.
Qed.

Lemma added_tag_is_found_witness :
  In " Math "%string [" Math "; "EXAM"]%string
  /\ In (session_row 10%N owner_A t_2025_01_01_10h None) (study_sessions c4_database)
  /\ session_policy c4_request (session_row 10%N owner_A t_2025_01_01_10h None) = true
  /\ exists found,
       getSessionsByTag c4_request
         (snd (addSessionTags c4_request c4_database 10%N [" Math "; "EXAM"]%string))
         owner_A " Math "
       = api_success found
       /\ In (session_row 10%N owner_A t_2025_01_01_10h None) found.
Proof.
  split; [simpl; auto|]. split; [simpl; auto|]. split; [reflexivity|].
  pose (p := addSessionTags c4_request c4_database 10%N [" Math "; "EXAM"]%string).
  assert (H : p = (api_success (match data (fst p) with Some r => r | None => [] end),
                   snd p)) by (vm_compute; reflexivity).
  exact (added_tag_is_found c4_request c4_database (snd p) [" Math "; "EXAM"]%string _
           " Math "%string (session_row 10%N owner_A t_2025_01_01_10h None)
           H (or_introl eq_refl) (or_introl eq_refl) eq_refl).
Defined.

(* ================================================================== *)
(** * 28. Tasks                                                        *)
(* ================================================================== *)

Lemma task_order_total a b : task_order a b = true \/ task_order b a = true.
Proof.
  unfold task_order.
  destruct (Z.ltb_spec (Task.order_index a) (Task.order_index b)); [now left|].
  destruct (Z.ltb_spec (Task.order_index b) (Task.order_index a)); [now right|].
  assert (Heq : Task.order_index a = Task.order_index b) by lia.
  rewrite Heq, Z.eqb_refl. simpl.
  destruct (Z.leb_spec (Task.created_at b) (Task.created_at a)); [now left|].
  right. apply Z.leb_le. lia.
Qed.

Lemma task_order_trans a b c :
  task_order a b = true -> task_order b c = true -> task_order a c = true.
Proof.
  unfold task_order. rewrite !orb_true_iff, !andb_true_iff, !Z.ltb_lt, !Z.eqb_eq, !Z.leb_le.
  lia.
Qed.

Lemma getUserTasks_answer e d userId options :
  getUserTasks e d userId options
  = api_success
      (match tasks_limit options with
       | Some n => firstn (Z.to_nat n)
                     (sort_rows task_order (filter (tasks_wanted e userId options) (tasks d)))
       | None => sort_rows task_order (filter (tasks_wanted e userId options) (tasks d))
       end).
Proof.
  unfold getUserTasks, tasks_limit, tasks_wanted, select_tasks. cbv zeta.
  destruct options as [o|].
  - assert (Hrows :
      sort_rows task_order
        (match TaskListOptions.sessionId o with
         | Some sid =>
             filter (fun t => match Task.session_id t with
                              | Some i => N.eqb i sid
                              | None => false
                              end)
               (match TaskListOptions.completed o with
                | Some c => filter (fun t => sql_is_true (sql_eq_bool (Task.is_completed t) c))
                              (filter (fun t => N.eqb (Task.user_id t) userId)
                                 (filter (task_policy e) (tasks d)))
                | None => filter (fun t => N.eqb (Task.user_id t) userId)
                            (filter (task_policy e) (tasks d))
                end)
         | None =>
             match TaskListOptions.completed o with
             | Some c => filter (fun t => sql_is_true (sql_eq_bool (Task.is_completed t) c))
                           (filter (fun t => N.eqb (Task.user_id t) userId)
                              (filter (task_policy e) (tasks d)))
             | None => filter (fun t => N.eqb (Task.user_id t) userId)
                         (filter (task_policy e) (tasks d))
             end
         end)
      = sort_rows task_order
          (filter (fun t => task_policy e t && N.eqb (Task.user_id t) userId
                            && (match TaskListOptions.completed o with
                                | Some c => sql_is_true (sql_eq_bool (Task.is_completed t) c)
                                | None => true
                                end
                                && match TaskListOptions.sessionId o with
                                   | Some sid => match Task.session_id t with
                                                 | Some i => N.eqb i sid
                                                 | None => false
                                                 end
                                   | None => true
                                   end)) (tasks d))).
    { f_equal.
      destruct (TaskListOptions.sessionId o), (TaskListOptions.completed o);
        rewrite !filter_filter_and; apply filter_pointwise; intros t;
        destruct (task_policy e t), (N.eqb (Task.user_id t) userId);
        cbn [andb]; rewrite ?andb_true_r; reflexivity. }
    rewrite Hrows. destruct (truthy (TaskListOptions.limit o)) eqn:Hl; [|reflexivity].
    unfold paginate. destruct (TaskListOptions.limit o); [reflexivity|discriminate].
  - cbn [truthy]. do 2 f_equal. rewrite filter_filter_and.
    apply filter_pointwise. intros t. now rewrite andb_true_r.
Qed.

(** X16.  [getUserTasks] answers with the tasks of [userId] that the caller
    may see and that have the completion status and the session asked for,
    ordered by [order_index], lowest first, and among equal ones by
    [created_at], latest first; of these it gives the first [limit] ones.
    A [limit] of 0 is not a limit: all of them are given. *)
Theorem getUserTasks_content (e : env) (d : database) (userId : uuid)
    (options : option TaskListOptions.t) :
  (forall n, tasks_limit options = Some n -> 0 < n) ->
  exists all,
    Permutation all (filter (tasks_wanted e userId options) (tasks d))
    /\ StronglySorted (fun a b => task_order a b = true) all
    /\ getUserTasks e d userId options
       = api_success (match tasks_limit options with
                      | Some n => firstn (Z.to_nat n) all
                      | None => all
                      end)
    /\ (auth_uid e <> Some userId -> all = []).
Proof.
  intros _. rewrite getUserTasks_answer.
  exists (sort_rows task_order (filter (tasks_wanted e userId options) (tasks d))).
  split; [apply sort_rows_perm|]. split.
  { apply sort_rows_sorted; [apply task_order_total|apply task_order_trans]. }
  split; [reflexivity|].
  intros Hother.
  rewrite (filter_none (tasks_wanted e userId options) (tasks d)); [reflexivity|].
  intros t _. unfold tasks_wanted, task_policy, auth_uid_is.
  destruct (auth_uid e) as [u|]; [|reflexivity].
  destruct (N.eqb_spec u (Task.user_id t)) as [Hu|]; [|reflexivity].
  destruct (N.eqb_spec (Task.user_id t) userId) as [Hs|]; [|reflexivity].
  exfalso. apply Hother. congruence.
Qed.

Lemma getUserTasks_content_witness :
  (forall n, tasks_limit (Some (TaskListOptions.mk None None (Some 2))) = Some n -> 0 < n)
  /\ exists all,
       Permutation all
         (filter (tasks_wanted tasks_request owner_A
                    (Some (TaskListOptions.mk None None (Some 2))))
                 (tasks tasks_database))
       /\ StronglySorted (fun a b => task_order a b = true) all
       /\ getUserTasks tasks_request tasks_database owner_A
            (Some (TaskListOptions.mk None None (Some 2)))
          = api_success (firstn 2 all)
       /\ (auth_uid tasks_request <> Some owner_A -> all = []).
Proof.
  assert (H : forall n, tasks_limit (Some (TaskListOptions.mk None None (Some 2))) = Some n
                        -> 0 < n)
    by (intros n Hn; injection Hn as <-; lia).
  split; [exact H|].
  exact (getUserTasks_content tasks_request tasks_database owner_A
           (Some (TaskListOptions.mk None None (Some 2))) H).
Defined.

(** The page of the witness: the two tasks of owner A with the lowest
    [order_index], the later one first. *)
Lemma getUserTasks_first_two :
  option_map (map Task.id)
    (data (getUserTasks tasks_request tasks_database owner_A
             (Some (TaskListOptions.mk None None (Some 2)))))
  = Some [23%N; 21%N].
Proof. vm_compute. reflexivity. Qed.

(* ------------------------------------------------------------------ *)
(** ** An UPDATE by key                                                 *)
(* ------------------------------------------------------------------ *)

Section UpdateByKey.
Context {A : Type} (key : A -> uuid) (pol : A -> bool) (f : A -> result A).

Lemma key_unique_elsewhere (rows : list A) (r0 : A) :
  ~ In (key r0) (map key rows) ->
  forall r, In r rows -> N.eqb (key r) (key r0) = false.
Proof.
  intros Hnotin r Hr. apply N.eqb_neq. intros Heq. apply Hnotin. rewrite <- Heq.
  now apply in_map.
Qed.

Lemma update_rows_by_key (rows : list A) (r0 r1 : A) :
  NoDup (map key rows) -> In r0 rows -> pol r0 = true -> f r0 = inr r1 ->
  update_rows (fun r => pol r && N.eqb (key r) (key r0)) f rows
  = inr (map (fun r => if N.eqb (key r) (key r0) then r1 else r) rows, [r1]).
Proof.
  intros Hnd Hin Hpol Hf.
  induction rows as [|r rest IH]; [contradiction|].
  simpl in Hnd. apply NoDup_cons_iff in Hnd as [Hnotin Hnd].
  destruct Hin as [->|Hin].
  - simpl. rewrite Hpol, N.eqb_refl. simpl. rewrite Hf. simpl.
    pose proof (key_unique_elsewhere rest r0 Hnotin) as Hrest.
    rewrite update_rows_none_selected
      by (intros s Hs; rewrite (Hrest s Hs); apply andb_false_r).
    simpl. unfold ret. f_equal. f_equal. f_equal.
    rewrite <- (map_id rest) at 1. apply map_ext_in.
    intros s Hs. now rewrite (Hrest s Hs).
  - assert (Hne : N.eqb (key r) (key r0) = false).
    { apply N.eqb_neq. intros Heq. apply Hnotin. rewrite Heq. now apply in_map. }
    simpl. rewrite Hne, andb_false_r. rewrite (IH Hnd Hin). reflexivity.
Qed.

Lemma select_by_key (rows : list A) (r0 : A) :
  NoDup (map key rows) -> In r0 rows -> pol r0 = true ->
  filter (fun r => N.eqb (key r) (key r0)) (filter pol rows) = [r0].
Proof.
  intros Hnd Hin Hpol.
  induction rows as [|r rest IH]; [contradiction|].
  simpl in Hnd. apply NoDup_cons_iff in Hnd as [Hnotin Hnd].
  destruct Hin as [->|Hin].
  - simpl. rewrite Hpol. simpl. rewrite N.eqb_refl. f_equal.
    apply filter_none. intros s Hs. apply filter_In in Hs as [Hs _].
    now apply (key_unique_elsewhere rest r0 Hnotin).
  - assert (Hne : N.eqb (key r) (key r0) = false).
    { apply N.eqb_neq. intros Heq. apply Hnotin. rewrite Heq. now apply in_map. }
    simpl. destruct (pol r); simpl; rewrite ?Hne; now apply IH.
Qed.

End UpdateByKey.

(* ------------------------------------------------------------------ *)
(** ** [toggleTaskCompletion]                                           *)
(* ------------------------------------------------------------------ *)

Lemma toggle_row e d t :
  task_policy e t = true -> task_storable d t ->
  task_update_row e d (only_is_completed (js_not (Task.is_completed t))) t
  = inr (toggled e t).
Proof.
  intros Hpol [Hne [Hlen Hfk]]. unfold task_update_row, only_is_completed.
  cbn [TaskUpdate.title TaskUpdate.priority TaskUpdate.order_index or_keep int4_column].
  rewrite varchar_short by assumption. cbn [bind ret guard andb].
  assert (Hnew : task_before_update e t
                   (apply_task_update
                      (TaskUpdate.mk None None (Some (js_not (Task.is_completed t)))
                         None None None None) t (Task.title t))
                 = toggled e t).
  { unfold task_before_update, set_task_completed_at, apply_task_update, toggled.
    destruct t as [id uid sid title desc [[|]|] cat prio due created updated oi];
      reflexivity. }
  rewrite Hnew.
  assert (Hpol' : task_policy e (toggled e t) = true) by exact Hpol.
  assert (Hne' : title_not_empty (toggled e t) = true) by exact Hne.
  assert (Hfk' : task_session_fk d (toggled e t) = true) by exact Hfk.
  rewrite Hpol', Hne', Hfk'. reflexivity.
Qed.

Lemma toggle_own_task (e : env) (d : database) (t : Task.t) :
  NoDup (map Task.id (tasks d)) -> In t (tasks d) ->
  task_policy e t = true -> task_storable d t ->
  toggleTaskCompletion e d (Task.id t)
  = (api_success (toggled e t), with_tasks d (replace_task (toggled e t) (tasks d))).
Proof.
  intros Hnd Hin Hpol Hst. unfold toggleTaskCompletion, select_tasks.
  rewrite (select_by_key Task.id (task_policy e) (tasks d) t Hnd Hin Hpol).
  cbn [single ret]. unfold updateTask, update_tasks.
  rewrite (update_rows_by_key Task.id (task_policy e) _ (tasks d) t (toggled e t)
             Hnd Hin Hpol (toggle_row e d t Hpol Hst)).
  reflexivity.
Qed.

Lemma replace_task_ids (t1 : Task.t) (rows : list Task.t) :
  map Task.id (replace_task t1 rows) = map Task.id rows.
Proof.
  unfold replace_task. rewrite map_map. apply map_ext. intros t.
  destruct (N.eqb_spec (Task.id t) (Task.id t1)) as [Heq|]; [now rewrite Heq|reflexivity].
Qed.

Lemma replace_task_in (t0 t1 : Task.t) (rows : list Task.t) :
  In t0 rows -> Task.id t0 = Task.id t1 -> In t1 (replace_task t1 rows).
Proof.
  intros Hin Hid. unfold replace_task. apply in_map_iff. exists t0.
  rewrite Hid, N.eqb_refl. auto.
Qed.

Lemma replace_task_twice (t1 t2 : Task.t) (rows : list Task.t) :
  Task.id t2 = Task.id t1 ->
  replace_task t2 (replace_task t1 rows) = replace_task t2 rows.
Proof.
  intros Hid. unfold replace_task. rewrite map_map. apply map_ext. intros t.
  rewrite Hid. destruct (N.eqb (Task.id t) (Task.id t1)) eqn:Ht.
  - now rewrite N.eqb_refl.
  - now rewrite Ht.
Qed.

(** X17.  [toggleTaskCompletion] of a task of the caller, in a table whose
    keys are unique, succeeds and answers with the task changed in three
    columns only: [is_completed] is negated, [completed_at] is the instant of
    the call if the task has just been completed and absent if it has just
    been reopened, and [updated_at] is the instant of the call.  That row
    replaces the old one, [getTask] then answers with it, and every other
    task is still stored as it was. *)
Theorem toggleTaskCompletion_flips (e : env) (d : database) (t : Task.t) :
  NoDup (map Task.id (tasks d)) -> In t (tasks d) ->
  task_policy e t = true -> task_storable d t ->
  toggleTaskCompletion e d (Task.id t)
  = (api_success (toggled e t), with_tasks d (replace_task (toggled e t) (tasks d)))
  /\ getTask e (snd (toggleTaskCompletion e d (Task.id t))) (Task.id t)
     = api_success (toggled e t)
  /\ (forall t', In t' (tasks d) -> Task.id t' <> Task.id t ->
                 In t' (tasks (snd (toggleTaskCompletion e d (Task.id t))))).
Proof.
  intros Hnd Hin Hpol Hst. rewrite (toggle_own_task e d t Hnd Hin Hpol Hst).
  cbn [snd tasks with_tasks]. split; [reflexivity|]. split.
  - assert (Hnd' : NoDup (map Task.id (replace_task (toggled e t) (tasks d))))
      by now rewrite replace_task_ids.
    assert (Hin' : In (toggled e t) (replace_task (toggled e t) (tasks d)))
      by now apply (replace_task_in t).
    pose proof (select_by_key Task.id (task_policy e) _ (toggled e t) Hnd' Hin' Hpol)
      as Hsel.
    exact (f_equal (fun rows => respond_read (single rows)) Hsel).
  - intros t' Hin' Hne. unfold replace_task. apply in_map_iff. exists t'.
    split; [|assumption].
    destruct (N.eqb_spec (Task.id t') (Task.id (toggled e t))) as [Heq|]; [|reflexivity].
    contradiction.
Qed.

Lemma toggleTaskCompletion_flips_witness :
  NoDup (map Task.id (tasks tasks_database))
  /\ task_policy tasks_request
       (Task.mk 21%N owner_A None "write" None (Some false) None 0 None
          (t_2025_01_01_10h + minutes 1) (t_2025_01_01_10h + minutes 1) 1) = true
  /\ option_map (fun t => (Task.is_completed t, Task.completed_at t))
       (data (fst (toggleTaskCompletion tasks_request tasks_database 21%N)))
     = Some (Some true, Some (t_2025_01_01_10h + minutes 20))
  /\ map Task.is_completed
       (tasks (snd (toggleTaskCompletion tasks_request tasks_database 21%N)))
     = [Some true; Some true; Some false; Some false].
Proof.
  assert (Hnd : NoDup (map Task.id (tasks tasks_database)))
    by (simpl; repeat constructor; simpl; intuition discriminate).
  split; [exact Hnd|]. split; [reflexivity|].
  assert (Hin : In (Task.mk 21%N owner_A None "write" None (Some false) None 0 None
                      (t_2025_01_01_10h + minutes 1) (t_2025_01_01_10h + minutes 1) 1)
                   (tasks tasks_database)) by (simpl; auto).
  assert (Hst : task_storable tasks_database
                  (Task.mk 21%N owner_A None "write" None (Some false) None 0 None
                     (t_2025_01_01_10h + minutes 1) (t_2025_01_01_10h + minutes 1) 1)).
  { split; [reflexivity|]. split; [simpl; lia|reflexivity]. }
  destruct (toggleTaskCompletion_flips tasks_request tasks_database _
              Hnd Hin eq_refl Hst) as [H _].
  cbn [Task.id] in H. rewrite H. split; reflexivity.
Defined.

(** X18.  Toggling twice gives the completion status back: after two calls
    of [toggleTaskCompletion] for a task of the caller that is completed or
    not (its [is_completed] is not null), [is_completed] is what it was;
    [completed_at] is absent if the task was open, and the instant of the
    second call, not the original one, if it was completed.  Every other
    task is the row it was before the two calls. *)
Theorem toggle_twice (e e' : env) (d : database) (t : Task.t) (b : bool) :
  NoDup (map Task.id (tasks d)) -> In t (tasks d) ->
  task_policy e t = true -> auth_uid e' = auth_uid e -> task_storable d t ->
  Task.is_completed t = Some b ->
  exists t2,
    toggleTaskCompletion e' (snd (toggleTaskCompletion e d (Task.id t))) (Task.id t)
    = (api_success t2, with_tasks d (replace_task t2 (tasks d)))
    /\ Task.is_completed t2 = Some b
    /\ Task.completed_at t2 = (if b then Some (pg_now e') else None)
    /\ Task.id t2 = Task.id t.
Proof.
  intros Hnd Hin Hpol Hauth Hst Hb.
  rewrite (toggle_own_task e d t Hnd Hin Hpol Hst). cbn [snd].
  set (d1 := with_tasks d (replace_task (toggled e t) (tasks d))).
  assert (Hnd1 : NoDup (map Task.id (tasks d1)))
    by (unfold d1; cbn [tasks with_tasks]; now rewrite replace_task_ids).
  assert (Hin1 : In (toggled e t) (tasks d1))
    by (unfold d1; cbn [tasks with_tasks]; now apply (replace_task_in t)).
  assert (Hpol1 : task_policy e' (toggled e t) = true).
  { unfold task_policy, auth_uid_is in *. cbn [toggled Task.user_id]. now rewrite Hauth. }
  assert (Hst1 : task_storable d1 (toggled e t)) by exact Hst.
  pose proof (toggle_own_task e' d1 (toggled e t) Hnd1 Hin1 Hpol1 Hst1) as H2.
  change (Task.id (toggled e t)) with (Task.id t) in H2.
  exists (toggled e' (toggled e t)). split.
  - rewrite H2. f_equal. unfold d1, with_tasks. cbn [tasks study_sessions
      study_session_tags next_uuid]. f_equal. now apply replace_task_twice.
  - unfold toggled. cbn [Task.is_completed Task.completed_at Task.id]. rewrite Hb.
    destruct b; auto.
Qed.

Lemma toggle_twice_witness :
  NoDup (map Task.id (tasks tasks_database))
  /\ auth_uid (request owner_A (t_2025_01_01_10h + minutes 30)) = auth_uid tasks_request
  /\ exists t2,
       toggleTaskCompletion (request owner_A (t_2025_01_01_10h + minutes 30))
         (snd (toggleTaskCompletion tasks_request tasks_database 20%N)) 20%N
       = (api_success t2, with_tasks tasks_database (replace_task t2 (tasks tasks_database)))
       /\ Task.is_completed t2 = Some true
       /\ Task.completed_at t2 = Some (t_2025_01_01_10h + minutes 30)
       /\ Task.id t2 = 20%N.
Proof.
  assert (Hnd : NoDup (map Task.id (tasks tasks_database)))
    by (simpl; repeat constructor; simpl; intuition discriminate).
  split; [exact Hnd|]. split; [reflexivity|].
  assert (Hst : task_storable tasks_database
                  (Task.mk 20%N owner_A (Some 10%N) "read" None (Some true)
                     (Some (t_2025_01_01_10h + minutes 5)) 0 None
                     t_2025_01_01_10h t_2025_01_01_10h 2)).
  { split; [reflexivity|]. split; [simpl; lia|reflexivity]. }
  exact (toggle_twice tasks_request (request owner_A (t_2025_01_01_10h + minutes 30))
           tasks_database
           (Task.mk 20%N owner_A (Some 10%N) "read" None (Some true)
              (Some (t_2025_01_01_10h + minutes 5)) 0 None
              t_2025_01_01_10h t_2025_01_01_10h 2)
           true Hnd (or_introl eq_refl) eq_refl eq_refl Hst eq_refl).
Defined.

(* ------------------------------------------------------------------ *)
(** ** [reorderTasks]                                                   *)
(* ------------------------------------------------------------------ *)

Lemma update_rows_map {A} (sel : A -> bool) (f : A -> result A) (g : A -> A)
    (rows : list A) :
  (forall r, In r rows -> sel r = true -> f r = inr (g r)) ->
  update_rows sel f rows
  = inr (map (fun r => if sel r then g r else r) rows, map g (filter sel rows)).
Proof.
  induction rows as [|r rest IH]; intros H; simpl; [reflexivity|].
  rewrite IH by (intros; apply H; [now right|assumption]).
  destruct (sel r) eqn:Hsel.
  - rewrite (H r (or_introl eq_refl) Hsel). reflexivity.
  - reflexivity.
Qed.

Lemma reorder_row e d k t :
  in_int4 k = true -> task_policy e t = true -> task_storable d t ->
  task_update_row e d (TaskUpdate.mk None None None None None (Some k) None) t
  = inr (reordered e k t).
Proof.
  intros Hk Hpol [Hne [Hlen Hfk]]. unfold task_update_row.
  cbn [TaskUpdate.title TaskUpdate.priority TaskUpdate.order_index or_keep int4_column].
  rewrite varchar_short by assumption. rewrite Hk. cbn [bind ret guard andb].
  assert (Hnew : task_before_update e t
                   (apply_task_update
                      (TaskUpdate.mk None None None None None (Some k) None) t (Task.title t))
                 = reordered e k t).
  { unfold task_before_update, set_task_completed_at, apply_task_update, reordered.
    destruct t as [id uid sid title desc [[|]|] cat prio due created updated oi];
      reflexivity. }
  rewrite Hnew.
  assert (Hpol' : task_policy e (reordered e k t) = true) by exact Hpol.
  assert (Hne' : title_not_empty (reordered e k t) = true) by exact Hne.
  assert (Hfk' : task_session_fk d (reordered e k t) = true) by exact Hfk.
  rewrite Hpol', Hne', Hfk'. reflexivity.
Qed.

Lemma with_tasks_same (d : database) : with_tasks d (tasks d) = d.
Proof. now destruct d. Qed.

Lemma apply_reorder_keeps e d t upd :
  (task_policy e t = true -> task_storable d t) ->
  task_policy e (apply_reorder e t upd) = task_policy e t
  /\ (task_policy e (apply_reorder e t upd) = true ->
      task_storable d (apply_reorder e t upd)).
Proof.
  intros H. unfold apply_reorder.
  destruct (task_policy e t && N.eqb (Task.id t) (fst upd)); [|auto].
  split; [reflexivity|]. intros Hp. exact (H Hp).
Qed.

Lemma reorderTasks_in_turn e d (taskUpdates : list (uuid * Z)) :
  (forall upd, In upd taskUpdates -> in_int4 (snd upd) = true) ->
  (forall t, In t (tasks d) -> task_policy e t = true -> task_storable d t) ->
  reorderTasks e d taskUpdates
  = (api_success_null,
     with_tasks d (map (fun t => fold_left (apply_reorder e) taskUpdates t) (tasks d))).
Proof.
  unfold reorderTasks. intros Hk Hst. f_equal. revert d Hst.
  induction taskUpdates as [|[id k] rest IH]; intros d Hst.
  - simpl. rewrite map_id. symmetry. apply with_tasks_same.
  - cbn [fold_left].
    assert (Hstep : update_tasks e d id (TaskUpdate.mk None None None None None (Some k) None)
                    = inr (map (reordered e k)
                             (filter (fun t => task_policy e t && N.eqb (Task.id t) id)
                                     (tasks d)),
                           with_tasks d (map (fun t => apply_reorder e t (id, k)) (tasks d)))).
    { unfold update_tasks.
      rewrite (update_rows_map _ _ (reordered e k)).
      - reflexivity.
      - intros t Hin Hsel. apply andb_prop in Hsel as [Hpol _].
        apply reorder_row; [exact (Hk (id, k) (or_introl eq_refl))|assumption|auto]. }
    rewrite Hstep.
    rewrite IH.
    + unfold with_tasks. cbn [tasks study_sessions study_session_tags next_uuid].
      now rewrite map_map.
    + intros upd Hin. apply Hk. now right.
    + cbn [tasks with_tasks]. intros t' Hin' Hpol'.
      apply in_map_iff in Hin' as [t [<- Hin]].
      destruct (apply_reorder_keeps e d t (id, k) (Hst t Hin)) as [_ Hkeep].
      exact (Hkeep Hpol').
Qed.

Lemma apply_reorder_id e t upd : Task.id (apply_reorder e t upd) = Task.id t.
Proof. unfold apply_reorder. now destruct (_ && _). Qed.

Lemma reorder_no_entry e (taskUpdates : list (uuid * Z)) t :
  ~ In (Task.id t) (map fst taskUpdates) ->
  fold_left (apply_reorder e) taskUpdates t = t.
Proof.
  revert t. induction taskUpdates as [|upd rest IH]; intros t Hnotin; [reflexivity|].
  simpl in *. assert (Hne : N.eqb (Task.id t) (fst upd) = false).
  { apply N.eqb_neq. intros Heq. apply Hnotin. now left. }
  unfold apply_reorder at 2. rewrite Hne, andb_false_r. apply IH. tauto.
Qed.

Lemma reorder_distinct_entries e (taskUpdates : list (uuid * Z)) t :
  NoDup (map fst taskUpdates) ->
  fold_left (apply_reorder e) taskUpdates t = reorder_all e taskUpdates t.
Proof.
  unfold reorder_all. revert t.
  induction taskUpdates as [|upd rest IH]; intros t Hnd; [reflexivity|].
  simpl in Hnd. apply NoDup_cons_iff in Hnd as [Hnotin Hnd]. cbn [fold_left find].
  match goal with
  | |- context [if ?c then Some upd else _] => destruct c eqn:Hid
  end.
  - apply reorder_no_entry. rewrite apply_reorder_id.
    apply N.eqb_eq in Hid. now rewrite Hid.
  - assert (Hsame : apply_reorder e t upd = t).
    { unfold apply_reorder.
      match goal with
      | |- (if _ && ?c then _ else _) = _ =>
          replace c with false by (symmetry; exact Hid)
      end.
      now rewrite andb_false_r. }
    rewrite Hsame. now apply IH.
Qed.

(** X19.  [reorderTasks] with entries that name different tasks and indexes
    that fit an INTEGER, on tasks that pass their checks: every task of the
    caller named by an entry gets the entry's [order_index], and its
    [updated_at] is the instant of the call; an entry for a task the caller
    may not see, or for no task, does nothing.  No other column changes,
    except that [completed_at] of a task that is not completed is cleared.
    The answer is a success in every case. *)
Theorem reorderTasks_sets_order_index (e : env) (d : database)
    (taskUpdates : list (uuid * Z)) :
  NoDup (map fst taskUpdates) ->
  (forall upd, In upd taskUpdates -> in_int4 (snd upd) = true) ->
  (forall t, In t (tasks d) -> task_policy e t = true -> task_storable d t) ->
  reorderTasks e d taskUpdates
  = (api_success_null, with_tasks d (map (reorder_all e taskUpdates) (tasks d))).
Proof.
  intros Hnd Hk Hst. rewrite (reorderTasks_in_turn e d taskUpdates Hk Hst).
  do 2 f_equal. apply map_ext. intros t. now apply reorder_distinct_entries.
Qed.

Lemma reorderTasks_sets_order_index_witness :
  NoDup (map fst [(20%N, 3); (22%N, 7); (23%N, 5); (99%N, 1)])
  /\ Forall (fun upd => in_int4 (snd upd) = true) [(20%N, 3); (22%N, 7); (23%N, 5); (99%N, 1)]
  /\ map (fun t => (Task.id t, Task.order_index t))
       (tasks (snd (reorderTasks tasks_request tasks_database
                      [(20%N, 3); (22%N, 7); (23%N, 5); (99%N, 1)])))
     = [(20%N, 3); (21%N, 1); (22%N, 0); (23%N, 5)].
Proof.
  assert (Hnd : NoDup (map fst [(20%N, 3); (22%N, 7); (23%N, 5); (99%N, 1)]))
    by (simpl; repeat constructor; simpl; intuition discriminate).
  assert (Hk : forall upd, In upd [(20%N, 3); (22%N, 7); (23%N, 5); (99%N, 1)] ->
                           in_int4 (snd upd) = true).
  { intros upd Hin. simpl in Hin.
    repeat (destruct Hin as [<-|Hin]; [reflexivity|]). contradiction. }
  split; [exact Hnd|]. split; [now apply Forall_forall|].
  assert (Hst : forall t, In t (tasks tasks_database) -> task_policy tasks_request t = true ->
                          task_storable tasks_database t).
  { intros t Hin _. simpl in Hin.
    repeat (destruct Hin as [<-|Hin];
            [split; [reflexivity|split; [simpl; lia|reflexivity]]|]).
    contradiction. }
  rewrite (reorderTasks_sets_order_index tasks_request tasks_database _ Hnd Hk Hst).
  reflexivity.
Defined.

(* ================================================================== *)
(** * 29. Sessions: reopening, and what the views count                *)
(* ================================================================== *)

(** X20.  Taking the [end_time] of a session away does not take its
    duration away: [updateSession] with [{ end_time: null }] on a session of
    the caller whose ratings pass their checks succeeds, and the row it
    leaves has no [end_time] but the [duration_minutes] it had, since the
    trigger computes a duration only when both timestamps are there.  The
    session counts as active again while it still carries the duration of
    its earlier end. *)
Theorem reopened_session_keeps_duration (e : env) (d : database) (s : StudySession.t) :
  NoDup (session_ids d) -> In s (study_sessions d) -> session_policy e s = true ->
  rating_check (StudySession.mood_rating s) = true ->
  rating_check (StudySession.productivity_rating s) = true ->
  updateSession e d (StudySession.id s) reopen_update
  = (api_success (reopened e s),
     with_study_sessions d (replace_session (reopened e s) (study_sessions d)))
  /\ StudySession.end_time (reopened e s) = None
  /\ StudySession.duration_minutes (reopened e s) = StudySession.duration_minutes s
  /\ active_session_of e (StudySession.user_id s) (reopened e s) = true.
Proof.
  intros Hnd Hin Hpol Hmood Hprod.
  assert (Hrow : session_update_row e reopen_update s = inr (reopened e s)).
  { unfold session_update_row, reopen_update.
    cbn [StudySessionUpdate.mood_rating StudySessionUpdate.productivity_rating or_keep
         StudySessionUpdate.session_notes StudySessionUpdate.ai_feedback
         StudySessionUpdate.google_calendar_event_id text_ok_given varchar_given
         int4_column andb guard bind ret].
    unfold with_google_calendar_event_id.
    cbn [StudySessionUpdate.end_time StudySessionUpdate.session_notes
         StudySessionUpdate.mood_rating StudySessionUpdate.productivity_rating
         StudySessionUpdate.ai_feedback StudySessionUpdate.ai_feedback_generated_at
         StudySessionUpdate.google_calendar_event_id].
    unfold calculate_session_duration, apply_session_update.
    cbn [StudySession.end_time StudySessionUpdate.end_time or_keep bind ret].
    unfold update_session_updated_at, set_session_updated_at.
    cbn [StudySession.id StudySession.user_id StudySession.session_type
         StudySession.start_time StudySession.end_time StudySession.duration_minutes
         StudySession.target_duration_minutes StudySession.session_notes
         StudySession.mood_rating StudySession.productivity_rating
         StudySession.ai_feedback StudySession.ai_feedback_generated_at
         StudySession.google_calendar_event_id StudySession.created_at
         StudySessionUpdate.session_notes StudySessionUpdate.mood_rating
         StudySessionUpdate.productivity_rating StudySessionUpdate.ai_feedback
         StudySessionUpdate.ai_feedback_generated_at
         StudySessionUpdate.google_calendar_event_id or_keep].
    fold (reopened e s).
    assert (Hp : session_policy e (reopened e s) = true) by exact Hpol.
    assert (Hc : study_session_checks (reopened e s) = true).
    { unfold study_session_checks, valid_duration. cbn [reopened StudySession.mood_rating
        StudySession.productivity_rating StudySession.end_time].
      now rewrite Hmood, Hprod. }
    rewrite Hp, Hc. reflexivity. }
  split.
  - unfold updateSession, update_study_sessions.
    rewrite (update_rows_one_selected e _ (study_sessions d) s (reopened e s)
               Hnd Hin Hpol Hrow eq_refl).
    reflexivity.
  - split; [reflexivity|]. split; [reflexivity|].
    unfold active_session_of. cbn [reopened StudySession.user_id StudySession.end_time].
    assert (Hp : session_policy e (reopened e s) = true) by exact Hpol.
    rewrite Hp, N.eqb_refl. reflexivity.
Qed.

Lemma reopened_session_keeps_duration_witness :
  NoDup (session_ids cascade_database)
  /\ rating_check (StudySession.mood_rating
                     (session_row 10%N owner_A t_2025_01_01_10h (Some (minutes 30)))) = true
  /\ option_map (fun s => (StudySession.end_time s, StudySession.duration_minutes s))
       (data (fst (updateSession cascade_request cascade_database 10%N reopen_update)))
     = Some (None, Some 30).
Proof.
  assert (Hnd : NoDup (session_ids cascade_database)).
  { unfold session_ids. simpl. repeat constructor; simpl; intuition discriminate. }
  split; [exact Hnd|]. split; [reflexivity|].
  destruct (reopened_session_keeps_duration cascade_request cascade_database
              (session_row 10%N owner_A t_2025_01_01_10h (Some (minutes 30)))
              Hnd (or_introl eq_refl) eq_refl eq_refl eq_refl) as [H _].
  cbn [StudySession.id session_row] in H. rewrite H. reflexivity.
Defined.

(* ------------------------------------------------------------------ *)
(** ** [user_study_stats]                                               *)
(* ------------------------------------------------------------------ *)

Lemma fold_max_upper (v : Z) (vs : list Z) :
  v <= fold_right Z.max v vs /\ forall x, In x vs -> x <= fold_right Z.max v vs.
Proof.
  induction vs as [|y vs [IH1 IH2]]; simpl; [split; [lia|intros x []]|].
  split; [lia|]. intros x [<-|Hx]; [lia|]. specialize (IH2 x Hx). lia.
Qed.

Lemma fold_max_in (v : Z) (vs : list Z) : In (fold_right Z.max v vs) (v :: vs).
Proof.
  induction vs as [|y vs IH]; simpl; [now left|].
  destruct (Z.max_spec y (fold_right Z.max v vs)) as [[_ ->]|[_ ->]].
  - simpl in IH. tauto.
  - right. now left.
Qed.

(** X21.  The numbers of [getUserStats] fit together: when it succeeds, the
    owner has at least one ended session; [sessions_this_week] is at most
    [sessions_this_month], which is at most [total_sessions], the number of
    the owner's ended sessions; and [last_session_date] is the [start_time]
    of one of them, no earlier than that of any other. *)
Theorem getUserStats_consistent (e : env) (d : database) (owner : uuid)
    (st : UserStudyStats.t) :
  getUserStats e d owner = api_success st ->
  UserStudyStats.user_id st = owner
  /\ UserStudyStats.total_sessions st = COUNT (ended_sessions_of d owner)
  /\ 1 <= UserStudyStats.total_sessions st
  /\ 0 <= UserStudyStats.sessions_this_week st
     <= UserStudyStats.sessions_this_month st
  /\ UserStudyStats.sessions_this_month st <= UserStudyStats.total_sessions st
  /\ exists latest,
       UserStudyStats.last_session_date st = Some (StudySession.start_time latest)
       /\ In latest (ended_sessions_of d owner)
       /\ forall s, In s (ended_sessions_of d owner) ->
                    StudySession.start_time s <= StudySession.start_time latest.
Proof.
  unfold getUserStats. rewrite user_study_stats_of_owner.
  destruct (ended_sessions_of d owner) as [|s0 g] eqn:Hg; [discriminate|].
  cbn [single ret respond_read]. intros H.
  assert (Hst : st = user_study_stats_group e owner (s0 :: g)).
  { unfold api_success in H. now injection H as <-. }
  subst st. cbn [user_study_stats_group UserStudyStats.user_id
                 UserStudyStats.total_sessions UserStudyStats.sessions_this_week
                 UserStudyStats.sessions_this_month UserStudyStats.last_session_date].
  split; [reflexivity|]. split; [reflexivity|]. unfold COUNT.
  split; [simpl; lia|]. split; [split; [lia|]|split].
  - apply inj_le. apply filter_length_le. intros s. rewrite !Z.leb_le.
    unfold INTERVAL_days, usec_per_day, usec_per_sec. lia.
  - apply inj_le. rewrite <- (filter_all_true (s0 :: g)) at 2.
    apply filter_length_le. reflexivity.
  - cbn [map MAX].
    pose proof (fold_max_in (StudySession.start_time s0) (map StudySession.start_time g))
      as Hin.
    change (StudySession.start_time s0 :: map StudySession.start_time g)
      with (map StudySession.start_time (s0 :: g)) in Hin.
    apply in_map_iff in Hin as [latest [Heq Hin]].
    exists latest. split; [now rewrite Heq|]. split; [assumption|].
    intros s Hs. rewrite Heq.
    destruct (fold_max_upper (StudySession.start_time s0) (map StudySession.start_time g))
      as [H0 Hrest].
    destruct Hs as [<-|Hs]; [assumption|]. apply Hrest. now apply in_map.
Qed.

Lemma getUserStats_consistent_witness :
  exists st,
    getUserStats c6_request c6_one_ended owner_A = api_success st
    /\ UserStudyStats.total_sessions st = 1
    /\ UserStudyStats.sessions_this_month st <= UserStudyStats.total_sessions st.
Proof.
  pose (r := getUserStats c6_request c6_one_ended owner_A).
  assert (H : exists st, r = api_success st)
    by (vm_compute; eexists; reflexivity).
  destruct H as [st H]. exists st. split; [exact H|].
  destruct (getUserStats_consistent c6_request c6_one_ended owner_A st H)
    as [_ [Ht [_ [_ [Hm _]]]]].
  split; [exact Ht|exact Hm].
Defined.

(* ================================================================== *)
(** * 30. [daily_study_summary]                                        *)
(* ================================================================== *)

Lemma day_key_eqb_eq (k k' : uuid * Z) : day_key_eqb k k' = true <-> k = k'.
Proof.
  unfold day_key_eqb. destruct k as [u x], k' as [u' x']. simpl.
  rewrite andb_true_iff, N.eqb_eq, Z.eqb_eq. split.
  - intros [-> ->]. reflexivity.
  - intros H. injection H as -> ->. auto.
Qed.





(** The keys of the groups the answer is made of. *)
Lemma getDailySummary_answer e d userId dateRange :
  getDailySummary e d userId dateRange
  = api_success
      (sort_rows (fun a b => DailyStudySummary.study_date b <=? DailyStudySummary.study_date a)
         (map (fun k => daily_study_summary_group k
                          (filter (fun s => day_key_eqb (day_key e s) k)
                                  (filter (fun s => is_some (StudySession.end_time s))
                                          (study_sessions d))))
              (filter (fun k => N.eqb (fst k) userId && in_date_range dateRange (snd k))
                      (nodup day_key_eq_dec
                         (map (day_key e)
                              (filter (fun s => is_some (StudySession.end_time s))
                                      (study_sessions d))))))).
Proof.
  unfold getDailySummary, daily_study_summary. cbv zeta. do 2 f_equal.
  rewrite filter_map_swap.
  cbn [daily_study_summary_group DailyStudySummary.user_id].
  destruct dateRange as [r|].
  - rewrite filter_map_swap, filter_filter_and.
    cbn [daily_study_summary_group DailyStudySummary.study_date in_date_range].
    reflexivity.
  - f_equal. apply filter_pointwise. intros k. cbn [in_date_range].
    now rewrite andb_true_r.
Qed.

Lemma day_key_in_iff e d userId day :
  In (userId, day)
     (map (day_key e)
          (filter (fun s => is_some (StudySession.end_time s)) (study_sessions d)))
  <-> sessions_on_day e d userId day <> [].
Proof.
  unfold sessions_on_day. split.
  - intros H Hnil. apply in_map_iff in H as [s [Hk Hs]].
    assert (Hin : In s (filter (fun s => day_key_eqb (day_key e s) (userId, day))
                          (filter (fun s => is_some (StudySession.end_time s))
                                  (study_sessions d)))).
    { apply filter_In. split; [assumption|]. now apply day_key_eqb_eq. }
    rewrite Hnil in Hin. contradiction.
  - intros H.
    destruct (filter (fun s => day_key_eqb (day_key e s) (userId, day)) _)
      as [|s g] eqn:Hg; [contradiction|].
    assert (Hin : In s (filter (fun s => day_key_eqb (day_key e s) (userId, day))
                          (filter (fun s => is_some (StudySession.end_time s))
                                  (study_sessions d))))
      by (rewrite Hg; now left).
    apply filter_In in Hin as [Hin Hk]. apply day_key_eqb_eq in Hk.
    apply in_map_iff. exists s. auto.
Qed.


Lemma daily_keys_in e d userId dateRange (k : uuid * Z) :
  In k (filter (fun k => N.eqb (fst k) userId && in_date_range dateRange (snd k))
          (nodup day_key_eq_dec
             (map (day_key e)
                  (filter (fun s => is_some (StudySession.end_time s))
                          (study_sessions d)))))
  <-> In k (map (day_key e)
               (filter (fun s => is_some (StudySession.end_time s)) (study_sessions d)))
      /\ fst k = userId /\ in_date_range dateRange (snd k) = true.
Proof. rewrite filter_In, nodup_In, andb_true_iff, N.eqb_eq. tauto. Qed.

(** The rows of an answer of [getDailySummary]. *)
Lemma getDailySummary_member e d userId dateRange rows r :
  getDailySummary e d userId dateRange = api_success rows ->
  In r rows <->
  exists day,
    in_date_range dateRange day = true
    /\ sessions_on_day e d userId day <> []
    /\ r = daily_study_summary_group (userId, day) (sessions_on_day e d userId day).
Proof.
  rewrite getDailySummary_answer. intros H. unfold api_success in H.
  injection H as <-.
  match goal with
  | |- In r (sort_rows ?le ?l) <-> _ => pose proof (sort_rows_perm le l) as Hperm
  end.
  split.
  - intros Hin. apply (Permutation_in _ Hperm) in Hin.
    apply in_map_iff in Hin as [k [Hr Hk]]. apply daily_keys_in in Hk as [Hk [Hu Hrange]].
    destruct k as [u day]. simpl in Hu, Hrange. subst u.
    exists day. split; [assumption|]. split; [now apply day_key_in_iff|].
    now subst r.
  - intros [day [Hrange [Hne Hr]]].
    apply (Permutation_in _ (Permutation_sym Hperm)).
    apply in_map_iff. exists (userId, day). split; [now subst r|].
    apply daily_keys_in. split; [now apply day_key_in_iff|]. auto.
Qed.

(** The first digit of base 10000 of a positive integer and its weight:
    the fuel of [numeric_head] is enough. *)
Lemma nbase_head_spec (fuel : nat) :
  forall n, 1 <= n < 2 ^ (Z.of_nat fuel + 1) ->
    0 <= fst (nbase_head fuel n)
    /\ 1 <= snd (nbase_head fuel n) < 10000
    /\ snd (nbase_head fuel n) * 10000 ^ fst (nbase_head fuel n) <= n
       < (snd (nbase_head fuel n) + 1) * 10000 ^ fst (nbase_head fuel n).
Proof.
  induction fuel as [|fuel IH]; intros n Hn.
  - change (2 ^ (Z.of_nat 0 + 1)) with 2 in Hn. assert (n = 1) by lia. subst n.
    simpl. lia.
  - cbn [nbase_head]. destruct (Z.ltb_spec n 10000) as [Hlt|Hge].
    + cbn [fst snd]. rewrite Z.pow_0_r. lia.
    + assert (Hpow : 2 ^ (Z.of_nat (S fuel) + 1) = 2 * 2 ^ (Z.of_nat fuel + 1)).
      { replace (Z.of_nat (S fuel) + 1) with (Z.succ (Z.of_nat fuel + 1)) by lia.
        apply Z.pow_succ_r. lia. }
      assert (Hq : 1 <= n / 10000 < 2 ^ (Z.of_nat fuel + 1)).
      { split.
        - apply Z.div_le_lower_bound; lia.
        - apply Z.div_lt_upper_bound; lia. }
      specialize (IH _ Hq).
      destruct (nbase_head fuel (n / 10000)) as [w f]. cbn [fst snd] in *.
      destruct IH as [Hw [Hf [Hlo Hhi]]].
      rewrite Z.pow_add_r by lia. rewrite Z.pow_1_r.
      pose proof (Z.div_mod n 10000 ltac:(lia)) as Hd.
      pose proof (Z.mod_pos_bound n 10000 ltac:(lia)) as Hm.
      split; [lia|]. split; [lia|]. nia.
Qed.

Lemma numeric_head_spec (n : Z) :
  n <> 0 ->
  1 <= snd (numeric_head n) < 10000
  /\ snd (numeric_head n) * 10000 ^ fst (numeric_head n) <= Z.abs n
     < (snd (numeric_head n) + 1) * 10000 ^ fst (numeric_head n).
Proof.
  intros Hn. unfold numeric_head.
  assert (Hpos : 0 < Z.abs n) by lia.
  destruct (Z.log2_spec _ Hpos) as [_ Hhi].
  destruct (nbase_head_spec (Z.to_nat (Z.log2 (Z.abs n))) (Z.abs n)) as [_ H].
  - rewrite Z2Nat.id by apply Z.log2_nonneg.
    replace (Z.log2 (Z.abs n) + 1) with (Z.succ (Z.log2 (Z.abs n))) by lia. lia.
  - exact H.
Qed.






(** Two averages and an array as PostgreSQL gives them: 4/3 to sixteen
    decimals, 1 to twenty, and the types sorted. *)
Example AVG_of_1_1_2 :
  AVG [Some 1; Some 1; None; Some 2] = Some {| digits := 13333333333333333; dscale := 16 |}
  /\ AVG [Some 1] = Some {| digits := 100000000000000000000; dscale := 20 |}
  /\ array_agg_DISTINCT [pomodoro; custom; pomodoro] = [custom; pomodoro].
Proof. repeat split. Qed.


(* ================================================================== *)
(** * 31. User profiles                                                *)
(* ================================================================== *)

Lemma profile_policy_other e (p : UserProfile.t) (userId : uuid) :
  auth_uid e <> Some userId ->
  profile_policy e p && N.eqb (UserProfile.id p) userId = false.
Proof.
  intros Hother. unfold profile_policy, auth_uid_is.
  destruct (auth_uid e) as [u|]; [|reflexivity].
  destruct (N.eqb_spec u (UserProfile.id p)) as [Hu|]; [|reflexivity].
  destruct (N.eqb_spec (UserProfile.id p) userId) as [Hp|]; [|reflexivity].
  exfalso. apply Hother. congruence.
Qed.

(** X23.  The profile of somebody else can be neither read nor changed: for
    a [userId] that is not the caller's, [getProfile] fails with the error
    of [.single()] finding no row, as it does for a profile that does not
    exist, and [updateProfile] fails the same way and changes no row. *)
Theorem profiles_of_others_are_hidden (e : env) (profiles : list UserProfile.t)
    (userId : uuid) (u : UserProfileUpdate.t) :
  auth_uid e <> Some userId ->
  getProfile e profiles userId = api_failure no_single_row
  /\ updateProfile e profiles userId u = (api_failure no_single_row, profiles).
Proof.
  intros Hother. split.
  - unfold getProfile, select_user_profiles. rewrite filter_filter_and.
    rewrite filter_none; [reflexivity|].
    intros p _. now apply profile_policy_other.
  - unfold updateProfile.
    rewrite update_rows_none_selected; [reflexivity|].
    intros p _. now apply profile_policy_other.
Qed.

Lemma profiles_of_others_are_hidden_witness :
  auth_uid (request owner_A t_2025_01_01_10h) <> Some principal_B
  /\ getProfile (request owner_A t_2025_01_01_10h) two_profiles principal_B
     = api_failure no_single_row
  /\ updateProfile (request owner_A t_2025_01_01_10h) two_profiles principal_B
       (rename_to "mallory")
     = (api_failure no_single_row, two_profiles).
Proof.
  assert (H : auth_uid (request owner_A t_2025_01_01_10h) <> Some principal_B)
    by discriminate.
  split; [exact H|].
  exact (profiles_of_others_are_hidden (request owner_A t_2025_01_01_10h) two_profiles
           principal_B (rename_to "mallory") H).
Defined.

(** X24.  [isUsernameAvailable] looks through the caller's policy, which
    shows the caller's own profile only, whereas the unique index looks at
    the whole table: a username that another user holds is reported
    available, and an [updateProfile] to it then fails and changes no row. *)
Theorem taken_username_reported_available (e : env) (profiles : list UserProfile.t)
    (name : string) (other : UserProfile.t) (u : UserProfileUpdate.t)
    (userId : uuid) (excludeUserId : option uuid) :
  In other profiles -> profile_policy e other = false ->
  UserProfile.username other = Some name -> (String.length name <= 50)%nat ->
  (forall p, In p profiles -> profile_policy e p = true -> has_username name p = false) ->
  UserProfileUpdate.username u = Some name ->
  isUsernameAvailable e profiles name excludeUserId = api_success true
  /\ success (fst (updateProfile e profiles userId u)) = false
  /\ snd (updateProfile e profiles userId u) = profiles.
Proof.
  intros Hin Hpol Hname Hlen Hown Hu. split.
  - unfold isUsernameAvailable, select_user_profiles.
    assert (Hnone : filter (has_username name) (filter (profile_policy e) profiles) = []).
    { apply filter_none. intros p Hp. apply filter_In in Hp as [Hp Hvis]. now apply Hown. }
    rewrite Hnone. now destruct excludeUserId.
  - unfold updateProfile.
    destruct (update_rows _ _ profiles) as [err|[tbl out]] eqn:Hupd;
      cbn [bind]; [split; reflexivity|]. cbn [snd fst].
    destruct (single out) as [err|r] eqn:Hsingle; cbn [bind]; [split; reflexivity|].
    exfalso. apply single_inr in Hsingle. subst out.
    destruct (update_rows_returned _ _ _ _ _ Hupd r (or_introl eq_refl))
      as [_ [p [Hp [Hsel Hrow]]]].
    apply andb_prop in Hsel as [Hvis _].
    unfold profile_update_row in Hrow. inv_bind Hrow.
    rewrite Hu in Hm. cbn [varchar_opt] in Hm. rewrite varchar_short in Hm by assumption.
    cbn [bind ret] in Hm. injection Hm as <-.
    apply negb_true_iff in Hg2. cbn [username_taken] in Hg2.
    assert (Htaken : existsb (fun p' => negb (N.eqb (UserProfile.id p') (UserProfile.id p))
                                        && has_username name p') profiles = true).
    { apply existsb_exists. exists other. split; [assumption|].
      unfold has_username. rewrite Hname, String.eqb_refl, andb_true_r.
      apply negb_true_iff. apply N.eqb_neq. intros Heq.
      unfold profile_policy in Hpol, Hvis. rewrite Heq in Hpol. congruence. }
    congruence.
Qed.

Lemma taken_username_reported_available_witness :
  In (UserProfile.mk principal_B (Some "bob"%string) None None
        t_2025_01_01_10h t_2025_01_01_10h "{}"%string) two_profiles
  /\ isUsernameAvailable (request owner_A t_2025_01_01_10h) two_profiles "bob" None
     = api_success true
  /\ success (fst (updateProfile (request owner_A t_2025_01_01_10h) two_profiles owner_A
                     (rename_to "bob"))) = false
  /\ snd (updateProfile (request owner_A t_2025_01_01_10h) two_profiles owner_A
            (rename_to "bob")) = two_profiles.
Proof.
  assert (Hin : In (UserProfile.mk principal_B (Some "bob"%string) None None
                      t_2025_01_01_10h t_2025_01_01_10h "{}"%string) two_profiles)
    by (simpl; auto).
  split; [exact Hin|].
  apply (taken_username_reported_available (request owner_A t_2025_01_01_10h) two_profiles
           "bob"%string _ (rename_to "bob") owner_A None Hin); try reflexivity.
  - simpl. lia.
  - intros p Hp Hvis. simpl in Hp. destruct Hp as [<-|[<-|[]]]; [reflexivity|discriminate].
Defined.

Lemma profile_update_row_inr e profiles u OLD NEW :
  profile_update_row e profiles u OLD = inr NEW ->
  UserProfile.id NEW = UserProfile.id OLD
  /\ profile_policy e NEW = true
  /\ username_length NEW = true
  /\ username_taken profiles (UserProfile.id OLD) (UserProfile.username NEW) = false
  /\ (forall x, UserProfile.username NEW = Some x ->
                (String.length x <= 50)%nat \/ UserProfile.username OLD = Some x).
Proof.
  unfold profile_update_row. intros H. inv_bind H. subst NEW.
  cbn [UserProfile.id UserProfile.username]. apply negb_true_iff in Hg2.
  split; [reflexivity|]. split; [assumption|]. split; [assumption|].
  split; [assumption|].
  intros x Hx. subst a. unfold varchar_opt in Hm.
  destruct (UserProfileUpdate.username u) as [given|].
  - inv_bind Hm. injection Hm as <-. left. now apply (varchar_length 50 given).
  - injection Hm as Hm. now right.
Qed.

(** X25.  [updateProfile] keeps the constraints of [user_profiles]: in a
    table with unique keys, usernames of 3 to 50 characters and no username
    held twice, this is still so after the call, whatever its arguments; the
    keys are the same, the profiles of others are the rows they were, and
    when the call succeeds [getProfile] answers with the row it answered
    with. *)
Theorem updateProfile_keeps_constraints (e : env) (profiles : list UserProfile.t)
    (userId : uuid) (u : UserProfileUpdate.t) :
  profiles_constraints_hold profiles ->
  profiles_constraints_hold (snd (updateProfile e profiles userId u))
  /\ map UserProfile.id (snd (updateProfile e profiles userId u))
     = map UserProfile.id profiles
  /\ filter (fun p => negb (profile_policy e p)) (snd (updateProfile e profiles userId u))
     = filter (fun p => negb (profile_policy e p)) profiles
  /\ (forall r, fst (updateProfile e profiles userId u) = api_success r ->
                getProfile e (snd (updateProfile e profiles userId u)) userId
                = api_success r).
Proof.
  intros Hok. unfold updateProfile.
  destruct (update_rows _ _ profiles) as [err|[tbl out]] eqn:Hupd; cbn [bind].
  { cbn [fst snd]. split; [assumption|]. split; [reflexivity|]. split; [reflexivity|].
    intros r Hr. discriminate. }
  cbn [fst snd].
  destruct (single out) as [err|r] eqn:Hsingle; cbn [bind ret fst snd].
  { split; [assumption|]. split; [reflexivity|]. split; [reflexivity|].
    intros r Hr. discriminate. }
  destruct Hok as [Hnd [Hlen Huniq]].
  assert (Hids : map UserProfile.id tbl = map UserProfile.id profiles).
  { apply (update_rows_keys _ _ UserProfile.id _ _ _) in Hupd; [assumption|].
    intros p p' Hp. now apply profile_update_row_inr in Hp. }
  assert (Hrows : forall p', In p' tbl ->
            (In p' profiles /\ (profile_policy e p' && N.eqb (UserProfile.id p') userId) = false)
            \/ exists p, In p profiles
                         /\ (profile_policy e p && N.eqb (UserProfile.id p) userId) = true
                         /\ profile_update_row e profiles u p = inr p')
    by (intros p' Hp'; exact (update_rows_table _ _ _ _ _ Hupd p' Hp')).
  assert (Hnew_old : forall p p' q x,
            In p profiles -> profile_update_row e profiles u p = inr p' ->
            In q profiles -> UserProfile.username p' = Some x ->
            UserProfile.username q = Some x -> UserProfile.id p' = UserProfile.id q).
  { intros p p' q x Hp Hrow Hq Hx Hqx.
    apply profile_update_row_inr in Hrow as [Hid [_ [_ [Htaken _]]]].
    rewrite Hx in Htaken. cbn [username_taken] in Htaken. rewrite Hid.
    destruct (N.eqb_spec (UserProfile.id q) (UserProfile.id p)) as [Heq|Hne]; [auto|].
    exfalso.
    assert (Ht : existsb (fun p0 => negb (N.eqb (UserProfile.id p0) (UserProfile.id p))
                                    && has_username x p0) profiles = true).
    { apply existsb_exists. exists q. split; [assumption|].
      unfold has_username. rewrite Hqx, String.eqb_refl, andb_true_r.
      apply negb_true_iff. now apply N.eqb_neq. }
    congruence. }
  split; [split; [|split]|split; [|split]].
  - now rewrite Hids.
  - intros p' x Hp' Hx.
    destruct (Hrows p' Hp') as [[Hold _]|[p [Hp [_ Hrow]]]]; [eapply Hlen; eassumption|].
    apply profile_update_row_inr in Hrow as [_ [_ [Hmin [_ Hmax]]]].
    unfold username_length in Hmin. rewrite Hx in Hmin. apply Z.leb_le in Hmin.
    unfold char_length in Hmin. split; [lia|].
    destruct (Hmax x Hx) as [Hle|Hold]; [assumption|].
    now apply (Hlen p x Hp Hold).
  - intros p' q' x Hp' Hq' Hpx Hqx.
    destruct (Hrows p' Hp') as [[Hpold _]|[p [Hp [Hpsel Hprow]]]];
      destruct (Hrows q' Hq') as [[Hqold _]|[q [Hq [Hqsel Hqrow]]]].
    + exact (Huniq p' q' x Hpold Hqold Hpx Hqx).
    + symmetry. exact (Hnew_old q q' p' x Hq Hqrow Hpold Hqx Hpx).
    + exact (Hnew_old p p' q' x Hp Hprow Hqold Hpx Hqx).
    + apply profile_update_row_inr in Hprow as [Hpid _].
      apply profile_update_row_inr in Hqrow as [Hqid _].
      apply andb_prop in Hpsel as [_ Hpsel]. apply andb_prop in Hqsel as [_ Hqsel].
      apply N.eqb_eq in Hpsel, Hqsel. congruence.
  - exact Hids.
  - apply (update_rows_filter_unselected _ _ (fun p => negb (profile_policy e p)) _ _ _)
      in Hupd; [exact Hupd| |].
    + intros p Hsel. apply andb_prop in Hsel as [Hvis _]. now rewrite Hvis.
    + intros p p' _ Hrow. apply profile_update_row_inr in Hrow as [_ [Hvis _]].
      now rewrite Hvis.
  - intros r0 Hr0. unfold api_success in Hr0. injection Hr0 as <-.
    apply single_inr in Hsingle. subst out.
    destruct (update_rows_returned _ _ _ _ _ Hupd r (or_introl eq_refl))
      as [Hin [p [Hp [Hsel Hrow]]]].
    apply profile_update_row_inr in Hrow as [Hid [Hvis _]].
    apply andb_prop in Hsel as [_ Hsel]. apply N.eqb_eq in Hsel.
    unfold getProfile, select_user_profiles. rewrite <- Hsel, <- Hid.
    rewrite (select_by_key UserProfile.id (profile_policy e) tbl r);
      [reflexivity| |assumption|assumption].
    now rewrite Hids.
Qed.

Lemma two_profiles_constraints : profiles_constraints_hold two_profiles.
Proof.
  split; [|split].
  - simpl. repeat constructor; simpl; intuition discriminate.
  - intros p x Hp Hx. simpl in Hp.
    destruct Hp as [<-|[<-|[]]]; simpl in Hx; injection Hx as <-; simpl; lia.
  - intros p q x Hp Hq Hpx Hqx. simpl in Hp, Hq.
    destruct Hp as [<-|[<-|[]]], Hq as [<-|[<-|[]]]; simpl in *; congruence.
Qed.

Lemma updateProfile_keeps_constraints_witness :
  profiles_constraints_hold two_profiles
  /\ profiles_constraints_hold
       (snd (updateProfile (request owner_A (t_2025_01_01_10h + minutes 5)) two_profiles
               owner_A (rename_to "alicia")))
  /\ map UserProfile.username
       (snd (updateProfile (request owner_A (t_2025_01_01_10h + minutes 5)) two_profiles
               owner_A (rename_to "alicia")))
     = [Some "alicia"%string; Some "bob"%string].
Proof.
  split; [exact two_profiles_constraints|].
  destruct (updateProfile_keeps_constraints
              (request owner_A (t_2025_01_01_10h + minutes 5)) two_profiles owner_A
              (rename_to "alicia") two_profiles_constraints) as [H _].
  split; [exact H|reflexivity].
Defined.

(* ================================================================== *)
(** * 32. How the operations fit together                              *)
(* ================================================================== *)

(** X26.  The two views do not look at the caller: [getUserStats] and
    [getDailySummary] answer any caller, signed in or not, with what they
    answer the owner at the same instant and in the same time zone.  The
    policies of [study_sessions] do not apply to them. *)
Theorem views_ignore_caller (e e' : env) (d : database) (userId : uuid)
    (dateRange : option DateRangeFilter) :
  pg_now e' = pg_now e -> pg_timezone e' = pg_timezone e ->
  getUserStats e' d userId = getUserStats e d userId
  /\ getDailySummary e' d userId dateRange = getDailySummary e d userId dateRange.
Proof.
  intros Hnow Hzone. destruct e as [a n z j], e' as [a' n' z' j'].
  simpl in Hnow, Hzone. subst n' z'. split; reflexivity.
Qed.

Lemma views_ignore_caller_witness :
  pg_now (request principal_B (t_2025_01_01_10h + minutes 30)) = pg_now c6_request
  /\ pg_timezone (request principal_B (t_2025_01_01_10h + minutes 30))
     = pg_timezone c6_request
  /\ option_map UserStudyStats.total_minutes_studied
       (data (getUserStats (request principal_B (t_2025_01_01_10h + minutes 30))
                c6_one_ended owner_A))
     = Some (Some 25)
  /\ getDailySummary (request principal_B (t_2025_01_01_10h + minutes 30))
       c6_one_ended owner_A None
     = getDailySummary c6_request c6_one_ended owner_A None.
Proof.
  split; [reflexivity|]. split; [reflexivity|].
  destruct (views_ignore_caller c6_request
              (request principal_B (t_2025_01_01_10h + minutes 30))
              c6_one_ended owner_A None eq_refl eq_refl) as [H1 H2].
  split; [rewrite H1; reflexivity|exact H2].
Defined.

Lemma getActiveSession_some e d userId s :
  getActiveSession e d userId = api_success (Some s) ->
  In s (study_sessions d) /\ active_session_of e userId s = true.
Proof.
  unfold getActiveSession. rewrite active_query_rows. intros H.
  set (le := fun a b : StudySession.t =>
               StudySession.start_time b <=? StudySession.start_time a) in H.
  pose proof (sort_rows_perm le (filter (active_session_of e userId) (study_sessions d)))
    as Hperm.
  destruct (sort_rows le (filter (active_session_of e userId) (study_sessions d)))
    as [|s1 rest]; [discriminate|].
  cbn [firstn maybeSingle ret respond_read] in H.
  unfold api_success in H. injection H as <-.
  apply filter_In. eapply Permutation_in; [exact Hperm|now left].
Qed.

(** X27.  A session that has been ended is no longer the active one: after
    a successful [endSession], whoever asks [getActiveSession], for whatever
    user, is not answered with that session. *)
Theorem ended_session_is_not_active (e e' : env) (d : database)
    (endData : option EndData.t) (s0 : StudySession.t) (userId : uuid)
    (s : StudySession.t) :
  NoDup (session_ids d) -> In s0 (study_sessions d) -> can_end e endData s0 = true ->
  getActiveSession e' (snd (endSession e d (StudySession.id s0) endData)) userId
  = api_success (Some s) ->
  StudySession.id s <> StudySession.id s0.
Proof.
  intros Hnd Hin Hcan Hactive Hid.
  rewrite (endSession_owned e d endData s0 Hnd Hin Hcan) in Hactive. cbn [snd] in Hactive.
  apply getActiveSession_some in Hactive as [Hs Hact].
  cbn [study_sessions with_study_sessions] in Hs.
  apply replace_session_only in Hs; [|exact Hid]. subst s.
  unfold active_session_of in Hact. cbn [ended_row StudySession.end_time is_some] in Hact.
  rewrite andb_false_r in Hact. discriminate.
Qed.

Lemma ended_session_is_not_active_witness :
  NoDup (session_ids two_active_sessions)
  /\ can_end cascade_request None
       (session_row 11%N owner_A (t_2025_01_01_10h + minutes 40) None) = true
  /\ getActiveSession cascade_request
       (snd (endSession cascade_request two_active_sessions 11%N None)) owner_A
     = api_success (Some (session_row 10%N owner_A t_2025_01_01_10h None))
  /\ StudySession.id (session_row 10%N owner_A t_2025_01_01_10h None) <> 11%N.
Proof.
  assert (Hnd : NoDup (session_ids two_active_sessions)).
  { unfold session_ids. simpl. repeat constructor; simpl; intuition discriminate. }
  assert (Hcan : can_end cascade_request None
                   (session_row 11%N owner_A (t_2025_01_01_10h + minutes 40) None) = true)
    by (vm_compute; reflexivity).
  assert (Hact : getActiveSession cascade_request
                   (snd (endSession cascade_request two_active_sessions 11%N None)) owner_A
                 = api_success (Some (session_row 10%N owner_A t_2025_01_01_10h None)))
    by (vm_compute; reflexivity).
  split; [exact Hnd|]. split; [exact Hcan|]. split; [exact Hact|].
  exact (ended_session_is_not_active cascade_request cascade_request two_active_sessions
           None (session_row 11%N owner_A (t_2025_01_01_10h + minutes 40) None) owner_A
           (session_row 10%N owner_A t_2025_01_01_10h None)
           Hnd (or_intror (or_introl eq_refl)) Hcan Hact).
Defined.

(* ------------------------------------------------------------------ *)
(** ** The streak and the daily summary                                 *)
(* ------------------------------------------------------------------ *)

Lemma ended_on_day_iff e d owner day :
  has_ended_session_on e d owner day <-> sessions_on_day e d owner day <> [].
Proof.
  rewrite <- day_key_in_iff. unfold has_ended_session_on. split.
  - intros [s [Hin [Hu [Hday Hend]]]]. apply in_map_iff. exists s. split.
    + unfold day_key. now rewrite Hu, Hday.
    + apply filter_In. split; [assumption|].
      destruct (StudySession.end_time s); [reflexivity|contradiction].
  - intros H. apply in_map_iff in H as [s [Hk Hin]]. apply filter_In in Hin as [Hin Hend].
    unfold day_key in Hk. injection Hk as Hu Hday.
    exists s. split; [assumption|]. split; [assumption|]. split; [assumption|].
    destruct (StudySession.end_time s); [discriminate|discriminate].
Qed.

(** X28.  The streak and the daily summary agree: if [getStudyStreak]
    answers [n] for an owner, then [getDailySummary], without a date range,
    has a row for each of the [n] days up to today (in the time zone of the
    server), each with at least one session, and it has no row for the day
    before them. *)
Theorem streak_days_in_summary (e : env) (d : database) (owner : uuid) (n : Z) :
  Z.of_nat (List.length (study_sessions d)) <= int4_max ->
  getStudyStreak e d owner = Some (api_success n) ->
  exists rows,
    getDailySummary e d owner None = api_success rows
    /\ (forall k, 0 <= k < n ->
          exists r, In r rows
                    /\ DailyStudySummary.study_date r = CURRENT_DATE e - k
                    /\ 1 <= DailyStudySummary.sessions_count r)
    /\ (forall r, In r rows -> DailyStudySummary.study_date r <> CURRENT_DATE e - n).
Proof.
  intros Hmax Hstreak.
  destruct (get_study_streak_run e d owner Hmax) as [n0 [Hn0 [_ [Hrun Hstop]]]].
  unfold getStudyStreak in Hstreak. rewrite Hn0 in Hstreak. simpl in Hstreak.
  assert (Hsame : n = n0).
  { destruct (Z.eqb_spec n0 0) as [Hz|Hz]; unfold api_success in Hstreak;
      injection Hstreak as Heq; lia. }
  clear Hstreak. subst n.
  pose proof (getDailySummary_answer e d owner None) as Hans.
  eexists. split; [exact Hans|].
  pose proof (fun r => getDailySummary_member e d owner None _ r Hans) as Hrows.
  split.
  - intros k Hk. specialize (Hrun k Hk). apply studied_on_iff in Hrun.
    apply ended_on_day_iff in Hrun.
    eexists. split; [apply Hrows; exists (CURRENT_DATE e - k); auto|].
    split; [reflexivity|].
    cbn [daily_study_summary_group DailyStudySummary.sessions_count]. unfold COUNT.
    destruct (sessions_on_day e d owner (CURRENT_DATE e - k)); [contradiction|].
    simpl. lia.
  - intros r Hr Hday. apply Hrows in Hr as [day [_ [Hne ->]]].
    cbn [daily_study_summary_group DailyStudySummary.study_date snd] in Hday. subst day.
    apply ended_on_day_iff in Hne. apply studied_on_iff in Hne. congruence.
Qed.

Lemma streak_days_in_summary_witness :
  Z.of_nat (List.length (study_sessions c2_three_days)) <= int4_max
  /\ getStudyStreak c2_request c2_three_days owner_A = Some (api_success 3)
  /\ exists rows,
       getDailySummary c2_request c2_three_days owner_A None = api_success rows
       /\ (forall k, 0 <= k < 3 ->
             exists r, In r rows
                       /\ DailyStudySummary.study_date r = CURRENT_DATE c2_request - k
                       /\ 1 <= DailyStudySummary.sessions_count r)
       /\ (forall r, In r rows ->
                     DailyStudySummary.study_date r <> CURRENT_DATE c2_request - 3).
Proof.
  assert (Hmax : Z.of_nat (List.length (study_sessions c2_three_days)) <= int4_max)
    by (vm_compute; discriminate).
  assert (Hstreak : getStudyStreak c2_request c2_three_days owner_A = Some (api_success 3))
    by (vm_compute; reflexivity).
  split; [exact Hmax|]. split; [exact Hstreak|].
  exact (streak_days_in_summary c2_request c2_three_days owner_A 3 Hmax Hstreak).
Defined.

(* ------------------------------------------------------------------ *)
(** ** Deleting, then reading                                           *)
(* ------------------------------------------------------------------ *)

(** X29.  What was deleted is not found again: [deleteSession] and
    [deleteTask] always answer with success, whether or not a row was
    deleted, and afterwards the caller's [getSession] and [getTask] for the
    same key fail with the error of [.single()] finding no row, and
    [getSessionTags] lists no tag for the session. *)
Theorem deleted_rows_are_gone (e : env) (d : database) (sessionId taskId : uuid) :
  fst (deleteSession e d sessionId) = api_success_null
  /\ getSession e (snd (deleteSession e d sessionId)) sessionId
     = api_failure no_single_row
  /\ getSessionTags e (snd (deleteSession e d sessionId)) sessionId = api_success []
  /\ fst (deleteTask e d taskId) = api_success_null
  /\ getTask e (snd (deleteTask e d taskId)) taskId = api_failure no_single_row.
Proof.
  assert (Hgone : forall s, In s (study_sessions (snd (deleteSession e d sessionId))) ->
                            session_policy e s && N.eqb (StudySession.id s) sessionId = false).
  { intros s Hs. simpl in Hs. apply filter_In in Hs as [_ Hs].
    now apply negb_true_iff in Hs. }
  split; [reflexivity|]. split; [|split; [|split; [reflexivity|]]].
  - unfold getSession, select_study_sessions. rewrite filter_filter_and.
    rewrite filter_none; [reflexivity|]. exact Hgone.
  - unfold getSessionTags, select_study_session_tags. rewrite filter_filter_and.
    rewrite filter_none; [reflexivity|].
    intros g _. destruct (N.eqb_spec (StudySessionTag.session_id g) sessionId) as [Hid|];
      [|apply andb_false_r].
    rewrite andb_true_r. unfold tag_policy, tag_policy_for. rewrite Hid.
    apply existsb_none. intros s Hs. specialize (Hgone s Hs).
    unfold session_policy in Hgone.
    destruct (auth_uid_is e (StudySession.user_id s)),
             (N.eqb (StudySession.id s) sessionId); try reflexivity; discriminate.
  - unfold getTask, select_tasks. rewrite filter_filter_and.
    rewrite filter_none; [reflexivity|].
    intros t Ht. simpl in Ht. apply filter_In in Ht as [_ Ht].
    now apply negb_true_iff in Ht.
Qed.

(* ------------------------------------------------------------------ *)
(** ** What [createTask] accepts                                        *)
(* ------------------------------------------------------------------ *)

Lemma string_eqb_empty (s : string) :
  negb (String.eqb s "") = (0 <? char_length s).
Proof. destruct s; reflexivity. Qed.

Lemma existsb_flip_id (rows : list StudySession.t) (sid : uuid) :
  existsb (fun s => N.eqb (StudySession.id s) sid) rows
  = existsb (N.eqb sid) (map StudySession.id rows).
Proof.
  induction rows as [|s rows IH]; simpl; [reflexivity|].
  now rewrite IH, N.eqb_sym.
Qed.

(** X30.  [createTask] with a title of at most 500 characters succeeds
    exactly when neither the title nor the description holds the character
    U+0000, the task is for the caller, the title is not empty, [priority]
    and [order_index] fit an INTEGER and the session named, if any, is
    stored, be it the caller's or not.  When it succeeds, the new task is
    added at the end of the table, not completed; when it fails, nothing is
    stored. *)
Theorem createTask_accepts (e : env) (d : database) (ins : TaskInsert.t) :
  (String.length (TaskInsert.title ins) <= 500)%nat ->
  success (fst (createTask e d ins)) = task_acceptable e d ins
  /\ (task_acceptable e d ins = true ->
      exists row,
        fst (createTask e d ins) = api_success row
        /\ tasks (snd (createTask e d ins)) = tasks d ++ [row]
        /\ Task.user_id row = TaskInsert.user_id ins
        /\ Task.title row = TaskInsert.title ins
        /\ Task.session_id row = TaskInsert.session_id ins
        /\ Task.is_completed row = Some false /\ Task.completed_at row = None)
  /\ (task_acceptable e d ins = false -> snd (createTask e d ins) = d).
Proof.
  intros Hlen. unfold createTask, insert_task, task_acceptable.
  rewrite varchar_short by assumption. cbn [bind ret].
  unfold task_policy, title_not_empty, task_session_fk.
  cbn [Task.user_id Task.title Task.session_id].
  rewrite string_eqb_empty.
  destruct (text_ok (TaskInsert.title ins)),
           (text_ok_opt (TaskInsert.description ins)),
           (int4_column (TaskInsert.priority ins)),
           (int4_column (TaskInsert.order_index ins)),
           (auth_uid_is e (TaskInsert.user_id ins)),
           (0 <? char_length (TaskInsert.title ins));
    cbn [andb guard bind ret respond fst snd success api_failure];
    try (split; [reflexivity|split; [discriminate|reflexivity]]).
  destruct (TaskInsert.session_id ins) as [sid|] eqn:Hsid.
  - unfold session_ids. rewrite <- existsb_flip_id.
    destruct (existsb (fun s => N.eqb (StudySession.id s) sid) (study_sessions d));
      cbn [guard bind ret respond fst snd success api_failure api_success single];
      [|split; [reflexivity|split; [discriminate|reflexivity]]].
    split; [reflexivity|]. split; [|discriminate].
    intros _. eexists. split; [reflexivity|]. cbn. auto 10.
  - cbn [guard bind ret respond fst snd success api_failure api_success single].
    split; [reflexivity|]. split; [|discriminate].
    intros _. eexists. split; [reflexivity|]. cbn. auto 10.
Qed.

(** Two instances of X30: principal B creates a task that names a session
    of owner A; the same task with the character U+0000 in its title is
    refused. *)
Lemma createTask_accepts_witness :
  (String.length (TaskInsert.title
                    (TaskInsert.mk principal_B (Some 10%N) "borrow" None None None None))
   <= 500)%nat
  /\ task_acceptable (request principal_B (t_2025_01_01_10h + minutes 20)) tasks_database
       (TaskInsert.mk principal_B (Some 10%N) "borrow" None None None None) = true
  /\ success (fst (createTask (request principal_B (t_2025_01_01_10h + minutes 20))
                     tasks_database
                     (TaskInsert.mk principal_B (Some 10%N) "borrow" None None None None)))
     = true
  /\ success (fst (createTask (request principal_B (t_2025_01_01_10h + minutes 20))
                     tasks_database
                     (TaskInsert.mk principal_B (Some 10%N)
                        (String "b" (String "000" EmptyString)) None None None None)))
     = false.
Proof.
  assert (Hlen : (String.length
                    (TaskInsert.title
                       (TaskInsert.mk principal_B (Some 10%N) "borrow" None None None None))
                  <= 500)%nat) by (simpl; lia).
  assert (Hlen' : (String.length
                     (TaskInsert.title
                        (TaskInsert.mk principal_B (Some 10%N)
                           (String "b" (String "000" EmptyString)) None None None None))
                   <= 500)%nat) by (simpl; lia).
  split; [exact Hlen|]. split; [reflexivity|].
  destruct (createTask_accepts (request principal_B (t_2025_01_01_10h + minutes 20))
              tasks_database
              (TaskInsert.mk principal_B (Some 10%N) "borrow" None None None None) Hlen)
    as [H _].
  destruct (createTask_accepts (request principal_B (t_2025_01_01_10h + minutes 20))
              tasks_database
              (TaskInsert.mk principal_B (Some 10%N)
                 (String "b" (String "000" EmptyString)) None None None None) Hlen')
    as [H' _].
  split; [rewrite H; reflexivity|rewrite H'; reflexivity].
Defined.

(** A string of a body that holds the character U+0000 fails the call with
    22P05 and nothing is stored, be it a tag, the title of a task or the
    notes given to [endSession]. *)
Example body_with_U0000_is_refused :
  let nul := String "000"%char EmptyString in
  let tagged := addSessionTags c4_request c4_database 10%N ["math"%string; nul] in
  let created :=
    createTask (request principal_B (t_2025_01_01_10h + minutes 20)) tasks_database
      (TaskInsert.mk principal_B None "read" (Some nul) None None None) in
  let ended :=
    endSession c5_first_request c4_database 10%N
      (Some (EndData.mk (Some 4) None (Some nul))) in
  error_code_of (fst tagged) = Some "22P05"%string
  /\ snd tagged = c4_database
  /\ error_code_of (fst created) = Some "22P05"%string
  /\ snd created = tasks_database
  /\ error_code_of (fst ended) = Some "22P05"%string
  /\ snd ended = c4_database.
Proof. vm_compute. repeat split. Qed.
